(** * movies-advisor-nlp: a shallow embedding of the scraping pipeline

    The development follows the Python sources
    - [movies_advisor/movies_finder.py] (class [MoviesFinder], current copy),
    - [movies_finder.py]                (class [MoviesFinder], legacy copy),
    - [utils/log.py]                    (class [Logger]).

    Python [str] values are sequences of Unicode code points; they are
    modelled as lists of [N].  Exceptions are modelled by an explicit
    result type, object state ([self._info], the log file, the requests
    sent) by explicit state passing. *)

From Stdlib Require Import QArith String Ascii DecimalString.
From stdpp Require Import gmap list strings.

Local Open Scope string_scope.
Local Open Scope N_scope.
Local Open Scope list_scope.

(** ** Python strings *)

Module PyStr.

(** A character is its code point, a string the list of its characters. *)
Abbreviation char := N (only parsing).
Abbreviation pystr := (list N) (only parsing).

(** An ASCII literal of the source as a code-point sequence. *)
Definition lit (s : string) : pystr :=
  List.map N_of_ascii (list_ascii_of_string s).

Definition in_ranges (c : char) (rs : list (N * N)) : bool :=
  existsb (fun r => (fst r <=? c) && (c <=? snd r)) rs.

(** [str.isspace] for one character (Unicode 14 tables of CPython 3.11). *)
Definition space_ranges : list (N * N) :=
  [ (0x9, 0xd); (0x1c, 0x20); (0x85, 0x85); (0xa0, 0xa0);
    (0x1680, 0x1680); (0x2000, 0x200a); (0x2028, 0x2029);
    (0x202f, 0x202f); (0x205f, 0x205f); (0x3000, 0x3000) ].

Definition isspace (c : char) : bool := in_ranges c space_ranges.

Fixpoint lstrip (s : pystr) : pystr :=
  match s with
  | [] => []
  | c :: s' => if isspace c then lstrip s' else s
  end.

Definition rstrip (s : pystr) : pystr := rev (lstrip (rev s)).

(** [s.strip()] *)
Definition strip (s : pystr) : pystr := rstrip (lstrip s).

Definition eqb (a b : pystr) : bool := bool_decide (a = b).

(** [s.startswith(p)] *)
Fixpoint startswith (p s : pystr) : bool :=
  match p, s with
  | [], _ => true
  | _ :: _, [] => false
  | a :: p', b :: s' => (a =? b) && startswith p' s'
  end.

(** [s.endswith(p)] *)
Definition endswith (p s : pystr) : bool := startswith (rev p) (rev s).

(** [p in s] *)
Fixpoint contains (p s : pystr) : bool :=
  startswith p s ||
  match s with
  | [] => false
  | _ :: s' => contains p s'
  end.

(** [s.replace(old, new)] for a non-empty [old]: occurrences are replaced
    left to right and do not overlap.  [skip] counts the characters of
    the occurrence just replaced that are still to be passed over. *)
Fixpoint replace_from (old new : pystr) (skip : nat) (s : pystr) : pystr :=
  match s with
  | [] => []
  | c :: s' =>
      match skip with
      | S k => replace_from old new k s'
      | O =>
          if startswith old s
          then new ++ replace_from old new (Nat.pred (length old)) s'
          else c :: replace_from old new 0 s'
      end
  end.

(** [s.replace(old, new)]; with an empty [old] Python puts [new] in front
    of every character and at the end. *)
Definition replace (old new s : pystr) : pystr :=
  match old with
  | [] => new ++ flat_map (fun c => c :: new) s
  | _ :: _ => replace_from old new 0 s
  end.

(** [s.split(sep)] for a non-empty [sep] (every call site passes a
    non-empty literal; Python raises [ValueError] on an empty one).
    [cur] is the piece being read, reversed. *)
Fixpoint split_from (sep : pystr) (skip : nat) (cur s : pystr)
  : list pystr :=
  match s with
  | [] => [rev cur]
  | c :: s' =>
      match skip with
      | S k => split_from sep k cur s'
      | O =>
          if startswith sep s
          then rev cur :: split_from sep (Nat.pred (length sep)) [] s'
          else split_from sep 0 (c :: cur) s'
      end
  end.

Definition split (sep s : pystr) : list pystr := split_from sep 0 [] s.

(** [str.isdigit] for one character: Numeric_Type Digit or Decimal. *)
Definition digit_ranges : list (N * N) :=
  [ (0x30, 0x39); (0xb2, 0xb3); (0xb9, 0xb9); (0x660, 0x669);
    (0x6f0, 0x6f9); (0x7c0, 0x7c9); (0x966, 0x96f); (0x9e6, 0x9ef);
    (0xa66, 0xa6f); (0xae6, 0xaef); (0xb66, 0xb6f); (0xbe6, 0xbef);
    (0xc66, 0xc6f); (0xce6, 0xcef); (0xd66, 0xd6f); (0xde6, 0xdef);
    (0xe50, 0xe59); (0xed0, 0xed9); (0xf20, 0xf29); (0x1040, 0x1049);
    (0x1090, 0x1099); (0x1369, 0x1371); (0x17e0, 0x17e9); (0x1810, 0x1819);
    (0x1946, 0x194f); (0x19d0, 0x19da); (0x1a80, 0x1a89); (0x1a90, 0x1a99);
    (0x1b50, 0x1b59); (0x1bb0, 0x1bb9); (0x1c40, 0x1c49); (0x1c50, 0x1c59);
    (0x2070, 0x2070); (0x2074, 0x2079); (0x2080, 0x2089); (0x2460, 0x2468);
    (0x2474, 0x247c); (0x2488, 0x2490); (0x24ea, 0x24ea); (0x24f5, 0x24fd);
    (0x24ff, 0x24ff); (0x2776, 0x277e); (0x2780, 0x2788); (0x278a, 0x2792);
    (0xa620, 0xa629); (0xa8d0, 0xa8d9); (0xa900, 0xa909); (0xa9d0, 0xa9d9);
    (0xa9f0, 0xa9f9); (0xaa50, 0xaa59); (0xabf0, 0xabf9); (0xff10, 0xff19);
    (0x104a0, 0x104a9); (0x10a40, 0x10a43); (0x10d30, 0x10d39);
    (0x10e60, 0x10e68); (0x11052, 0x1105a); (0x11066, 0x1106f);
    (0x110f0, 0x110f9); (0x11136, 0x1113f); (0x111d0, 0x111d9);
    (0x112f0, 0x112f9); (0x11450, 0x11459); (0x114d0, 0x114d9);
    (0x11650, 0x11659); (0x116c0, 0x116c9); (0x11730, 0x11739);
    (0x118e0, 0x118e9); (0x11950, 0x11959); (0x11c50, 0x11c59);
    (0x11d50, 0x11d59); (0x11da0, 0x11da9); (0x16a60, 0x16a69);
    (0x16ac0, 0x16ac9); (0x16b50, 0x16b59); (0x1d7ce, 0x1d7ff);
    (0x1e140, 0x1e149); (0x1e2f0, 0x1e2f9); (0x1e950, 0x1e959);
    (0x1f100, 0x1f10a); (0x1fbf0, 0x1fbf9) ].

Definition isdigit_char (c : char) : bool := in_ranges c digit_ranges.

(** [s.isdigit()]: at least one character and all of them digits. *)
Definition isdigit (s : pystr) : bool :=
  match s with
  | [] => false
  | _ :: _ => forallb isdigit_char s
  end.

(** The decimal digits (General_Category Nd) come in runs of ten, the
    k-th character of a run having value k; the table lists the first
    character of every run, the mathematical digits at [0x1d7ce] being
    five runs in a row. *)
Definition decimal_runs : list (N * N) :=
  List.map (fun a => (a, a + 9))
    [ 0x30; 0x660; 0x6f0; 0x7c0; 0x966; 0x9e6; 0xa66; 0xae6;
      0xb66; 0xbe6; 0xc66; 0xce6; 0xd66; 0xde6; 0xe50; 0xed0;
      0xf20; 0x1040; 0x1090; 0x17e0; 0x1810; 0x1946; 0x19d0; 0x1a80;
      0x1a90; 0x1b50; 0x1bb0; 0x1c40; 0x1c50; 0xa620; 0xa8d0; 0xa900;
      0xa9d0; 0xa9f0; 0xaa50; 0xabf0; 0xff10; 0x104a0; 0x10d30; 0x11066;
      0x110f0; 0x11136; 0x111d0; 0x112f0; 0x11450; 0x114d0; 0x11650;
      0x116c0; 0x11730; 0x118e0; 0x11950; 0x11c50; 0x11d50; 0x11da0;
      0x16a60; 0x16ac0; 0x16b50; 0x1d7ce; 0x1d7d8; 0x1d7e2; 0x1d7ec;
      0x1d7f6; 0x1e140; 0x1e2f0; 0x1e950; 0x1fbf0 ].

Definition decimal_value (c : char) : option N :=
  match List.find (fun r => (fst r <=? c) && (c <=? snd r)) decimal_runs with
  | Some r => Some (c - fst r)
  | None => None
  end.

(** The C-level [Py_ISSPACE] used by the integer parser. *)
Definition c_isspace (c : char) : bool :=
  ((0x9 <=? c) && (c <=? 0xd)) || (c =? 0x20).

(** [int(s)] first rewrites non-ASCII spaces to a blank and non-ASCII
    decimal digits to ASCII ones; any other non-ASCII character becomes
    a question mark, which the parser refuses. *)
Definition to_ascii_decimal (c : char) : char :=
  if c <? 127 then c
  else if isspace c then 0x20
  else match decimal_value c with
       | Some d => 0x30 + d
       | None => 0x3f
       end.

Fixpoint c_lstrip (s : pystr) : pystr :=
  match s with
  | [] => []
  | c :: s' => if c_isspace c then c_lstrip s' else s
  end.

Inductive last_seen := AtStart | SawDigit | SawUnderscore.

(** Digits with single underscores between them; returns the value and
    the number of digits read. *)
Fixpoint int_digits (acc : N) (count : nat) (prev : last_seen) (s : pystr)
  : option (N * nat) :=
  match s with
  | [] => match prev with SawDigit => Some (acc, count) | _ => None end
  | c :: s' =>
      if (0x30 <=? c) && (c <=? 0x39)
      then int_digits (10 * acc + (c - 0x30)) (S count) SawDigit s'
      else if c =? 0x5f
      then match prev with
           | SawDigit => int_digits acc count SawUnderscore s'
           | _ => None
           end
      else None
  end.

Definition within_digit_limit (max_str_digits : option nat) (count : nat)
  : bool :=
  match max_str_digits with
  | Some m => Nat.leb count 640 || Nat.leb count m
  | None => true
  end.

(** [int(s)] in base ten; [None] stands for [ValueError].
    [max_str_digits] is the interpreter's limit on the number of digits
    ([sys.get_int_max_str_digits()]: 4300 by default from CPython 3.11
    on, enforced above 640 digits; [None] when there is no limit). *)
Definition py_int (max_str_digits : option nat) (s : pystr) : option Z :=
  let s := rev (c_lstrip (rev (c_lstrip (List.map to_ascii_decimal s)))) in
  let '(negative, body) :=
    match s with
    | c :: s' => if c =? 0x2d then (true, s')
                 else if c =? 0x2b then (false, s') else (false, s)
    | [] => (false, s)
    end in
  match int_digits 0 0 AtStart body with
  | Some (v, count) =>
      if within_digit_limit max_str_digits count
      then Some (if negative then (- Z.of_N v)%Z else Z.of_N v)
      else None
  | None => None
  end.

(** [sep.join(words)] as the source writes it:
    [reduce(lambda a, b: a + sep + b, words)]. *)
Definition reduce_join (sep : pystr) (first : pystr) (others : list pystr)
  : pystr :=
  fold_left (fun a b => a ++ sep ++ b) others first.

(** [str.lower] restricted to ASCII text, where it only moves A-Z. *)
Definition ascii_lower (s : pystr) : pystr :=
  List.map (fun c => if (0x41 <=? c) && (c <=? 0x5a) then c + 32 else c) s.

(** [s[:-n]] for a positive literal [n]. *)
Definition drop_last (n : nat) (s : pystr) : pystr :=
  firstn (length s - n) s.

(** [s[1:-1]] *)
Definition inner_slice (s : pystr) : pystr :=
  drop_last 1 (skipn 1 s).

(** [str.isprintable] for one character (Unicode 14 tables of CPython
    3.11): the ranges of the characters above ASCII that are not
    printable. *)
Definition nonprintable_ranges : list (N * N) :=
  [ (0x80, 0xa0); (0xad, 0xad); (0x378, 0x379); (0x380, 0x383);
    (0x38b, 0x38b); (0x38d, 0x38d); (0x3a2, 0x3a2); (0x530, 0x530);
    (0x557, 0x558); (0x58b, 0x58c); (0x590, 0x590); (0x5c8, 0x5cf);
    (0x5eb, 0x5ee); (0x5f5, 0x605); (0x61c, 0x61c); (0x6dd, 0x6dd);
    (0x70e, 0x70f); (0x74b, 0x74c); (0x7b2, 0x7bf); (0x7fb, 0x7fc);
    (0x82e, 0x82f); (0x83f, 0x83f); (0x85c, 0x85d); (0x85f, 0x85f);
    (0x86b, 0x86f); (0x88f, 0x897); (0x8e2, 0x8e2); (0x984, 0x984);
    (0x98d, 0x98e); (0x991, 0x992); (0x9a9, 0x9a9); (0x9b1, 0x9b1);
    (0x9b3, 0x9b5); (0x9ba, 0x9bb); (0x9c5, 0x9c6); (0x9c9, 0x9ca);
    (0x9cf, 0x9d6); (0x9d8, 0x9db); (0x9de, 0x9de); (0x9e4, 0x9e5);
    (0x9ff, 0xa00); (0xa04, 0xa04); (0xa0b, 0xa0e); (0xa11, 0xa12);
    (0xa29, 0xa29); (0xa31, 0xa31); (0xa34, 0xa34); (0xa37, 0xa37);
    (0xa3a, 0xa3b); (0xa3d, 0xa3d); (0xa43, 0xa46); (0xa49, 0xa4a);
    (0xa4e, 0xa50); (0xa52, 0xa58); (0xa5d, 0xa5d); (0xa5f, 0xa65);
    (0xa77, 0xa80); (0xa84, 0xa84); (0xa8e, 0xa8e); (0xa92, 0xa92);
    (0xaa9, 0xaa9); (0xab1, 0xab1); (0xab4, 0xab4); (0xaba, 0xabb);
    (0xac6, 0xac6); (0xaca, 0xaca); (0xace, 0xacf); (0xad1, 0xadf);
    (0xae4, 0xae5); (0xaf2, 0xaf8); (0xb00, 0xb00); (0xb04, 0xb04);
    (0xb0d, 0xb0e); (0xb11, 0xb12); (0xb29, 0xb29); (0xb31, 0xb31);
    (0xb34, 0xb34); (0xb3a, 0xb3b); (0xb45, 0xb46); (0xb49, 0xb4a);
    (0xb4e, 0xb54); (0xb58, 0xb5b); (0xb5e, 0xb5e); (0xb64, 0xb65);
    (0xb78, 0xb81); (0xb84, 0xb84); (0xb8b, 0xb8d); (0xb91, 0xb91);
    (0xb96, 0xb98); (0xb9b, 0xb9b); (0xb9d, 0xb9d); (0xba0, 0xba2);
    (0xba5, 0xba7); (0xbab, 0xbad); (0xbba, 0xbbd); (0xbc3, 0xbc5);
    (0xbc9, 0xbc9); (0xbce, 0xbcf); (0xbd1, 0xbd6); (0xbd8, 0xbe5);
    (0xbfb, 0xbff); (0xc0d, 0xc0d); (0xc11, 0xc11); (0xc29, 0xc29);
    (0xc3a, 0xc3b); (0xc45, 0xc45); (0xc49, 0xc49); (0xc4e, 0xc54);
    (0xc57, 0xc57); (0xc5b, 0xc5c); (0xc5e, 0xc5f); (0xc64, 0xc65);
    (0xc70, 0xc76); (0xc8d, 0xc8d); (0xc91, 0xc91); (0xca9, 0xca9);
    (0xcb4, 0xcb4); (0xcba, 0xcbb); (0xcc5, 0xcc5); (0xcc9, 0xcc9);
    (0xcce, 0xcd4); (0xcd7, 0xcdc); (0xcdf, 0xcdf); (0xce4, 0xce5);
    (0xcf0, 0xcf0); (0xcf3, 0xcff); (0xd0d, 0xd0d); (0xd11, 0xd11);
    (0xd45, 0xd45); (0xd49, 0xd49); (0xd50, 0xd53); (0xd64, 0xd65);
    (0xd80, 0xd80); (0xd84, 0xd84); (0xd97, 0xd99); (0xdb2, 0xdb2);
    (0xdbc, 0xdbc); (0xdbe, 0xdbf); (0xdc7, 0xdc9); (0xdcb, 0xdce);
    (0xdd5, 0xdd5); (0xdd7, 0xdd7); (0xde0, 0xde5); (0xdf0, 0xdf1);
    (0xdf5, 0xe00); (0xe3b, 0xe3e); (0xe5c, 0xe80); (0xe83, 0xe83);
    (0xe85, 0xe85); (0xe8b, 0xe8b); (0xea4, 0xea4); (0xea6, 0xea6);
    (0xebe, 0xebf); (0xec5, 0xec5); (0xec7, 0xec7); (0xece, 0xecf);
    (0xeda, 0xedb); (0xee0, 0xeff); (0xf48, 0xf48); (0xf6d, 0xf70);
    (0xf98, 0xf98); (0xfbd, 0xfbd); (0xfcd, 0xfcd); (0xfdb, 0xfff);
    (0x10c6, 0x10c6); (0x10c8, 0x10cc); (0x10ce, 0x10cf); (0x1249, 0x1249);
    (0x124e, 0x124f); (0x1257, 0x1257); (0x1259, 0x1259); (0x125e, 0x125f);
    (0x1289, 0x1289); (0x128e, 0x128f); (0x12b1, 0x12b1); (0x12b6, 0x12b7);
    (0x12bf, 0x12bf); (0x12c1, 0x12c1); (0x12c6, 0x12c7); (0x12d7, 0x12d7);
    (0x1311, 0x1311); (0x1316, 0x1317); (0x135b, 0x135c); (0x137d, 0x137f);
    (0x139a, 0x139f); (0x13f6, 0x13f7); (0x13fe, 0x13ff); (0x1680, 0x1680);
    (0x169d, 0x169f); (0x16f9, 0x16ff); (0x1716, 0x171e); (0x1737, 0x173f);
    (0x1754, 0x175f); (0x176d, 0x176d); (0x1771, 0x1771); (0x1774, 0x177f);
    (0x17de, 0x17df); (0x17ea, 0x17ef); (0x17fa, 0x17ff); (0x180e, 0x180e);
    (0x181a, 0x181f); (0x1879, 0x187f); (0x18ab, 0x18af); (0x18f6, 0x18ff);
    (0x191f, 0x191f); (0x192c, 0x192f); (0x193c, 0x193f); (0x1941, 0x1943);
    (0x196e, 0x196f); (0x1975, 0x197f); (0x19ac, 0x19af); (0x19ca, 0x19cf);
    (0x19db, 0x19dd); (0x1a1c, 0x1a1d); (0x1a5f, 0x1a5f); (0x1a7d, 0x1a7e);
    (0x1a8a, 0x1a8f); (0x1a9a, 0x1a9f); (0x1aae, 0x1aaf); (0x1acf, 0x1aff);
    (0x1b4d, 0x1b4f); (0x1b7f, 0x1b7f); (0x1bf4, 0x1bfb); (0x1c38, 0x1c3a);
    (0x1c4a, 0x1c4c); (0x1c89, 0x1c8f); (0x1cbb, 0x1cbc); (0x1cc8, 0x1ccf);
    (0x1cfb, 0x1cff); (0x1f16, 0x1f17); (0x1f1e, 0x1f1f); (0x1f46, 0x1f47);
    (0x1f4e, 0x1f4f); (0x1f58, 0x1f58); (0x1f5a, 0x1f5a); (0x1f5c, 0x1f5c);
    (0x1f5e, 0x1f5e); (0x1f7e, 0x1f7f); (0x1fb5, 0x1fb5); (0x1fc5, 0x1fc5);
    (0x1fd4, 0x1fd5); (0x1fdc, 0x1fdc); (0x1ff0, 0x1ff1); (0x1ff5, 0x1ff5);
    (0x1fff, 0x200f); (0x2028, 0x202f); (0x205f, 0x206f); (0x2072, 0x2073);
    (0x208f, 0x208f); (0x209d, 0x209f); (0x20c1, 0x20cf); (0x20f1, 0x20ff);
    (0x218c, 0x218f); (0x2427, 0x243f); (0x244b, 0x245f); (0x2b74, 0x2b75);
    (0x2b96, 0x2b96); (0x2cf4, 0x2cf8); (0x2d26, 0x2d26); (0x2d28, 0x2d2c);
    (0x2d2e, 0x2d2f); (0x2d68, 0x2d6e); (0x2d71, 0x2d7e); (0x2d97, 0x2d9f);
    (0x2da7, 0x2da7); (0x2daf, 0x2daf); (0x2db7, 0x2db7); (0x2dbf, 0x2dbf);
    (0x2dc7, 0x2dc7); (0x2dcf, 0x2dcf); (0x2dd7, 0x2dd7); (0x2ddf, 0x2ddf);
    (0x2e5e, 0x2e7f); (0x2e9a, 0x2e9a); (0x2ef4, 0x2eff); (0x2fd6, 0x2fef);
    (0x2ffc, 0x3000); (0x3040, 0x3040); (0x3097, 0x3098); (0x3100, 0x3104);
    (0x3130, 0x3130); (0x318f, 0x318f); (0x31e4, 0x31ef); (0x321f, 0x321f);
    (0xa48d, 0xa48f); (0xa4c7, 0xa4cf); (0xa62c, 0xa63f); (0xa6f8, 0xa6ff);
    (0xa7cb, 0xa7cf); (0xa7d2, 0xa7d2); (0xa7d4, 0xa7d4); (0xa7da, 0xa7f1);
    (0xa82d, 0xa82f); (0xa83a, 0xa83f); (0xa878, 0xa87f); (0xa8c6, 0xa8cd);
    (0xa8da, 0xa8df); (0xa954, 0xa95e); (0xa97d, 0xa97f); (0xa9ce, 0xa9ce);
    (0xa9da, 0xa9dd); (0xa9ff, 0xa9ff); (0xaa37, 0xaa3f); (0xaa4e, 0xaa4f);
    (0xaa5a, 0xaa5b); (0xaac3, 0xaada); (0xaaf7, 0xab00); (0xab07, 0xab08);
    (0xab0f, 0xab10); (0xab17, 0xab1f); (0xab27, 0xab27); (0xab2f, 0xab2f);
    (0xab6c, 0xab6f); (0xabee, 0xabef); (0xabfa, 0xabff); (0xd7a4, 0xd7af);
    (0xd7c7, 0xd7ca); (0xd7fc, 0xf8ff); (0xfa6e, 0xfa6f); (0xfada, 0xfaff);
    (0xfb07, 0xfb12); (0xfb18, 0xfb1c); (0xfb37, 0xfb37); (0xfb3d, 0xfb3d);
    (0xfb3f, 0xfb3f); (0xfb42, 0xfb42); (0xfb45, 0xfb45); (0xfbc3, 0xfbd2);
    (0xfd90, 0xfd91); (0xfdc8, 0xfdce); (0xfdd0, 0xfdef); (0xfe1a, 0xfe1f);
    (0xfe53, 0xfe53); (0xfe67, 0xfe67); (0xfe6c, 0xfe6f); (0xfe75, 0xfe75);
    (0xfefd, 0xff00); (0xffbf, 0xffc1); (0xffc8, 0xffc9); (0xffd0, 0xffd1);
    (0xffd8, 0xffd9); (0xffdd, 0xffdf); (0xffe7, 0xffe7); (0xffef, 0xfffb);
    (0xfffe, 0xffff); (0x1000c, 0x1000c); (0x10027, 0x10027);
    (0x1003b, 0x1003b); (0x1003e, 0x1003e); (0x1004e, 0x1004f);
    (0x1005e, 0x1007f); (0x100fb, 0x100ff); (0x10103, 0x10106);
    (0x10134, 0x10136); (0x1018f, 0x1018f); (0x1019d, 0x1019f);
    (0x101a1, 0x101cf); (0x101fe, 0x1027f); (0x1029d, 0x1029f);
    (0x102d1, 0x102df); (0x102fc, 0x102ff); (0x10324, 0x1032c);
    (0x1034b, 0x1034f); (0x1037b, 0x1037f); (0x1039e, 0x1039e);
    (0x103c4, 0x103c7); (0x103d6, 0x103ff); (0x1049e, 0x1049f);
    (0x104aa, 0x104af); (0x104d4, 0x104d7); (0x104fc, 0x104ff);
    (0x10528, 0x1052f); (0x10564, 0x1056e); (0x1057b, 0x1057b);
    (0x1058b, 0x1058b); (0x10593, 0x10593); (0x10596, 0x10596);
    (0x105a2, 0x105a2); (0x105b2, 0x105b2); (0x105ba, 0x105ba);
    (0x105bd, 0x105ff); (0x10737, 0x1073f); (0x10756, 0x1075f);
    (0x10768, 0x1077f); (0x10786, 0x10786); (0x107b1, 0x107b1);
    (0x107bb, 0x107ff); (0x10806, 0x10807); (0x10809, 0x10809);
    (0x10836, 0x10836); (0x10839, 0x1083b); (0x1083d, 0x1083e);
    (0x10856, 0x10856); (0x1089f, 0x108a6); (0x108b0, 0x108df);
    (0x108f3, 0x108f3); (0x108f6, 0x108fa); (0x1091c, 0x1091e);
    (0x1093a, 0x1093e); (0x10940, 0x1097f); (0x109b8, 0x109bb);
    (0x109d0, 0x109d1); (0x10a04, 0x10a04); (0x10a07, 0x10a0b);
    (0x10a14, 0x10a14); (0x10a18, 0x10a18); (0x10a36, 0x10a37);
    (0x10a3b, 0x10a3e); (0x10a49, 0x10a4f); (0x10a59, 0x10a5f);
    (0x10aa0, 0x10abf); (0x10ae7, 0x10aea); (0x10af7, 0x10aff);
    (0x10b36, 0x10b38); (0x10b56, 0x10b57); (0x10b73, 0x10b77);
    (0x10b92, 0x10b98); (0x10b9d, 0x10ba8); (0x10bb0, 0x10bff);
    (0x10c49, 0x10c7f); (0x10cb3, 0x10cbf); (0x10cf3, 0x10cf9);
    (0x10d28, 0x10d2f); (0x10d3a, 0x10e5f); (0x10e7f, 0x10e7f);
    (0x10eaa, 0x10eaa); (0x10eae, 0x10eaf); (0x10eb2, 0x10eff);
    (0x10f28, 0x10f2f); (0x10f5a, 0x10f6f); (0x10f8a, 0x10faf);
    (0x10fcc, 0x10fdf); (0x10ff7, 0x10fff); (0x1104e, 0x11051);
    (0x11076, 0x1107e); (0x110bd, 0x110bd); (0x110c3, 0x110cf);
    (0x110e9, 0x110ef); (0x110fa, 0x110ff); (0x11135, 0x11135);
    (0x11148, 0x1114f); (0x11177, 0x1117f); (0x111e0, 0x111e0);
    (0x111f5, 0x111ff); (0x11212, 0x11212); (0x1123f, 0x1127f);
    (0x11287, 0x11287); (0x11289, 0x11289); (0x1128e, 0x1128e);
    (0x1129e, 0x1129e); (0x112aa, 0x112af); (0x112eb, 0x112ef);
    (0x112fa, 0x112ff); (0x11304, 0x11304); (0x1130d, 0x1130e);
    (0x11311, 0x11312); (0x11329, 0x11329); (0x11331, 0x11331);
    (0x11334, 0x11334); (0x1133a, 0x1133a); (0x11345, 0x11346);
    (0x11349, 0x1134a); (0x1134e, 0x1134f); (0x11351, 0x11356);
    (0x11358, 0x1135c); (0x11364, 0x11365); (0x1136d, 0x1136f);
    (0x11375, 0x113ff); (0x1145c, 0x1145c); (0x11462, 0x1147f);
    (0x114c8, 0x114cf); (0x114da, 0x1157f); (0x115b6, 0x115b7);
    (0x115de, 0x115ff); (0x11645, 0x1164f); (0x1165a, 0x1165f);
    (0x1166d, 0x1167f); (0x116ba, 0x116bf); (0x116ca, 0x116ff);
    (0x1171b, 0x1171c); (0x1172c, 0x1172f); (0x11747, 0x117ff);
    (0x1183c, 0x1189f); (0x118f3, 0x118fe); (0x11907, 0x11908);
    (0x1190a, 0x1190b); (0x11914, 0x11914); (0x11917, 0x11917);
    (0x11936, 0x11936); (0x11939, 0x1193a); (0x11947, 0x1194f);
    (0x1195a, 0x1199f); (0x119a8, 0x119a9); (0x119d8, 0x119d9);
    (0x119e5, 0x119ff); (0x11a48, 0x11a4f); (0x11aa3, 0x11aaf);
    (0x11af9, 0x11bff); (0x11c09, 0x11c09); (0x11c37, 0x11c37);
    (0x11c46, 0x11c4f); (0x11c6d, 0x11c6f); (0x11c90, 0x11c91);
    (0x11ca8, 0x11ca8); (0x11cb7, 0x11cff); (0x11d07, 0x11d07);
    (0x11d0a, 0x11d0a); (0x11d37, 0x11d39); (0x11d3b, 0x11d3b);
    (0x11d3e, 0x11d3e); (0x11d48, 0x11d4f); (0x11d5a, 0x11d5f);
    (0x11d66, 0x11d66); (0x11d69, 0x11d69); (0x11d8f, 0x11d8f);
    (0x11d92, 0x11d92); (0x11d99, 0x11d9f); (0x11daa, 0x11edf);
    (0x11ef9, 0x11faf); (0x11fb1, 0x11fbf); (0x11ff2, 0x11ffe);
    (0x1239a, 0x123ff); (0x1246f, 0x1246f); (0x12475, 0x1247f);
    (0x12544, 0x12f8f); (0x12ff3, 0x12fff); (0x1342f, 0x143ff);
    (0x14647, 0x167ff); (0x16a39, 0x16a3f); (0x16a5f, 0x16a5f);
    (0x16a6a, 0x16a6d); (0x16abf, 0x16abf); (0x16aca, 0x16acf);
    (0x16aee, 0x16aef); (0x16af6, 0x16aff); (0x16b46, 0x16b4f);
    (0x16b5a, 0x16b5a); (0x16b62, 0x16b62); (0x16b78, 0x16b7c);
    (0x16b90, 0x16e3f); (0x16e9b, 0x16eff); (0x16f4b, 0x16f4e);
    (0x16f88, 0x16f8e); (0x16fa0, 0x16fdf); (0x16fe5, 0x16fef);
    (0x16ff2, 0x16fff); (0x187f8, 0x187ff); (0x18cd6, 0x18cff);
    (0x18d09, 0x1afef); (0x1aff4, 0x1aff4); (0x1affc, 0x1affc);
    (0x1afff, 0x1afff); (0x1b123, 0x1b14f); (0x1b153, 0x1b163);
    (0x1b168, 0x1b16f); (0x1b2fc, 0x1bbff); (0x1bc6b, 0x1bc6f);
    (0x1bc7d, 0x1bc7f); (0x1bc89, 0x1bc8f); (0x1bc9a, 0x1bc9b);
    (0x1bca0, 0x1ceff); (0x1cf2e, 0x1cf2f); (0x1cf47, 0x1cf4f);
    (0x1cfc4, 0x1cfff); (0x1d0f6, 0x1d0ff); (0x1d127, 0x1d128);
    (0x1d173, 0x1d17a); (0x1d1eb, 0x1d1ff); (0x1d246, 0x1d2df);
    (0x1d2f4, 0x1d2ff); (0x1d357, 0x1d35f); (0x1d379, 0x1d3ff);
    (0x1d455, 0x1d455); (0x1d49d, 0x1d49d); (0x1d4a0, 0x1d4a1);
    (0x1d4a3, 0x1d4a4); (0x1d4a7, 0x1d4a8); (0x1d4ad, 0x1d4ad);
    (0x1d4ba, 0x1d4ba); (0x1d4bc, 0x1d4bc); (0x1d4c4, 0x1d4c4);
    (0x1d506, 0x1d506); (0x1d50b, 0x1d50c); (0x1d515, 0x1d515);
    (0x1d51d, 0x1d51d); (0x1d53a, 0x1d53a); (0x1d53f, 0x1d53f);
    (0x1d545, 0x1d545); (0x1d547, 0x1d549); (0x1d551, 0x1d551);
    (0x1d6a6, 0x1d6a7); (0x1d7cc, 0x1d7cd); (0x1da8c, 0x1da9a);
    (0x1daa0, 0x1daa0); (0x1dab0, 0x1deff); (0x1df1f, 0x1dfff);
    (0x1e007, 0x1e007); (0x1e019, 0x1e01a); (0x1e022, 0x1e022);
    (0x1e025, 0x1e025); (0x1e02b, 0x1e0ff); (0x1e12d, 0x1e12f);
    (0x1e13e, 0x1e13f); (0x1e14a, 0x1e14d); (0x1e150, 0x1e28f);
    (0x1e2af, 0x1e2bf); (0x1e2fa, 0x1e2fe); (0x1e300, 0x1e7df);
    (0x1e7e7, 0x1e7e7); (0x1e7ec, 0x1e7ec); (0x1e7ef, 0x1e7ef);
    (0x1e7ff, 0x1e7ff); (0x1e8c5, 0x1e8c6); (0x1e8d7, 0x1e8ff);
    (0x1e94c, 0x1e94f); (0x1e95a, 0x1e95d); (0x1e960, 0x1ec70);
    (0x1ecb5, 0x1ed00); (0x1ed3e, 0x1edff); (0x1ee04, 0x1ee04);
    (0x1ee20, 0x1ee20); (0x1ee23, 0x1ee23); (0x1ee25, 0x1ee26);
    (0x1ee28, 0x1ee28); (0x1ee33, 0x1ee33); (0x1ee38, 0x1ee38);
    (0x1ee3a, 0x1ee3a); (0x1ee3c, 0x1ee41); (0x1ee43, 0x1ee46);
    (0x1ee48, 0x1ee48); (0x1ee4a, 0x1ee4a); (0x1ee4c, 0x1ee4c);
    (0x1ee50, 0x1ee50); (0x1ee53, 0x1ee53); (0x1ee55, 0x1ee56);
    (0x1ee58, 0x1ee58); (0x1ee5a, 0x1ee5a); (0x1ee5c, 0x1ee5c);
    (0x1ee5e, 0x1ee5e); (0x1ee60, 0x1ee60); (0x1ee63, 0x1ee63);
    (0x1ee65, 0x1ee66); (0x1ee6b, 0x1ee6b); (0x1ee73, 0x1ee73);
    (0x1ee78, 0x1ee78); (0x1ee7d, 0x1ee7d); (0x1ee7f, 0x1ee7f);
    (0x1ee8a, 0x1ee8a); (0x1ee9c, 0x1eea0); (0x1eea4, 0x1eea4);
    (0x1eeaa, 0x1eeaa); (0x1eebc, 0x1eeef); (0x1eef2, 0x1efff);
    (0x1f02c, 0x1f02f); (0x1f094, 0x1f09f); (0x1f0af, 0x1f0b0);
    (0x1f0c0, 0x1f0c0); (0x1f0d0, 0x1f0d0); (0x1f0f6, 0x1f0ff);
    (0x1f1ae, 0x1f1e5); (0x1f203, 0x1f20f); (0x1f23c, 0x1f23f);
    (0x1f249, 0x1f24f); (0x1f252, 0x1f25f); (0x1f266, 0x1f2ff);
    (0x1f6d8, 0x1f6dc); (0x1f6ed, 0x1f6ef); (0x1f6fd, 0x1f6ff);
    (0x1f774, 0x1f77f); (0x1f7d9, 0x1f7df); (0x1f7ec, 0x1f7ef);
    (0x1f7f1, 0x1f7ff); (0x1f80c, 0x1f80f); (0x1f848, 0x1f84f);
    (0x1f85a, 0x1f85f); (0x1f888, 0x1f88f); (0x1f8ae, 0x1f8af);
    (0x1f8b2, 0x1f8ff); (0x1fa54, 0x1fa5f); (0x1fa6e, 0x1fa6f);
    (0x1fa75, 0x1fa77); (0x1fa7d, 0x1fa7f); (0x1fa87, 0x1fa8f);
    (0x1faad, 0x1faaf); (0x1fabb, 0x1fabf); (0x1fac6, 0x1facf);
    (0x1fada, 0x1fadf); (0x1fae8, 0x1faef); (0x1faf7, 0x1faff);
    (0x1fb93, 0x1fb93); (0x1fbcb, 0x1fbef); (0x1fbfa, 0x1ffff);
    (0x2a6e0, 0x2a6ff); (0x2b739, 0x2b73f); (0x2b81e, 0x2b81f);
    (0x2cea2, 0x2ceaf); (0x2ebe1, 0x2f7ff); (0x2fa1e, 0x2ffff);
    (0x3134b, 0xe00ff); (0xe01f0, 0x10ffff) ].

Definition isprintable_char (c : char) : bool :=
  if c <? 0x80 then (0x20 <=? c) && (c <? 0x7f)
  else negb (in_ranges c nonprintable_ranges).

Definition hex_digit (d : N) : char :=
  if d <? 10 then 0x30 + d else 0x61 + (d - 10).

(** The last [width] hexadecimal digits of [c], in lower case. *)
Fixpoint hex_fixed (width : nat) (c : N) : pystr :=
  match width with
  | O => []
  | S w => hex_fixed w (c / 16) ++ [hex_digit (c mod 16)]
  end.

(** One character of [repr(s)] between the quotes [quote]. *)
Definition repr_char (quote c : char) : pystr :=
  if (c =? quote) || (c =? 0x5c) then [0x5c; c]
  else if c =? 0x09 then [0x5c; 0x74]
  else if c =? 0x0a then [0x5c; 0x6e]
  else if c =? 0x0d then [0x5c; 0x72]
  else if (c <? 0x20) || (c =? 0x7f) then [0x5c; 0x78] ++ hex_fixed 2 c
  else if c <? 0x7f then [c]
  else if isprintable_char c then [c]
  else if c <=? 0xff then [0x5c; 0x78] ++ hex_fixed 2 c
  else if c <=? 0xffff then [0x5c; 0x75] ++ hex_fixed 4 c
  else [0x5c; 0x55] ++ hex_fixed 8 c.

(** [repr(s)]: between apostrophes, or between double quotes when [s]
    holds an apostrophe and no double quote; the quote, the backslash and
    what is not printable are escaped. *)
Definition repr (s : pystr) : pystr :=
  let quote :=
    if existsb (N.eqb 0x27) s && negb (existsb (N.eqb 0x22) s)
    then 0x22 else 0x27 in
  [quote] ++ flat_map (repr_char quote) s ++ [quote].

(** [str(n)] for a natural number. *)
Definition decimal (n : nat) : pystr :=
  lit (NilEmpty.string_of_uint (Nat.to_uint n)).

(** The number of digits that the integer parser has counted when it
    checks the limit: those of the run of digits and underscores it
    starts with; [None] when that run is malformed. *)
Fixpoint digit_run (count : nat) (prev : last_seen) (s : pystr)
  : option nat :=
  match s with
  | c :: s' =>
      if (0x30 <=? c) && (c <=? 0x39)
      then digit_run (S count) SawDigit s'
      else if c =? 0x5f
      then match prev with
           | SawDigit => digit_run count SawUnderscore s'
           | _ => None
           end
      else match prev with SawUnderscore => None | _ => Some count end
  | [] => match prev with SawUnderscore => None | _ => Some count end
  end.

(** [str(e)] for the [ValueError] that [int(s)] raises: the digit limit,
    when the leading run of digits is over it, and otherwise the literal
    as [%.200R] formats it. *)
Definition int_error_text (max_str_digits : option nat) (s : pystr)
  : pystr :=
  let invalid :=
    lit "invalid literal for int() with base 10: " ++ firstn 200 (repr s) in
  let t := c_lstrip (List.map to_ascii_decimal s) in
  let body :=
    match t with
    | c :: t' => if (c =? 0x2d) || (c =? 0x2b) then t' else t
    | [] => t
    end in
  match digit_run 0 AtStart body, max_str_digits with
  | Some count, Some m =>
      if within_digit_limit max_str_digits count then invalid
      else lit "Exceeds the limit (" ++ decimal m
           ++ lit " digits) for integer string conversion: value has "
           ++ decimal count
           ++ lit " digits; use sys.set_int_max_str_digits() to increase the limit"
  | _, _ => invalid
  end.

End PyStr.

Import PyStr.

(** ** [MoviesFinder.clean_string] *)

(** Method chaining: [s |> f |> g] is [g (f s)]. *)
Notation "s |> f" := (f s) (at level 45, left associativity, only parsing).

(** The two non-ASCII literals of the source: "…" and "“"; the first
    replacement of the chain is that of the double quote, [0x22]. *)
Definition ellipsis_char : char := 0x2026.
Definition left_quote_char : char := 0x201c.

(** [movies_advisor/movies_finder.py], lines 276-311. *)
Definition clean_string (string : pystr) : pystr :=
  let string :=
    string
    |> replace [0x22] (lit " ")
    |> replace (lit "'") (lit " ")
    |> replace (lit "',") (lit ", ")
    |> replace (lit "'") []
    |> replace (lit " (...) ") (lit ". ")
    |> replace (lit " (" ++ [ellipsis_char] ++ lit ") ") (lit ". ")
    |> replace [left_quote_char] []
    |> replace (lit "..") (lit ". ")
    |> replace (lit " ,") (lit ", ")
    |> replace (lit "  ") (lit " ")
    |> strip in
  let string :=
    if endswith (lit "(FILMAFFINITY)") string
    then strip (drop_last 14 string) else string in
  let string :=
    if endswith (lit "aka") string
    then strip (drop_last 3 string) else string in
  string.

(** [movies_finder.py] (legacy copy), lines 263-298: the same chain except
    for its fourth replacement. *)
Module LegacyClean.

Definition clean_string (string : pystr) : pystr :=
  let string :=
    string
    |> replace [0x22] (lit " ")
    |> replace (lit "'") (lit " ")
    |> replace (lit "',") (lit ", ")
    |> replace (lit "'") (lit " ")
    |> replace (lit " (...) ") (lit ". ")
    |> replace (lit " (" ++ [ellipsis_char] ++ lit ") ") (lit ". ")
    |> replace [left_quote_char] []
    |> replace (lit "..") (lit ". ")
    |> replace (lit " ,") (lit ", ")
    |> replace (lit "  ") (lit " ")
    |> strip in
  let string :=
    if endswith (lit "(FILMAFFINITY)") string
    then strip (drop_last 14 string) else string in
  let string :=
    if endswith (lit "aka") string
    then strip (drop_last 3 string) else string in
  string.

End LegacyClean.

(** ** Python values, exceptions and the state of a run *)

Inductive pyval :=
| PNone
| PStr (s : pystr)
| PInt (z : Z)
| PList (l : list pystr).

(** [type(v).__name__] *)
Definition type_name (v : pyval) : string :=
  match v with
  | PNone => "NoneType"
  | PStr _ => "str"
  | PInt _ => "int"
  | PList _ => "list"
  end.

Inductive exn_kind :=
| IndexError | AttributeError | TypeError | ValueError | KeyError
| ZeroDivisionError
| HTTPError          (* requests.HTTPError, raised by raise_for_status *)
| RequestException.  (* any other failure of requests.get / post *)

(** An exception with the text [str(e)] gives for it (the texts play no
    part in the control flow). *)
Record exn := Exn { kind : exn_kind; str_of : pystr }.

Inductive result (A : Type) :=
| Ok (a : A)
| Raise (e : exn).
Arguments Ok {A} a.
Arguments Raise {A} e.

Inductive http_method := GET | POST.

Record request := Request {
  meth : http_method;
  url : pystr;
  in_session : bool          (* sent through a [requests.Session] *)
}.

(** What a run can change: [self._info], the text appended to [log.txt],
    and the requests sent so far (oldest first). *)
Record state := State {
  _info : gmap pystr (gmap string pyval);
  log_txt : list pystr;
  sent : list request
}.

Definition M (A : Type) : Type := state -> result A * state.

#[global] Instance M_ret : MRet M := fun A a s => (Ok a, s).

#[global] Instance M_bind : MBind M := fun A B f m s =>
  match m s with
  | (Ok a, s') => f a s'
  | (Raise e, s') => (Raise e, s')
  end.

Definition raise {A : Type} (k : exn_kind) (msg : string) : M A :=
  fun s => (Raise (Exn k (lit msg)), s).

(** [try: body  except <catches> as e: handler e] *)
Definition try_except {A : Type} (body : M A) (catches : exn_kind -> bool)
    (handler : exn -> M A) : M A :=
  fun s =>
    match body s with
    | (Ok a, s') => (Ok a, s')
    | (Raise e, s') => if catches (kind e) then handler e s' else (Raise e, s')
    end.

Definition any_exception (k : exn_kind) : bool := true.
Definition is_IndexError (k : exn_kind) : bool :=
  match k with IndexError => true | _ => false end.
Definition is_HTTPError (k : exn_kind) : bool :=
  match k with HTTPError => true | _ => false end.

(** [l[0]] *)
Definition first_item {A : Type} (l : list A) : M A :=
  match l with
  | x :: _ => mret x
  | [] => raise IndexError "list index out of range"
  end.

(** [x.attr] where [x] is the result of a [find] that may be [None]. *)
Definition attr_of {A : Type} (x : option A) (attr : string) : M A :=
  match x with
  | Some v => mret v
  | None =>
      raise AttributeError
        ("'NoneType' object has no attribute '" +:+ attr +:+ "'")
  end.

(** ** [utils/log.py]: class [Logger] *)

Module Logger.

Definition LOG_FILE : string := "log.txt".
Definition FORMAT : string := "%d %b %Y %I:%M:%S %p %Z".

(** An instance with its attribute dictionary (string-valued attributes). *)
Record t := { attributes : gmap string pystr }.

(** [def __init__(self): pass] *)
Definition init : t := {| attributes := ∅ |}.

Section Clock.

(** The two readings of the clock that an entry is stamped with:
    [datetime.now().strftime("%A")] and the local date printed with
    [FORMAT]. *)
Variable day gmt5_date : pystr.

(** The body of [def log(self)], lines 52-58.  Opening the file in
    append mode changes nothing that is written. *)
Definition log_body (self : t) : M unit :=
  match attributes self !! "message" with
  | Some message =>
      fun s =>
        (Ok tt,
         State (_info s)
           (log_txt s ++
              [day ++ lit ", " ++ gmt5_date ++ lit " GMT+5: "
                 ++ message ++ [0xa]])
           (sent s))
  | None =>
      raise AttributeError "'Logger' object has no attribute 'message'"
  end.

(** A call [logger.log(arg1, ..., argn)]: the method declares no
    parameter besides [self]. *)
Definition log (self : t) (args : list pyval) : M unit :=
  match args with
  | [] => log_body self
  | _ :: _ =>
      raise TypeError
        ("Logger.log() takes 1 positional argument but "
           +:+ NilEmpty.string_of_uint (Nat.to_uint (S (length args)))
           +:+ " were given")
  end.

End Clock.

End Logger.

(** ** The [Levenshtein] package: [Levenshtein.ratio] *)

Module Levenshtein.

Definition min3 (a b c : nat) : nat := Nat.min a (Nat.min b c).

Definition cost (x y : char) : nat := if x =? y then 0%nat else 2%nat.

(** The edit distance the ratio is computed from, as a recurrence:
    insertions and deletions cost 1, a substitution costs 2. *)
Fixpoint distance_rec (a b : pystr) : nat :=
  match a with
  | [] => length b
  | x :: a' =>
      (fix against (b : pystr) : nat :=
         match b with
         | [] => S (length a')
         | y :: b' =>
             min3 (S (distance_rec a' b))
                  (S (against b'))
                  (distance_rec a' b' + cost x y)%nat
         end) b
  end.

(** The package fills the table of the recurrence one row at a time.
    A row holds the distances of one suffix of [a] to every suffix of
    [b], the longest first. *)
Fixpoint base_row (b : pystr) : list nat :=
  match b with
  | [] => [0%nat]
  | _ :: b' => S (length b') :: base_row b'
  end.

Fixpoint next_row (x : char) (b : pystr) (prev : list nat) : list nat :=
  match b, prev with
  | y :: b', p :: prev' =>
      let rest := next_row x b' prev' in
      min3 (S p) (S (hd 0%nat rest)) (hd 0%nat prev' + cost x y)%nat :: rest
  | _, _ => [S (hd 0%nat prev)]
  end.

Definition rows (a b : pystr) : list nat :=
  foldr (fun x row => next_row x b row) (base_row b) a.

Definition distance (a b : pystr) : nat := hd 0%nat (rows a b).

(** The suffixes of a string, the longest first. *)
Fixpoint tails (b : pystr) : list pystr :=
  match b with
  | [] => [[]]
  | _ :: b' => b :: tails b'
  end.

(** [ratio(a, b) = (lensum - distance) / lensum], and 1 for two empty
    strings.  The package computes the quotient in double precision; it
    is kept exact here. *)
Definition ratio (a b : pystr) : Q :=
  let lensum := (length a + length b)%nat in
  match lensum with
  | O => 1%Q
  | S _ => Qmake (Z.of_nat (lensum - distance a b)) (Pos.of_nat lensum)
  end.

End Levenshtein.

(** ** [MoviesFinder.title_is_accurate] *)

Section TitleAccuracy.

(** [difflib.SequenceMatcher(None, a, b).ratio()], the alternative
    similarity measure, which no call of the program selects. *)
Variable SequenceMatcher_ratio : pystr -> pystr -> Q.

(** [movies_advisor/movies_finder.py], lines 408-439.  The literal [0.9]
    is compared exactly. *)
Definition title_is_accurate (title original_title : pystr)
    (use_levenshtein : bool) : bool :=
  let similarity :=
    if use_levenshtein
    then Levenshtein.ratio title original_title
    else SequenceMatcher_ratio title original_title in
  if Qle_bool (9 # 10) similarity then true else false.

End TitleAccuracy.

(** ** [MoviesFinder.find_year_in_unformatted_text] *)

Module Re.

(** The match of the pattern [.*?\)] at the start of [s]: the shortest
    run of characters other than a line feed that a closing parenthesis
    follows.  Returns the run. *)
Fixpoint lazy_to_close (s : pystr) : option pystr :=
  match s with
  | [] => None
  | c :: s' =>
      if c =? 0x29 then Some []
      else if c =? 0xa then None
      else match lazy_to_close s' with
           | Some g => Some (c :: g)
           | None => None
           end
  end.

(** [re.findall('\(.*?\)', s)]: the matches from left to right, each
    search resuming after the previous match. *)
Fixpoint findall_from (skip : nat) (s : pystr) : list pystr :=
  match s with
  | [] => []
  | c :: s' =>
      match skip with
      | S k => findall_from k s'
      | O =>
          if c =? 0x28
          then match lazy_to_close s' with
               | Some g =>
                   ([0x28] ++ g ++ [0x29]) :: findall_from (S (length g)) s'
               | None => findall_from 0 s'
               end
          else findall_from 0 s'
      end
  end.

Definition findall_parenthesized (s : pystr) : list pystr :=
  findall_from 0 s.

End Re.

(** The [for ... break] loop of lines 333-336. *)
Fixpoint first_year_group (inside_parentheses : list pystr)
    (possible_year : pystr) : pystr :=
  match inside_parentheses with
  | [] => possible_year
  | stuff :: rest =>
      if isdigit (inner_slice stuff) then inner_slice stuff
      else first_year_group rest possible_year
  end.

(** [movies_advisor/movies_finder.py], lines 313-338. *)
Definition find_year_in_unformatted_text (string : pystr) : pystr :=
  let possible_year := [] in
  let inside_parentheses := Re.findall_parenthesized string in
  first_year_group inside_parentheses possible_year.

(** ** The legacy copy, [movies_finder.py] *)

Module Legacy.

Section Legacy.

Variable str_lower : pystr -> pystr.        (* [str.lower] *)
Variable max_str_digits : option nat.

(** The variables of the scanning loops of lines 318-338. *)
Record scan := Scan {
  cont : nat;
  found_year : bool;
  possible_year : pystr
}.

(** [for char_1 in string[cont + 1:]] *)
Fixpoint inner_loop (chars : pystr) (st : scan) : scan :=
  match chars with
  | [] => st
  | char_1 :: rest =>
      if char_1 =? 0x29
      then
        (* try: int(possible_year) ... except: ...; break *)
        match py_int max_str_digits (possible_year st) with
        | Some _ => Scan (cont st) true (possible_year st)
        | None => Scan (cont st) (found_year st) []
        end
      else
        inner_loop rest
          (Scan (cont st) (found_year st) (possible_year st ++ [char_1]))
  end.

(** [for char in string] *)
Fixpoint outer_loop (string chars : pystr) (st : scan) : scan :=
  match chars with
  | [] => st
  | char :: rest =>
      if found_year st then st
      else if char =? 0x28
      then outer_loop string rest
             (inner_loop (skipn (cont st + 1) string) st)
      else outer_loop string rest
             (Scan (S (cont st)) (found_year st) (possible_year st))
  end.

(** [movies_finder.py], lines 300-339. *)
Definition find_year_in_unformatted_text (string : pystr) : pystr :=
  possible_year (outer_loop string string (Scan 0 false [])).

(** [movies_finder.py], lines 410-440.  [count / len(...)] is a true
    division, which raises on a zero divisor; the quotient and the
    literal [0.9] are compared exactly. *)
Definition title_is_accurate (title original_title : pystr)
  : result bool :=
  let words_in_original_title :=
    List.map str_lower (split (lit " ") title) in
  let count :=
    length (List.filter
              (fun word => contains word (str_lower original_title))
              words_in_original_title) in
  match length (split (lit " ") original_title) with
  | O => Raise (Exn ZeroDivisionError (lit "division by zero"))
  | S n =>
      let accuracy := Qmake (Z.of_nat count) (Pos.of_nat (S n)) in
      if Qle_bool (9 # 10) accuracy then Ok true else Ok false
  end.

End Legacy.

End Legacy.

(** ** The pages: what the program asks of a parsed document *)

(** An [<a href=...>] element. *)
Record anchor := Anchor {
  href : pystr;
  title_attr : option pystr          (* [.get("title")] *)
}.

(** One [div class="se-it mt"] entry of an ambiguous search page. *)
Record candidate := Candidate {
  ye_w : list pystr;                 (* texts of [select('div[class="ye-w"]')] *)
  anchors : list anchor              (* [select("a[href]")] *)
}.

(** A [BeautifulSoup] document, given by the answers to the queries the
    program makes; a [find] that finds nothing is [None]. *)
Record soup := Soup {
  movie_info : list pystr;           (* texts of [select('dl[class="movie-info"] > dd')] *)
  se_it_mt : list candidate;         (* [find_all("div", class "se-it mt")] *)
  description : option pystr;        (* [find("dd", itemprop "description").text] *)
  reviewBody : list pystr;           (* texts of [select('div[itemprop="reviewBody"]')] *)
  result_text : list (list pystr);   (* per [td class="result_text"]: hrefs of [select("a[href]")] *)
  originalTitle : option pystr;      (* [find("div", class "originalTitle").text] *)
  title_wrapper : option (list pystr); (* [find("div", class "title_wrapper").select("h1")] *)
  titleYear : option (list pystr);   (* [find("span", id "titleYear").select("a[href]")] texts *)
  ratingValue : option pystr;        (* [find("span", itemprop "ratingValue").text] *)
  list_group_item : option (option pystr) (* [find('a', class 'list-group-item')], its href *)
}.

Inductive response :=
| ConnectionFailed (msg : pystr)     (* [get] / [post] raise *)
| Response (http_error : option pystr) (doc : soup).
                                     (* [raise_for_status] raises when [Some] *)

Definition FILMAFFINITY_URL_ROOT : pystr :=
  lit "https://www.filmaffinity.com/en/search.php?stext=".

Definition IMDB_SIGNIN_URL : pystr :=
  lit "https://www.imdb.com/registration/signin?u=/".

(** The attributes of a [MoviesFinder] that a run only reads. *)
Record finder := Finder {
  movies : list (pystr * pyval);     (* the items of the dict, in its order *)
  number_critics : Z;
  imdb_credentials : gmap string pystr;
  _logger : Logger.t
}.

(** [MoviesFinder.__init__], with [number_critics] defaulting to 2. *)
Definition new_finder (movies : list (pystr * pyval))
    (imdb_credentials : gmap string pystr) (number_critics : option Z)
  : finder :=
  Finder movies (default 2%Z number_critics) imdb_credentials Logger.init.

Definition initial_state : state := State ∅ [] [].

Inductive flow := Continue | Return.

(** [int(v)] *)
Definition int_of (max_str_digits : option nat) (v : pyval) : M Z :=
  match v with
  | PInt z => mret z
  | PStr s =>
      match py_int max_str_digits s with
      | Some z => mret z
      | None =>
          fun st =>
            (Raise (Exn ValueError (int_error_text max_str_digits s)), st)
      end
  | _ =>
      raise TypeError
        ("int() argument must be a string, a bytes-like object or a real number, not '"
           +:+ type_name v +:+ "'")
  end.

(** [s == v] for a string [s] *)
Definition str_eq (s : pystr) (v : pyval) : bool :=
  match v with
  | PStr t => eqb s t
  | _ => false
  end.

(** The three list comprehensions of lines 170-182. *)
Definition critics_of (number_critics : Z) (critics_tags : list pystr)
  : list pystr :=
  let critics :=
    List.map (fun it => clean_string (strip (snd it)))
      (List.filter (fun it => (Z.of_nat (fst it) <? number_critics)%Z)
         (imap pair critics_tags)) in
  let critics :=
    List.map (fun critic =>
                if negb (endswith (lit ".") critic)
                then critic ++ lit "." else critic) critics in
  List.map (fun critic =>
              if contains (lit "Rating") critic
              then strip (hd [] (split (lit "Rating") critic))
              else critic) critics.

Section MoviesFinder.

Variable str_lower : pystr -> pystr.               (* [str.lower] *)
Variable SequenceMatcher_ratio : pystr -> pystr -> Q.
Variable max_str_digits : option nat.
Variable day gmt5_date : pystr.                    (* the clock, see [Logger] *)
Variable web : request -> response.                (* the two sites *)

Variable self : finder.

Definition logger_log (args : list pyval) : M unit :=
  Logger.log day gmt5_date (_logger self) args.

(** [requests.get(url)] / [session.get(url)] / [session.post(url)] *)
Definition send (r : request) : M (option pystr * soup) :=
  fun s =>
    let s' := State (_info s) (log_txt s) (sent s ++ [r]) in
    match web r with
    | ConnectionFailed msg => (Raise (Exn RequestException msg), s')
    | Response http_error doc => (Ok (http_error, doc), s')
    end.

(** [res.raise_for_status()] *)
Definition raise_for_status (res : option pystr * soup) : M unit :=
  match fst res with
  | Some msg => fun s => (Raise (Exn HTTPError msg), s)
  | None => mret tt
  end.

(** Lines 340-380; [s] is the session, if any. *)
Definition soup_from_url (url : pystr) (s : option unit) : M soup :=
  res ← send (Request GET url (bool_decide (s ≠ None)));
  try_except (raise_for_status res) is_HTTPError
    (fun e =>
       let message :=
         lit "An error ocurred while requesting to the website." ++ [0xa]
         ++ lit "                          Original exception: "
         ++ str_of e in
       logger_log [PStr message]);;
  mret (snd res).

(** Lines 382-406. *)
Definition sign_in_to_imdb : M unit :=
  soup ← soup_from_url IMDB_SIGNIN_URL None;
  sign_in_tag ← attr_of (list_group_item soup) "get";
  let signin_IMDB_url := sign_in_tag in
  let s := tt in
  email ← match imdb_credentials self !! "email" with
          | Some v => mret v
          | None => raise KeyError "'email'"
          end;
  password ← match imdb_credentials self !! "password" with
             | Some v => mret v
             | None => raise KeyError "'password'"
             end;
  match signin_IMDB_url with
  | Some u => send (Request POST u true);; mret s
  | None =>
      raise RequestException
        "Invalid URL 'None': No scheme supplied. Perhaps you meant https://None?"
  end.

(** The year test of lines 145-147. *)
Definition year_within_tolerance (year_tag : list pystr) (year : pyval)
  : M bool :=
  listed ← first_item year_tag;
  if str_eq (strip listed) year then mret true
  else
    low ← int_of max_str_digits year;
    listed ← first_item year_tag;
    listed ← int_of max_str_digits (PStr (strip listed));
    if (low - 1 <=? listed)%Z
    then high ← int_of max_str_digits year;
         mret (listed <=? high + 1)%Z
    else mret false.

(** Lines 149-153: the detail page of the accepted entry is fetched and
    the original name read from it. *)
Definition refetch (title_tag : list anchor) : M (soup * pystr) :=
  a ← first_item title_tag;
  soup1 ← soup_from_url (href a) None;
  let information_tag := movie_info soup1 in
  text ← first_item information_tag;
  mret (soup1, strip text).

(** The loop of lines 135-154 over the entries of an ambiguous search
    page; it carries [soup] and [original_name] and stops at the first
    entry it accepts. *)
Fixpoint scan_possible_movies (movie_name : pystr) (year : pyval)
    (possible_movies_tags : list candidate) (soup0 : soup)
    (original_name : pystr) : M (soup * pystr) :=
  match possible_movies_tags with
  | [] => mret (soup0, original_name)
  | possible_movie_tag :: rest =>
      let year_tag := ye_w possible_movie_tag in
      let title_tag := anchors possible_movie_tag in
      a ← first_item title_tag;
      title ← attr_of (title_attr a) "strip";
      if eqb (str_lower (strip title)) (str_lower movie_name)
      then
        ok ← year_within_tolerance year_tag year;
        if ok : bool
        then refetch title_tag
        else scan_possible_movies movie_name year rest soup0 original_name
      else scan_possible_movies movie_name year rest soup0 original_name
  end.

(** [self._info[movie_name] = d] *)
Definition store_record (movie_name : pystr) (d : gmap string pyval)
  : M unit :=
  fun s => (Ok tt, State (<[movie_name := d]> (_info s)) (log_txt s) (sent s)).

(** Lines 156-196: the record is read from the page kept in [soup] and
    stored. *)
Definition record_from_page (movie_name : pystr) (year : pyval) (soup1 : soup)
    (original_name : pystr) : M unit :=
  let original_name := clean_string original_name in
  text ← attr_of (description soup1) "text";
  let synopsis := clean_string (strip text) in
  let synopsis :=
    synopsis ++ (if negb (endswith (lit ".") synopsis) then lit "." else []) in
  let critics_tags := reviewBody soup1 in
  let critics :=
    match critics_tags with
    | _ :: _ => PList (critics_of (number_critics self) critics_tags)
    | [] => PNone
    end in
  let d : gmap string pyval :=
    <["imdb_rating" := PNone]>
    (<["critics" := critics]>
    (<["synopsis" := PStr synopsis]>
    (<["year" := year]>
    (<["original name" := PStr original_name]> ∅)))) in
  store_record movie_name d.

(** Lines 70-196. *)
Definition get_useful_information_from_filmaffinity (movie_name : pystr)
    (movie_year : pyval) : M unit :=
  let url_root := FILMAFFINITY_URL_ROOT in
  let movie_name_words :=
    List.map (fun word => str_lower (strip word))
      (split (lit " ") movie_name) in
  parsed_movie_name ←
    match movie_name_words with
    | first :: (_ :: _) as others => mret (reduce_join (lit "-") first others)
    | _ => first_item movie_name_words
    end;
  let url := url_root ++ parsed_movie_name ++ lit "&stype=all" in
  soup0 ← soup_from_url url None;
  let year := movie_year in
  let information_tag := movie_info soup0 in
  '(soup1, original_name) ←
    try_except
      (text ← first_item information_tag; mret (soup0, strip text))
      is_IndexError
      (fun e =>
         let message :=
           lit "Found more than 1 movie for " ++ movie_name
           ++ lit ". Original exception: " ++ str_of e in
         logger_log [PStr message];;
         let possible_movies_tags := se_it_mt soup0 in
         scan_possible_movies movie_name year possible_movies_tags soup0 []);
  record_from_page movie_name year soup1 original_name.

(** [self._info[movie_name]["imdb_rating"] = imdb_rating] *)
Definition store_rating (movie_name imdb_rating : pystr) : M unit :=
  fun s =>
    match _info s !! movie_name with
    | Some d =>
        (Ok tt,
         State (<[movie_name := <["imdb_rating" := PStr imdb_rating]> d]>
                  (_info s))
           (log_txt s) (sent s))
    | None => (Raise (Exn KeyError (repr movie_name)), s)
    end.

(** The body of the loop of lines 241-274 for one search-result entry. *)
Definition examine_item (movie_name original_movie_name : pystr)
    (movie_year : pyval) (s : unit) (item : list pystr) : M flow :=
  link ← first_item item;
  let new_url := lit "https://www.imdb.com" ++ link in
  try_except
    (soup ← soup_from_url new_url (Some s);
     current_movie_name ←
       try_except
         (text ← attr_of (originalTitle soup) "text";
          piece ← first_item
                    (split (lit "(original title)") (str_lower (strip text)));
          mret (strip piece))
         any_exception
         (fun _ =>
            _ ← attr_of (title_wrapper soup) "select";
            raise AttributeError
              "ResultSet object has no attribute 'text'. You're probably treating a list of elements like a single element. Did you call find_all() when you meant to call find()?");
     links ← attr_of (titleYear soup) "select";
     text ← first_item links;
     let current_movie_year := strip text in
     if title_is_accurate SequenceMatcher_ratio
          current_movie_name original_movie_name true
        && str_eq current_movie_year movie_year
     then
       text ← attr_of (ratingValue soup) "text";
       let imdb_rating := strip text in
       store_rating movie_name imdb_rating;;
       mret Return
     else mret Continue)
    any_exception
    (fun e => logger_log [PStr (str_of e)];; mret Continue).

(** [for item in search_item_tags] *)
Fixpoint scan_search_items (movie_name original_movie_name : pystr)
    (movie_year : pyval) (s : unit) (search_item_tags : list (list pystr))
  : M unit :=
  match search_item_tags with
  | [] => mret tt
  | item :: rest =>
      f ← examine_item movie_name original_movie_name movie_year s item;
      match f with
      | Return => mret tt
      | Continue =>
          scan_search_items movie_name original_movie_name movie_year s rest
      end
  end.

(** Lines 198-274. *)
Definition get_useful_information_from_imdb
    (movie_name original_movie_name : pystr) (movie_year : pyval)
  : M unit :=
  s ← sign_in_to_imdb;
  let url_root := lit "https://www.imdb.com/find?q=" in
  let movie_name_words := split (lit " ") original_movie_name in
  parsed_movie_name ←
    match movie_name_words with
    | first :: (_ :: _) as others => mret (reduce_join (lit "+") first others)
    | _ => first_item movie_name_words
    end;
  let url := url_root ++ parsed_movie_name ++ lit "&ref_=nv_sr_sm" in
  soup ← soup_from_url url (Some s);
  let search_item_tags := result_text soup in
  scan_search_items movie_name original_movie_name movie_year s
    search_item_tags.

(** [self._info[movie]["original name"].lower()] *)
Definition original_name_of (movie : pystr) : M pystr :=
  fun s =>
    match _info s !! movie with
    | None => (Raise (Exn KeyError (repr movie)), s)
    | Some d =>
        match d !! "original name" with
        | None => (Raise (Exn KeyError (lit "'original name'")), s)
        | Some (PStr name) => (Ok (str_lower name), s)
        | Some v =>
            (Raise (Exn AttributeError
                      (lit ("'" +:+ type_name v
                              +:+ "' object has no attribute 'lower'"))),
             s)
        end
    end.

(** [for movie, year in self.movies.items()], lines 59-68. *)
Fixpoint complete_each (items : list (pystr * pyval)) : M unit :=
  match items with
  | [] => mret tt
  | (movie, year) :: rest =>
      get_useful_information_from_filmaffinity movie year;;
      original_name ← original_name_of movie;
      get_useful_information_from_imdb movie original_name year;;
      complete_each rest
  end.

(** Lines 45-68.  [verbose] only selects printing on standard output. *)
Definition complete_information (verbose : bool) : M unit :=
  (fun s =>
     (Ok tt,
      State (fold_left (fun d movie_name => <[movie_name := ∅]> d)
               (List.map fst (movies self)) ∅)
        (log_txt s) (sent s)));;
  complete_each (movies self).

End MoviesFinder.

(** ** Predicates used to state the properties *)

(** The substrings that [clean_string] rewrites. *)
Definition rewritten : list pystr :=
  [ [0x22]; lit "'"; lit "',"; lit " (...) ";
    lit " (" ++ [ellipsis_char] ++ lit ") "; [left_quote_char];
    lit ".."; lit " ,"; lit "  " ].

(** [c in s] for a single character [c]. *)
Definition has_char (c : char) (s : pystr) : bool := existsb (N.eqb c) s.

(** A run of the ASCII digits 0-9. *)
Definition ascii_digits (s : pystr) : bool :=
  forallb (fun c => (0x30 <=? c) && (c <=? 0x39)) s.

(** The query part of a search address: the words joined by [sep]. *)
Definition search_query (sep : pystr) (words : list pystr) : pystr :=
  match words with
  | first :: others => reduce_join sep first others
  | [] => []
  end.

(** The address of the Source-A search for a display title. *)
Definition filmaffinity_search_url (str_lower : pystr -> pystr)
    (movie_name : pystr) : pystr :=
  FILMAFFINITY_URL_ROOT
  ++ search_query (lit "-")
       (List.map (fun word => str_lower (strip word))
          (split (lit " ") movie_name))
  ++ lit "&stype=all".

(** The address of the Source-B search for a canonical title. *)
Definition imdb_search_url (original_movie_name : pystr) : pystr :=
  lit "https://www.imdb.com/find?q="
  ++ search_query (lit "+") (split (lit " ") original_movie_name)
  ++ lit "&ref_=nv_sr_sm".

(** What becomes of one critic excerpt: cleaned, closed by a period, cut
    at the "Rating" label. *)
Definition format_excerpt (text : pystr) : pystr :=
  let critic := clean_string (strip text) in
  let critic :=
    if negb (endswith (lit ".") critic) then critic ++ lit "." else critic in
  if contains (lit "Rating") critic
  then strip (hd [] (split (lit "Rating") critic))
  else critic.

(** The record read from a detail page [doc] with synopsis text [desc],
    for the original name [original_name] found before. *)
Definition page_record (number_critics : Z) (year : pyval) (doc : soup)
    (original_name desc : pystr) : gmap string pyval :=
  let synopsis := clean_string (strip desc) in
  <["imdb_rating" := PNone]>
  (<["critics" :=
       match reviewBody doc with
       | _ :: _ => PList (critics_of number_critics (reviewBody doc))
       | [] => PNone
       end]>
  (<["synopsis" :=
       PStr (synopsis
             ++ if negb (endswith (lit ".") synopsis) then lit "." else [])]>
  (<["year" := year]>
  (<["original name" := PStr (clean_string original_name)]> ∅)))).

(** *** The candidates of the disambiguation fallback *)

Section CandidateRule.

Variable str_lower : pystr -> pystr.
Variable max_str_digits : option nat.
Variable movie_name : pystr.       (* the display title *)
Variable Y : Z.                    (* the year of the query *)

Definition candidate_title (c : candidate) : option pystr :=
  match anchors c with
  | a :: _ => title_attr a
  | [] => None
  end.

Definition listed_year (c : candidate) : option Z :=
  match ye_w c with
  | y :: _ => py_int max_str_digits (strip y)
  | [] => None
  end.

(** The listed title equals the display title, case set aside. *)
Definition title_matches (c : candidate) : bool :=
  match candidate_title c with
  | Some t => eqb (str_lower (strip t)) (str_lower movie_name)
  | None => false
  end.

(** The listed year is [Y - 1], [Y] or [Y + 1]. *)
Definition year_close (c : candidate) : bool :=
  match listed_year c with
  | Some L => ((Y - 1 <=? L) && (L <=? Y + 1))%Z
  | None => false
  end.

Definition accepted (c : candidate) : bool :=
  title_matches c && year_close c.

(** A candidate with a title that is passed over: another title, or the
    same title with a listed year out of the tolerance. *)
Definition passed_over (c : candidate) : bool :=
  match candidate_title c with
  | None => false
  | Some _ =>
      if title_matches c
      then match listed_year c with
           | Some _ => negb (year_close c)
           | None => false
           end
      else true
  end.

End CandidateRule.

(** The year of a query as a number. *)
Definition query_year (max_str_digits : option nat) (year : pyval)
  : option Z :=
  match year with
  | PInt z => Some z
  | PStr s => py_int max_str_digits s
  | _ => None
  end.

(** *** The entries of the cross-source scan *)

Section EntryRule.

Variable str_lower : pystr -> pystr.
Variable SequenceMatcher_ratio : pystr -> pystr -> Q.
Variable web : request -> response.
Variable canonical_title : pystr.
Variable year : pyval.

Definition entry_request (item : list pystr) : request :=
  Request GET (lit "https://www.imdb.com" ++ hd [] item) true.

(** The detail page of an entry, when it has a link and the page comes
    back without an error. *)
Definition entry_page (item : list pystr) : option soup :=
  match item with
  | _ :: _ =>
      match web (entry_request item) with
      | Response None doc => Some doc
      | _ => None
      end
  | [] => None
  end.

Definition page_title (doc : soup) : option pystr :=
  match originalTitle doc with
  | Some text =>
      Some (strip (hd [] (split (lit "(original title)")
                            (str_lower (strip text)))))
  | None => None
  end.

Definition page_year (doc : soup) : option pystr :=
  match titleYear doc with
  | Some (y :: _) => Some (strip y)
  | _ => None
  end.

(** The acceptance test on a page that shows a title and a year:
    [title_is_accurate(page_title, canonical_title)] and
    [page_year == year]. *)
Definition acceptance_test (doc : soup) : option bool :=
  match page_title doc, page_year doc with
  | Some t, Some y =>
      Some (title_is_accurate SequenceMatcher_ratio t canonical_title true
            && str_eq y year)
  | _, _ => None
  end.

Definition entry_fails_test (item : list pystr) : bool :=
  match entry_page item with
  | Some doc =>
      match acceptance_test doc with
      | Some b => negb b
      | None => false
      end
  | None => false
  end.

End EntryRule.

(** *** The titles in the result mapping *)

(** A computation that leaves the set of titles of [self._info] at [K]. *)
Definition keeps_titles {A : Type} (K : gset (list N)) (m : M A) : Prop :=
  forall s, dom (_info s) = K -> dom (_info (snd (m s))) = K.

(** A computation that leaves the part [proj] of the state as it was. *)
Definition unchanged {A B : Type} (proj : state -> B) (m : M A) : Prop :=
  forall s, proj (snd (m s)) = proj s.

(** The keys of a complete record. *)
Definition record_keys : gset string :=
  list_to_set ["original name"; "year"; "synopsis"; "critics"; "imdb_rating"].

(** A title with a complete record in [self._info]. *)
Definition has_full_record (s : state) (movie_name : pystr) : Prop :=
  exists d, _info s !! movie_name = Some d /\ dom d = record_keys.

(** The logger's answer to a call with a message (see [Logger.log]). *)
Definition logger_refusal : exn :=
  Exn TypeError
    (lit "Logger.log() takes 1 positional argument but 2 were given").

(** ** [training_set/create_training_data.py]: [load_imdb_credentials] *)

(** Lines 28-32, from the dictionary that [dotenv_values] read from the
    credentials file; [V] is the type of its values.
    [config["email"] = config.pop("IMDB_EMAIL")] takes the key out, then
    stores its value under the new name. *)
Definition load_imdb_credentials {V : Type} (config : gmap string V)
  : result (gmap string V) :=
  match config !! "IMDB_EMAIL" with
  | None => Raise (Exn KeyError (lit "'IMDB_EMAIL'"))
  | Some email =>
      let config := <["email" := email]> (delete "IMDB_EMAIL" config) in
      match config !! "IMDB_PASS" with
      | None => Raise (Exn KeyError (lit "'IMDB_PASS'"))
      | Some password =>
          let config :=
            <["password" := password]> (delete "IMDB_PASS" config) in
          Ok config
      end
  end.

(** *** A small web to run the program on *)

Module Demo.

Definition blank : soup :=
  Soup [] [] None [] [] None None None None None.

(** Source A: a detail page. *)
Definition detail (title : pystr) (synopsis : option pystr)
    (reviews : list pystr) : soup :=
  Soup [title] [] synopsis reviews [] None None None None None.

(** Source B: the sign-in page, a result list, a title page. *)
Definition signin : soup :=
  Soup [] [] None [] [] None None None None
    (Some (Some (lit "https://www.imdb.com/ap/signin"))).

Definition results (links : list pystr) : soup :=
  Soup [] [] None [] (List.map (fun l => [l]) links) None None None None None.

Definition title_page (title year rating : pystr) : soup :=
  Soup [] [] None [] [] (Some (title ++ lit " (original title)")) None
    (Some [year]) (Some rating) None.

(** The entries of an ambiguous result page for the query (Up, 2009). *)
Definition other_title : candidate :=
  Candidate [lit "2009"] [Anchor (lit "https://www.filmaffinity.com/film1.html")
                                 (Some (lit "Upside Down"))].
Definition two_years_off : candidate :=
  Candidate [lit "2011"] [Anchor (lit "https://www.filmaffinity.com/film2.html")
                                 (Some (lit "Up"))].
Definition one_year_off : candidate :=
  Candidate [lit " 2010 "] [Anchor (lit "https://www.filmaffinity.com/film100.html")
                                   (Some (lit " UP "))].
Definition same_year : candidate :=
  Candidate [lit "2009"] [Anchor (lit "https://www.filmaffinity.com/film3.html")
                                 (Some (lit "Up"))].

Definition ambiguous : soup :=
  Soup [] [other_title; two_years_off; one_year_off; same_year]
    (Some (lit "Several films")) [] [] None None None None None.

Definition five_reviews : list pystr :=
  [lit "first"; lit " 'second' "; lit "third. Rating: 4"; lit "fourth";
   lit "fifth"].

Definition pages : list (pystr * soup) :=
  [ (lit "https://www.filmaffinity.com/en/search.php?stext=example-movie&stype=all",
     detail (lit "Original Example") (Some (lit "A story")) []);
    (lit "https://www.filmaffinity.com/en/search.php?stext=reviewed&stype=all",
     detail (lit "Reviewed") (Some (lit "A story.")) five_reviews);
    (lit "https://www.filmaffinity.com/en/search.php?stext=untold&stype=all",
     detail (lit "Untold") None []);
    (lit "https://www.filmaffinity.com/en/search.php?stext=up&stype=all",
     ambiguous);
    (lit "https://www.filmaffinity.com/film100.html",
     detail (lit "Up (2010)") (Some (lit "Balloons")) []);
    (IMDB_SIGNIN_URL, signin);
    (lit "https://www.imdb.com/ap/signin", blank);
    (lit "https://www.imdb.com/find?q=original+example&ref_=nv_sr_sm",
     results [lit "/title/tt001/"; lit "/title/tt002/"; lit "/title/tt003/";
              lit "/title/tt004/"]);
    (lit "https://www.imdb.com/title/tt001/",
     title_page (lit "Another Example") (lit "2020") (lit "5.0"));
    (lit "https://www.imdb.com/title/tt002/",
     title_page (lit "Original Example") (lit "2019") (lit "6.0"));
    (lit "https://www.imdb.com/title/tt003/",
     title_page (lit "Original Example") (lit "2020") (lit "7.5"));
    (lit "https://www.imdb.com/title/tt004/",
     title_page (lit "Original Example") (lit "2020") (lit "9.9")) ].

Definition web (r : request) : response :=
  match List.find (fun p => eqb (fst p) (url r)) pages with
  | Some p => Response None (snd p)
  | None => ConnectionFailed (lit "no route to host")
  end.

Definition credentials : gmap string pystr :=
  <["email" := lit "me@example.org"]> (<["password" := lit "secret"]> ∅).

Definition finder_of (movies : list (pystr * pyval)) : finder :=
  new_finder movies credentials None.

Definition day : pystr := lit "Monday".
Definition gmt5_date : pystr := lit "01 Jan 2024 10:00:00 AM ".
Definition no_ratio (a b : pystr) : Q := 0.

End Demo.

(** A text that holds none of them and neither of the two suffixes that
    are cut. *)
Definition is_clean (t : pystr) : bool :=
  forallb (fun p => negb (contains p t)) rewritten
  && negb (endswith (lit "(FILMAFFINITY)") t)
  && negb (endswith (lit "aka") t).

(* ===================================================================== *)
(** * Properties *)
(* ===================================================================== *)

Example py_int_ex :
  List.map (py_int (Some 4300%nat))
    [lit "12"; lit " 12 "; 0x1c :: lit "12"; lit "+12"; lit "-12"; lit "1_2";
     lit "_12"; lit "12_"; lit "1__2"; []; lit "+"; lit "- 1"; 0xa0 :: lit "12";
     [0x661; 0x662]; lit "0012"; [0xb2]; 0x85 :: lit "1"; lit "1.0"]
  = [Some 12; Some 12; None; Some 12; Some (-12); Some 12;
     None; None; None; None; None; None; Some 12;
     Some 12; Some 12; None; Some 1; None]%Z.
Proof. vm_compute. reflexivity. Qed.

(** The text of the [ValueError]: the literal as [repr] shows it. *)
Example int_error_text_ex :
  List.map (int_error_text (Some 4300%nat))
    [lit "TBA"; lit "it's"; lit "1__2"; [0x9] ++ lit "2x" ++ [0xa];
     0xa0 :: lit "n/a"]
  = [lit "invalid literal for int() with base 10: 'TBA'";
     lit "invalid literal for int() with base 10: " ++ [0x22] ++ lit "it's"
       ++ [0x22];
     lit "invalid literal for int() with base 10: '1__2'";
     lit "invalid literal for int() with base 10: '" ++ [0x5c] ++ lit "t2x"
       ++ [0x5c] ++ lit "n'";
     lit "invalid literal for int() with base 10: '" ++ [0x5c] ++ lit "xa0n/a'"].
Proof. vm_compute. reflexivity. Qed.

Example find_year_ex :
  find_year_in_unformatted_text
    (lit "Star Wars: The Rise of Skywalker (2019) (TV Episode) - Season 2")
  = lit "2019"
  /\ Legacy.find_year_in_unformatted_text (Some 4300%nat)
    (lit "IMDb on the Scene - Interviews (2017) (TV Series)")
  = lit "2017".
Proof. vm_compute. split; reflexivity. Qed.

Example clean_string_ex1 :
  clean_string (lit "  A 'story' (...) told..  (FILMAFFINITY)")
  = lit "A story . told.".
Proof. vm_compute. reflexivity. Qed.

(** ** Facts about the string operations *)

Section StringFacts.

Lemma replace_from_absent (old new s : pystr) :
  contains old s = false -> replace_from old new 0 s = s.
Proof.
  induction s as [|c s IH]; intros H; [reflexivity|].
  cbn [contains] in H. apply orb_false_iff in H as [H1 H2].
  cbn [replace_from]. rewrite H1. f_equal. exact (IH H2).
Qed.

Lemma replace_absent (old new s : pystr) :
  contains old s = false -> replace old new s = s.
Proof.
  destruct old as [|o old]; intros H.
  - destruct s; discriminate H.
  - apply replace_from_absent. exact H.
Qed.

Lemma lstrip_lstrip (s : pystr) : lstrip (lstrip s) = lstrip s.
Proof.
  induction s as [|c s IH]; [reflexivity|].
  cbn [lstrip]. destruct (isspace c) eqn:E; [exact IH|].
  cbn [lstrip]. rewrite E. reflexivity.
Qed.

Lemma lstrip_snoc (s : pystr) (c : char) :
  isspace c = false -> lstrip (s ++ [c]) = lstrip s ++ [c].
Proof.
  intros E. induction s as [|d s IH]; cbn [lstrip app].
  - rewrite E. reflexivity.
  - destruct (isspace d); [exact IH | reflexivity].
Qed.

Lemma rstrip_cons (c : char) (s : pystr) :
  isspace c = false -> rstrip (c :: s) = c :: rstrip s.
Proof.
  intros E. unfold rstrip. cbn [rev].
  rewrite lstrip_snoc by exact E. rewrite rev_app_distr. reflexivity.
Qed.

Lemma rstrip_rstrip (s : pystr) : rstrip (rstrip s) = rstrip s.
Proof.
  unfold rstrip. rewrite rev_involutive, lstrip_lstrip. reflexivity.
Qed.

Lemma lstrip_head (s : pystr) :
  lstrip s = [] \/ exists c t, lstrip s = c :: t /\ isspace c = false.
Proof.
  induction s as [|c s IH]; [left; reflexivity|].
  cbn [lstrip]. destruct (isspace c) eqn:E; [exact IH|].
  right. exists c, s. split; [reflexivity | exact E].
Qed.

(** Stripping twice is stripping once. *)
Lemma strip_strip (s : pystr) : strip (strip s) = strip s.
Proof.
  unfold strip. destruct (lstrip_head s) as [-> | (c & t & -> & E)].
  - reflexivity.
  - rewrite (rstrip_cons c t E). cbn [lstrip]. rewrite E.
    rewrite <- (rstrip_cons c t E). apply rstrip_rstrip.
Qed.

Lemma split_from_nonempty (sep : pystr) (skip : nat) (cur s : pystr) :
  (1 <= length (split_from sep skip cur s))%nat.
Proof.
  revert skip cur. induction s as [|c s IH]; intros skip cur.
  - cbn. lia.
  - cbn [split_from]. destruct skip as [|k]; [|apply IH].
    destruct (startswith sep (c :: s)); [cbn [length]; lia | apply IH].
Qed.

(** Splitting never gives an empty list. *)
Lemma split_nonempty (sep s : pystr) : (1 <= length (split sep s))%nat.
Proof. apply split_from_nonempty. Qed.

End StringFacts.

(** ** [clean_string] *)

Lemma strip_clean_string (s : pystr) :
  strip (clean_string s) = clean_string s.
Proof.
  unfold clean_string. cbv zeta.
  repeat match goal with
         | |- context [if ?b then _ else _] => destruct b
         end; apply strip_strip.
Qed.

(** A text that is already clean is left as it is. *)
Lemma clean_string_fixed (t : pystr) :
  is_clean t = true -> strip t = t -> clean_string t = t.
Proof.
  intros H Hs. unfold is_clean in H.
  apply andb_true_iff in H as [H Haka].
  apply andb_true_iff in H as [H Hfa].
  assert (Hp : forall p, In p rewritten -> contains p t = false).
  { intros p Hin. rewrite forallb_forall in H.
    apply negb_true_iff. exact (H p Hin). }
  apply negb_true_iff in Haka, Hfa.
  unfold clean_string. cbv zeta.
  rewrite (replace_absent [0x22] _ t) by (apply Hp; cbn; tauto).
  rewrite (replace_absent (lit "'") _ t) by (apply Hp; cbn; tauto).
  rewrite (replace_absent (lit "',") _ t) by (apply Hp; cbn; tauto).
  rewrite (replace_absent (lit "'") _ t) by (apply Hp; cbn; tauto).
  rewrite (replace_absent (lit " (...) ") _ t) by (apply Hp; cbn; tauto).
  rewrite (replace_absent (lit " (" ++ [ellipsis_char] ++ lit ") ") _ t)
    by (apply Hp; cbn; tauto).
  rewrite (replace_absent [left_quote_char] _ t) by (apply Hp; cbn; tauto).
  rewrite (replace_absent (lit "..") _ t) by (apply Hp; cbn; tauto).
  rewrite (replace_absent (lit " ,") _ t) by (apply Hp; cbn; tauto).
  rewrite (replace_absent (lit "  ") _ t) by (apply Hp; cbn; tauto).
  rewrite Hs, Hfa, Haka. reflexivity.
Qed.

Lemma replace_from_no_char (c : char) (new s : pystr) (skip : nat) :
  has_char c new = false ->
  has_char c (replace_from [c] new skip s) = false.
Proof.
  intros Hnew. revert skip. induction s as [|x s IH]; intros skip.
  - reflexivity.
  - cbn [replace_from]. destruct skip as [|k]; [|apply IH].
    cbn [startswith]. destruct (c =? x) eqn:E; cbn [andb].
    + unfold has_char. rewrite existsb_app. apply orb_false_iff.
      split; [exact Hnew | apply IH].
    + cbn [has_char existsb]. rewrite E. apply IH.
Qed.

Lemma contains_no_char (c : char) (p s : pystr) :
  has_char c s = false -> contains (c :: p) s = false.
Proof.
  induction s as [|x s IH]; intros H; [reflexivity|].
  cbn [has_char existsb] in H. apply orb_false_iff in H as [H1 H2].
  cbn [contains startswith]. rewrite H1. exact (IH H2).
Qed.

(** The two copies of [clean_string] compute the same function: once the
    second replacement has run no apostrophe is left for the fourth. *)
Lemma legacy_clean_string_same (s : pystr) :
  LegacyClean.clean_string s = clean_string s.
Proof.
  unfold LegacyClean.clean_string, clean_string. cbv zeta.
  set (t := replace (lit "'") (lit " ") (replace [0x22] (lit " ") s)).
  assert (Ht : has_char 0x27 t = false)
    by exact (replace_from_no_char 0x27 (lit " ") _ 0 eq_refl).
  rewrite (replace_absent (lit "',") (lit ", ") t)
    by exact (contains_no_char 0x27 (lit ",") t Ht).
  rewrite !(replace_absent (lit "'") _ t)
    by exact (contains_no_char 0x27 [] t Ht).
  reflexivity.
Qed.

(** C5, refuted as stated: cleaning ["a    b"] (four blanks) gives
    ["a  b"], and cleaning that gives ["a b"], because [replace] makes a
    single pass over the doubled blanks. *)
Lemma clean_string_not_idempotent :
  clean_string (lit "a    b") = lit "a  b"
  /\ clean_string (clean_string (lit "a    b")) = lit "a b"
  /\ clean_string (clean_string (lit "a    b")) <> clean_string (lit "a    b").
Proof. vm_compute. repeat split; discriminate. Qed.

(** C5, amended: whenever the cleaned text holds none of the rewritten
    substrings and neither of the cut suffixes, cleaning it again gives
    the same text. *)
Theorem clean_string_idempotent_on_clean (s : pystr) :
  is_clean (clean_string s) = true ->
  clean_string (clean_string s) = clean_string s.
Proof.
  intros H. apply clean_string_fixed; [exact H | apply strip_clean_string].
Qed.

Lemma clean_string_idempotent_on_clean_witness :
  is_clean (clean_string (lit "  A 'story' (...) told..  (FILMAFFINITY)")) = true
  /\ clean_string
       (clean_string (lit "  A 'story' (...) told..  (FILMAFFINITY)"))
     = clean_string (lit "  A 'story' (...) told..  (FILMAFFINITY)").
Proof.
  split; [vm_compute; reflexivity|].
  apply (clean_string_idempotent_on_clean
           (lit "  A 'story' (...) told..  (FILMAFFINITY)")).
  vm_compute; reflexivity.
Defined.

(** ** [title_is_accurate] *)

Section EditDistance.

Import Levenshtein.

Lemma distance_rec_nil_r (a : pystr) : distance_rec a [] = length a.
Proof. destruct a; reflexivity. Qed.

Lemma distance_rec_cons_cons (x y : char) (a b : pystr) :
  distance_rec (x :: a) (y :: b)
  = min3 (S (distance_rec a (y :: b))) (S (distance_rec (x :: a) b))
      (distance_rec a b + cost x y)%nat.
Proof. reflexivity. Qed.

Lemma hd_tails (f : pystr -> nat) (b : pystr) :
  hd 0%nat (List.map f (tails b)) = f b.
Proof. destruct b; reflexivity. Qed.

Lemma base_row_spec (b : pystr) :
  base_row b = List.map (distance_rec []) (tails b).
Proof.
  induction b as [|y b IH]; [reflexivity|].
  cbn [base_row tails List.map]. rewrite IH. reflexivity.
Qed.

Lemma next_row_spec (x : char) (a b : pystr) :
  next_row x b (List.map (distance_rec a) (tails b))
  = List.map (distance_rec (x :: a)) (tails b).
Proof.
  induction b as [|y b IH].
  - cbn [tails List.map next_row hd]. rewrite distance_rec_nil_r.
    reflexivity.
  - cbn [tails List.map next_row]. rewrite IH, !hd_tails.
    rewrite distance_rec_cons_cons. reflexivity.
Qed.

(** The rows hold the values of the recurrence. *)
Lemma rows_spec (a b : pystr) :
  rows a b = List.map (distance_rec a) (tails b).
Proof.
  induction a as [|x a IH]; unfold rows; cbn [foldr].
  - apply base_row_spec.
  - fold (rows a b). rewrite IH. apply next_row_spec.
Qed.

Lemma distance_spec (a b : pystr) : distance a b = distance_rec a b.
Proof. unfold distance. rewrite rows_spec. apply hd_tails. Qed.

Lemma distance_rec_sym (a b : pystr) : distance_rec a b = distance_rec b a.
Proof.
  revert b. induction a as [|x a IHa]; intros b.
  - rewrite distance_rec_nil_r. reflexivity.
  - induction b as [|y b IHb].
    + rewrite distance_rec_nil_r. reflexivity.
    + rewrite !distance_rec_cons_cons.
      rewrite (IHa (y :: b)), IHb, (IHa b). unfold cost.
      rewrite (N.eqb_sym x y). unfold min3. lia.
Qed.

(** The distance does not depend on the order of the two strings. *)
Lemma distance_sym (a b : pystr) : distance a b = distance b a.
Proof. rewrite !distance_spec. apply distance_rec_sym. Qed.

Lemma ratio_sym (a b : pystr) : ratio a b = ratio b a.
Proof.
  unfold ratio. rewrite (distance_sym a b), (Nat.add_comm (length a)).
  reflexivity.
Qed.

Lemma distance_refl (a : pystr) : distance a a = 0%nat.
Proof.
  rewrite distance_spec. induction a as [|x a IH]; [reflexivity|].
  rewrite distance_rec_cons_cons, IH. unfold cost. rewrite N.eqb_refl.
  unfold min3. lia.
Qed.

End EditDistance.

Example ratio_kitten_sitting :
  Levenshtein.ratio (lit "kitten") (lit "sitting") = (8 # 13)%Q.
Proof. vm_compute. reflexivity. Qed.

Example ratio_hello_holly :
  Levenshtein.ratio (lit "Hello world!") (lit "Holly grail!") = (14 # 24)%Q.
Proof. vm_compute. reflexivity. Qed.

(** C3: with the edit-distance similarity, [title_is_accurate(a, b)] is
    true exactly when the ratio of [a] and [b] is at least 9/10, and the
    answer is the same for [(b, a)]. *)
Theorem title_is_accurate_threshold_symmetric
    (SequenceMatcher_ratio : pystr -> pystr -> Q) (a b : pystr) :
  (title_is_accurate SequenceMatcher_ratio a b true = true
   <-> (9 # 10 <= Levenshtein.ratio a b)%Q)
  /\ title_is_accurate SequenceMatcher_ratio a b true
     = title_is_accurate SequenceMatcher_ratio b a true.
Proof.
  unfold title_is_accurate. split.
  - rewrite <- Qle_bool_iff.
    destruct (Qle_bool (9 # 10) (Levenshtein.ratio a b)); intuition congruence.
  - rewrite (ratio_sym a b). reflexivity.
Qed.

(** A title is an accurate rendering of itself. *)
Lemma title_is_accurate_refl
    (SequenceMatcher_ratio : pystr -> pystr -> Q) (a : pystr) :
  title_is_accurate SequenceMatcher_ratio a a true = true.
Proof.
  unfold title_is_accurate, Levenshtein.ratio. rewrite distance_refl.
  destruct (length a + length a)%nat eqn:E; [reflexivity|].
  rewrite Nat.sub_0_r.
  assert (H : Qle_bool (9 # 10) (Z.of_nat (S n) # Pos.of_nat (S n)) = true).
  { apply Qle_bool_iff. unfold Qle. cbn [Qnum Qden].
    rewrite <- Pos.of_nat_succ, Zpos_P_of_succ_nat. lia. }
  rewrite H. reflexivity.
Qed.

(** C10: the legacy word-containment test always returns a boolean; the
    divisor [len(original_title.split(" "))] is at least 1. *)
Theorem legacy_title_is_accurate_total
    (str_lower : pystr -> pystr) (title original_title : pystr) :
  (1 <= length (split (lit " ") original_title))%nat
  /\ exists b : bool,
       Legacy.title_is_accurate str_lower title original_title = Ok b.
Proof.
  pose proof (split_nonempty (lit " ") original_title) as H.
  split; [exact H|].
  unfold Legacy.title_is_accurate.
  destruct (length (split (lit " ") original_title)) as [|n]; [lia|].
  match goal with
  | |- context [if ?c then _ else _] => destruct c
  end; eauto.
Qed.

Example legacy_title_is_accurate_ex :
  Legacy.title_is_accurate ascii_lower [] [] = Ok true
  /\ Legacy.title_is_accurate ascii_lower (lit "The Lion King") (lit "lion")
     = Ok true
  /\ Legacy.title_is_accurate ascii_lower (lit "Up") (lit "Up in the Air")
     = Ok false.
Proof. vm_compute. repeat split. Qed.

(** ** [find_year_in_unformatted_text], both copies *)

Section FindYear.

Variable max_str_digits : option nat.

Lemma ascii_digit_not_space (c : char) :
  (0x30 <=? c) && (c <=? 0x39) = true -> c_isspace c = false.
Proof.
  intros H. apply andb_true_iff in H as [H1 H2].
  apply N.leb_le in H1, H2. unfold c_isspace.
  apply orb_false_iff. split.
  - apply andb_false_iff. right. apply N.leb_gt. lia.
  - apply N.eqb_neq. lia.
Qed.

Lemma c_lstrip_digits (ds : pystr) :
  ascii_digits ds = true -> c_lstrip ds = ds.
Proof.
  destruct ds as [|d ds]; [reflexivity|]. intros H.
  cbn [ascii_digits forallb] in H. apply andb_true_iff in H as [H _].
  cbn [c_lstrip]. rewrite (ascii_digit_not_space d H). reflexivity.
Qed.

Lemma ascii_digits_rev (ds : pystr) :
  ascii_digits ds = true -> ascii_digits (rev ds) = true.
Proof.
  unfold ascii_digits. rewrite !forallb_forall.
  intros H c Hc. apply H. apply in_rev. exact Hc.
Qed.

Lemma to_ascii_decimal_digits (ds : pystr) :
  ascii_digits ds = true -> List.map to_ascii_decimal ds = ds.
Proof.
  induction ds as [|d ds IH]; [reflexivity|]. intros H.
  cbn [ascii_digits forallb] in H. apply andb_true_iff in H as [H1 H2].
  cbn [List.map]. rewrite (IH H2). f_equal.
  apply andb_true_iff in H1 as [_ H1]. apply N.leb_le in H1.
  unfold to_ascii_decimal.
  assert (E : (d <? 127) = true) by (apply N.ltb_lt; lia).
  rewrite E. reflexivity.
Qed.

Lemma int_digits_all (ds : pystr) :
  ascii_digits ds = true ->
  forall acc count prev, ds <> [] \/ prev = SawDigit ->
  exists v, int_digits acc count prev ds = Some (v, (count + length ds)%nat).
Proof.
  induction ds as [|d ds IH]; intros H acc count prev Hne.
  - destruct Hne as [Hne | ->]; [congruence|].
    exists acc. cbn. rewrite Nat.add_0_r. reflexivity.
  - cbn [ascii_digits forallb] in H. apply andb_true_iff in H as [H1 H2].
    cbn [int_digits]. rewrite H1.
    destruct (IH H2 (10 * acc + (d - 0x30)) (S count) SawDigit) as [v Hv];
      [right; reflexivity|].
    exists v. rewrite Hv. cbn [length]. f_equal. f_equal. lia.
Qed.

(** [int] accepts every non-empty run of ASCII digits within the limit. *)
Lemma py_int_ascii_digits (ds : pystr) :
  ds <> [] -> ascii_digits ds = true ->
  within_digit_limit max_str_digits (length ds) = true ->
  exists z, py_int max_str_digits ds = Some z.
Proof.
  intros Hne H Hlim. unfold py_int.
  rewrite (to_ascii_decimal_digits ds H), (c_lstrip_digits ds H).
  rewrite (c_lstrip_digits (rev ds) (ascii_digits_rev ds H)), rev_involutive.
  destruct ds as [|d ds]; [congruence|].
  assert (Hd : (0x30 <=? d) && (d <=? 0x39) = true).
  { cbn [ascii_digits forallb] in H. apply andb_true_iff in H as [H _].
    exact H. }
  assert (E1 : (d =? 0x2d) = false).
  { apply andb_true_iff in Hd as [Hd _]. apply N.leb_le in Hd.
    apply N.eqb_neq. lia. }
  assert (E2 : (d =? 0x2b) = false).
  { apply andb_true_iff in Hd as [Hd _]. apply N.leb_le in Hd.
    apply N.eqb_neq. lia. }
  rewrite E1, E2.
  destruct (int_digits_all (d :: ds) H 0 0%nat AtStart) as [v Hv];
    [left; congruence|].
  rewrite Hv. cbn [Nat.add]. rewrite Hlim. eauto.
Qed.

Lemma ascii_digit_is_digit (c : char) :
  (0x30 <=? c) && (c <=? 0x39) = true -> isdigit_char c = true.
Proof.
  intros H. unfold isdigit_char, in_ranges, digit_ranges.
  cbn [existsb fst snd]. rewrite H. reflexivity.
Qed.

Lemma isdigit_ascii_digits (ds : pystr) :
  ds <> [] -> ascii_digits ds = true -> isdigit ds = true.
Proof.
  intros Hne H. destruct ds as [|d ds]; [congruence|].
  unfold isdigit. unfold ascii_digits in H.
  rewrite forallb_forall in *. intros c Hc.
  apply ascii_digit_is_digit. apply H. exact Hc.
Qed.

(** *** The legacy loops *)

Lemma outer_loop_found (string chars : pystr) (st : Legacy.scan) :
  Legacy.found_year st = true ->
  Legacy.outer_loop max_str_digits string chars st = st.
Proof.
  intros H. destruct chars; cbn [Legacy.outer_loop]; [|rewrite H];
    reflexivity.
Qed.

Lemma outer_loop_no_paren (string pre rest : pystr) (c : nat) (py : pystr) :
  has_char 0x28 pre = false ->
  Legacy.outer_loop max_str_digits string (pre ++ rest)
    (Legacy.Scan c false py)
  = Legacy.outer_loop max_str_digits string rest
      (Legacy.Scan (c + length pre) false py).
Proof.
  revert c. induction pre as [|x pre IH]; intros c H.
  - cbn [app length]. rewrite Nat.add_0_r. reflexivity.
  - cbn [has_char existsb] in H. apply orb_false_iff in H as [H1 H2].
    cbn [app Legacy.outer_loop Legacy.found_year Legacy.cont
           Legacy.possible_year].
    rewrite N.eqb_sym in H1. rewrite H1.
    rewrite (IH (S c) H2). cbn [length]. f_equal. f_equal. lia.
Qed.

Lemma inner_loop_run (ds rest : pystr) (c : nat) (f : bool) (py : pystr) :
  has_char 0x29 ds = false ->
  Legacy.inner_loop max_str_digits (ds ++ rest) (Legacy.Scan c f py)
  = Legacy.inner_loop max_str_digits rest (Legacy.Scan c f (py ++ ds)).
Proof.
  revert py. induction ds as [|d ds IH]; intros py H.
  - cbn [app]. rewrite app_nil_r. reflexivity.
  - cbn [has_char existsb] in H. apply orb_false_iff in H as [H1 H2].
    cbn [app Legacy.inner_loop Legacy.found_year Legacy.cont
           Legacy.possible_year].
    rewrite N.eqb_sym in H1. rewrite H1.
    rewrite (IH (py ++ [d]) H2). rewrite <- app_assoc. reflexivity.
Qed.

Lemma ascii_digits_no (x : char) (ds : pystr) :
  x < 0x30 -> ascii_digits ds = true -> has_char x ds = false.
Proof.
  intros Hx. induction ds as [|d ds IH]; [reflexivity|]. intros H.
  cbn [ascii_digits forallb] in H. apply andb_true_iff in H as [H1 H2].
  cbn [has_char existsb]. apply orb_false_iff. split; [|exact (IH H2)].
  apply andb_true_iff in H1 as [H1 _]. apply N.leb_le in H1.
  apply N.eqb_neq. lia.
Qed.

Lemma legacy_no_paren (s : pystr) :
  has_char 0x28 s = false ->
  Legacy.find_year_in_unformatted_text max_str_digits s = [].
Proof.
  intros H. unfold Legacy.find_year_in_unformatted_text.
  rewrite <- (app_nil_r s) at 2.
  rewrite (outer_loop_no_paren s s [] 0 [] H). reflexivity.
Qed.

Lemma legacy_first_group (pre ds post : pystr) :
  has_char 0x28 pre = false -> ds <> [] -> ascii_digits ds = true ->
  within_digit_limit max_str_digits (length ds) = true ->
  Legacy.find_year_in_unformatted_text max_str_digits
    (pre ++ [0x28] ++ ds ++ [0x29] ++ post) = ds.
Proof.
  intros Hpre Hne Hds Hlim. unfold Legacy.find_year_in_unformatted_text.
  set (string := pre ++ [0x28] ++ ds ++ [0x29] ++ post).
  unfold string at 2.
  rewrite (outer_loop_no_paren string pre _ 0 [] Hpre).
  cbn [app Legacy.outer_loop Legacy.found_year Legacy.cont Nat.add].
  cbn [N.eqb Pos.eqb].
  assert (Hskip : skipn (length pre + 1) string = ds ++ 0x29 :: post).
  { unfold string. rewrite Nat.add_1_r.
    change (pre ++ [0x28] ++ ds ++ [0x29] ++ post)
      with (pre ++ 0x28 :: (ds ++ 0x29 :: post)).
    rewrite skipn_app, skipn_all2 by lia.
    replace (S (length pre) - length pre)%nat with 1%nat by lia.
    reflexivity. }
  rewrite Hskip.
  rewrite (inner_loop_run ds _ _ false []
             (ascii_digits_no 0x29 ds ltac:(lia) Hds)).
  cbn [app Legacy.inner_loop Legacy.possible_year Legacy.cont
         Legacy.found_year N.eqb Pos.eqb].
  destruct (py_int_ascii_digits ds Hne Hds Hlim) as [z ->].
  rewrite outer_loop_found by reflexivity. reflexivity.
Qed.

(** *** The pattern-based rewrite *)

Lemma findall_no_paren (pre rest : pystr) :
  has_char 0x28 pre = false ->
  Re.findall_from 0 (pre ++ rest) = Re.findall_from 0 rest.
Proof.
  induction pre as [|x pre IH]; intros H; [reflexivity|].
  cbn [has_char existsb] in H. apply orb_false_iff in H as [H1 H2].
  cbn [app Re.findall_from]. rewrite N.eqb_sym in H1. rewrite H1.
  exact (IH H2).
Qed.

Lemma lazy_to_close_digits (ds post : pystr) :
  ascii_digits ds = true ->
  Re.lazy_to_close (ds ++ 0x29 :: post) = Some ds.
Proof.
  induction ds as [|d ds IH]; intros H.
  - reflexivity.
  - cbn [ascii_digits forallb] in H. apply andb_true_iff in H as [H1 H2].
    cbn [app Re.lazy_to_close]. rewrite (IH H2).
    apply andb_true_iff in H1 as [H1 _]. apply N.leb_le in H1.
    assert (E1 : (d =? 0x29) = false) by (apply N.eqb_neq; lia).
    assert (E2 : (d =? 0xa) = false) by (apply N.eqb_neq; lia).
    rewrite E1, E2. reflexivity.
Qed.

Lemma inner_slice_group (ds : pystr) :
  inner_slice (0x28 :: ds ++ [0x29]) = ds.
Proof.
  unfold inner_slice, drop_last. cbn [app skipn]. rewrite !skipn_O.
  rewrite length_app. cbn [length].
  replace (length ds + 1 - 1)%nat with (length ds) by lia.
  rewrite firstn_app, firstn_all, Nat.sub_diag. cbn [firstn].
  apply app_nil_r.
Qed.

Lemma rewrite_no_paren (s : pystr) :
  has_char 0x28 s = false -> find_year_in_unformatted_text s = [].
Proof.
  intros H. unfold find_year_in_unformatted_text, Re.findall_parenthesized.
  rewrite <- (app_nil_r s). rewrite (findall_no_paren s [] H). reflexivity.
Qed.

Lemma rewrite_first_group (pre ds post : pystr) :
  has_char 0x28 pre = false -> ds <> [] -> ascii_digits ds = true ->
  find_year_in_unformatted_text (pre ++ [0x28] ++ ds ++ [0x29] ++ post) = ds.
Proof.
  intros Hpre Hne Hds.
  unfold find_year_in_unformatted_text, Re.findall_parenthesized.
  rewrite (findall_no_paren pre _ Hpre).
  cbn [app Re.findall_from N.eqb Pos.eqb].
  rewrite (lazy_to_close_digits ds post Hds).
  cbn [first_year_group]. rewrite (inner_slice_group ds).
  rewrite (isdigit_ascii_digits ds Hne Hds). reflexivity.
Qed.

End FindYear.

(** C9, refuted as stated: the two copies differ on an unclosed
    parenthesis, on a year in a second parenthesis, and on a signed
    number. *)
Lemma find_year_versions_differ :
  Legacy.find_year_in_unformatted_text (Some 4300%nat) (lit "Up (2009")
    = lit "2009"
  /\ find_year_in_unformatted_text (lit "Up (2009") = []
  /\ Legacy.find_year_in_unformatted_text (Some 4300%nat)
       (lit "Up (TV Episode) (2009)") = []
  /\ find_year_in_unformatted_text (lit "Up (TV Episode) (2009)") = lit "2009"
  /\ Legacy.find_year_in_unformatted_text (Some 4300%nat) (lit "Up (+2009)")
     = lit "+2009"
  /\ find_year_in_unformatted_text (lit "Up (+2009)") = []
  /\ Legacy.find_year_in_unformatted_text (Some 4300%nat) (lit "Up (2009")
     <> find_year_in_unformatted_text (lit "Up (2009").
Proof. vm_compute. repeat split. discriminate. Qed.

(** C9, amended: the two copies agree on every text without an opening
    parenthesis (both give the empty string) and on every text whose first
    opening parenthesis is followed by a non-empty run of ASCII digits,
    short enough for [int], and a closing parenthesis (both give that
    run). *)
Theorem find_year_versions_agree (max_str_digits : option nat) :
  (forall s : pystr,
     has_char 0x28 s = false ->
     Legacy.find_year_in_unformatted_text max_str_digits s = []
     /\ find_year_in_unformatted_text s = [])
  /\ (forall pre ds post : pystr,
        has_char 0x28 pre = false -> ds <> [] -> ascii_digits ds = true ->
        within_digit_limit max_str_digits (length ds) = true ->
        Legacy.find_year_in_unformatted_text max_str_digits
          (pre ++ [0x28] ++ ds ++ [0x29] ++ post) = ds
        /\ find_year_in_unformatted_text
             (pre ++ [0x28] ++ ds ++ [0x29] ++ post) = ds).
Proof.
  split.
  - intros s H. split; [apply legacy_no_paren | apply rewrite_no_paren];
      exact H.
  - intros pre ds post Hpre Hne Hds Hlim. split.
    + apply legacy_first_group; assumption.
    + apply rewrite_first_group; assumption.
Qed.

Lemma find_year_versions_agree_witness :
  (has_char 0x28 (lit "no year here") = false
   /\ Legacy.find_year_in_unformatted_text (Some 4300%nat) (lit "no year here")
      = []
   /\ find_year_in_unformatted_text (lit "no year here") = [])
  /\ (has_char 0x28 (lit "Interviews ") = false
      /\ ascii_digits (lit "2017") = true
      /\ Legacy.find_year_in_unformatted_text (Some 4300%nat)
           (lit "Interviews " ++ [0x28] ++ lit "2017" ++ [0x29]
              ++ lit " (TV Series)") = lit "2017"
      /\ find_year_in_unformatted_text
           (lit "Interviews " ++ [0x28] ++ lit "2017" ++ [0x29]
              ++ lit " (TV Series)") = lit "2017").
Proof.
  destruct (find_year_versions_agree (Some 4300%nat)) as [H1 H2].
  split.
  - split; [reflexivity|].
    apply (H1 (lit "no year here")). reflexivity.
  - split; [reflexivity|]. split; [reflexivity|].
    apply (H2 (lit "Interviews ") (lit "2017") (lit " (TV Series)"));
      [reflexivity | discriminate | reflexivity | reflexivity].
Defined.

(** ** [Logger.log] *)

(** C2, evaluated on the code: a call [log(message)] raises [TypeError]
    while the arguments are bound, whatever the logger, the message and the
    state; nothing is appended to the log. *)
Theorem logger_log_with_message_raises
    (day gmt5_date : pystr) (self : Logger.t) (message : pyval) (s : state) :
  Logger.log day gmt5_date self [message] s
  = (Raise (Exn TypeError
              (lit "Logger.log() takes 1 positional argument but 2 were given")),
     s).
Proof. reflexivity. Qed.

(** Without an argument a fresh logger fails on [self.message], which
    [__init__] never sets; again nothing is written. *)
Lemma logger_log_fresh_raises (day gmt5_date : pystr) (s : state) :
  Logger.log day gmt5_date Logger.init [] s
  = (Raise (Exn AttributeError
              (lit "'Logger' object has no attribute 'message'")), s).
Proof. reflexivity. Qed.

(** ** The Candidate Resolver *)

Lemma filter_enumerate {A B : Type} (f : A -> B) (n : Z) (tags : list A)
    (off : nat) :
  List.map (fun it => f (snd it))
    (List.filter (fun it => (Z.of_nat (fst it) <? n)%Z)
       (imap (fun i x => ((off + i)%nat, x)) tags))
  = List.map f (firstn (Z.to_nat (n - Z.of_nat off)) tags).
Proof.
  revert off. induction tags as [|x tags IH]; intros off.
  - rewrite firstn_nil. reflexivity.
  - rewrite imap_cons. cbn [List.filter fst].
    rewrite (imap_ext _ (fun i x => ((S off + i)%nat, x)))
      by (intros; cbn; f_equal; lia).
    rewrite Nat.add_0_r.
    destruct (Z.of_nat off <? n)%Z eqn:E.
    + apply Z.ltb_lt in E. cbn [List.map snd]. rewrite (IH (S off)).
      replace (Z.to_nat (n - Z.of_nat off))
        with (S (Z.to_nat (n - Z.of_nat (S off)))) by lia.
      reflexivity.
    + apply Z.ltb_ge in E. rewrite (IH (S off)).
      replace (Z.to_nat (n - Z.of_nat (S off))) with 0%nat by lia.
      replace (Z.to_nat (n - Z.of_nat off)) with 0%nat by lia.
      reflexivity.
Qed.

(** The comprehensions keep the first [number_critics] blocks, in their
    order, each formatted on its own. *)
Lemma critics_of_firstn (number_critics : Z) (critics_tags : list pystr) :
  critics_of number_critics critics_tags
  = List.map format_excerpt (firstn (Z.to_nat number_critics) critics_tags).
Proof.
  unfold critics_of. cbv zeta.
  change (imap pair critics_tags)
    with (imap (fun i x => ((0 + i)%nat, x)) critics_tags).
  rewrite (filter_enumerate (fun t => clean_string (strip t))).
  rewrite !List.map_map, Z.sub_0_r. reflexivity.
Qed.

Section Resolver.

Variable str_lower : pystr -> pystr.
Variable max_str_digits : option nat.
Variable day gmt5_date : pystr.
Variable web : request -> response.
Variable self : finder.

Lemma soup_from_url_ok (u : pystr) (session : option unit) (doc : soup)
    (s : state) :
  web (Request GET u (bool_decide (session <> None))) = Response None doc ->
  soup_from_url day gmt5_date web self u session s
  = (Ok doc,
     State (_info s) (log_txt s)
       (sent s ++ [Request GET u (bool_decide (session <> None))])).
Proof.
  intros H. unfold soup_from_url, send, mbind, M_bind. rewrite H.
  reflexivity.
Qed.

Lemma record_from_page_ok (movie_name : pystr) (year : pyval) (doc : soup)
    (original_name desc : pystr) (s : state) :
  description doc = Some desc ->
  record_from_page self movie_name year doc original_name s
  = (Ok tt,
     State (<[movie_name :=
                page_record (number_critics self) year doc original_name desc]>
              (_info s))
       (log_txt s) (sent s)).
Proof.
  intros Hdesc. unfold record_from_page. cbv zeta.
  unfold mbind, M_bind. rewrite Hdesc. reflexivity.
Qed.

(** A search answered by a single detail block: one request, and the
    record is read from that page. *)
Lemma filmaffinity_direct (movie_name : pystr) (year : pyval) (s : state)
    (doc : soup) (text : pystr) (more : list pystr) (desc : pystr) :
  web (Request GET (filmaffinity_search_url str_lower movie_name) false)
    = Response None doc ->
  movie_info doc = text :: more ->
  description doc = Some desc ->
  get_useful_information_from_filmaffinity str_lower max_str_digits
    day gmt5_date web self movie_name year s
  = (Ok tt,
     State (<[movie_name :=
                page_record (number_critics self) year doc (strip text) desc]>
              (_info s))
       (log_txt s)
       (sent s
        ++ [Request GET (filmaffinity_search_url str_lower movie_name)
              false])).
Proof.
  intros Hweb Hinfo Hdesc.
  unfold get_useful_information_from_filmaffinity, filmaffinity_search_url.
  cbv zeta.
  pose proof (split_nonempty (lit " ") movie_name) as Hsplit.
  assert (Hq : forall words : list pystr,
             (1 <= length words)%nat ->
             (match words with
              | first :: (_ :: _) as others =>
                  mret (reduce_join (lit "-") first others)
              | _ => first_item words
              end : M pystr)
             = mret (search_query (lit "-") words)).
  { intros [|w [|w2 ws]] Hw; [cbn in Hw; lia | reflexivity | reflexivity]. }
  rewrite Hq by (rewrite length_map; exact Hsplit).
  unfold filmaffinity_search_url in Hweb.
  unfold mbind at 1, M_bind at 1. cbn [mret M_ret].
  unfold mbind at 1, M_bind at 1.
  rewrite (soup_from_url_ok _ None doc s Hweb).
  unfold mbind at 1, M_bind at 1. unfold try_except.
  rewrite Hinfo. cbn [first_item]. unfold mbind at 1, M_bind at 1.
  cbn [mret M_ret].
  rewrite (record_from_page_ok movie_name year doc (strip text) desc _ Hdesc).
  reflexivity.
Qed.

End Resolver.

Section Critics.

Variable str_lower : pystr -> pystr.
Variable max_str_digits : option nat.
Variable day gmt5_date : pystr.
Variable web : request -> response.
Variable self : finder.

Local Abbreviation resolve :=
  (get_useful_information_from_filmaffinity str_lower max_str_digits
     day gmt5_date web self).

Local Abbreviation critics_in s movie_name :=
  ((_info s !! movie_name) ≫= (fun d : gmap string pyval => d !! "critics")).

Lemma critics_of_page_record (year : pyval) (doc : soup)
    (original_name desc : pystr) :
  page_record (number_critics self) year doc original_name desc !! "critics"
  = Some match reviewBody doc with
         | _ :: _ => PList (critics_of (number_critics self) (reviewBody doc))
         | [] => PNone
         end.
Proof.
  unfold page_record. cbv zeta.
  rewrite lookup_insert_ne by discriminate. apply lookup_insert_eq.
Qed.

(** C6: when the detail page shows more critic blocks than
    [number_critics], the record holds exactly the first [number_critics]
    of them, formatted, in the order of the page.  This is so for the
    record read from any detail page, however it was reached, and in
    particular for the whole lookup of a title whose search gives one
    detail block. *)
Theorem critics_are_first_number_critics (movie_name : pystr) (year : pyval)
    (s : state) (doc : soup) (desc : pystr) :
  description doc = Some desc ->
  (0 <= number_critics self < Z.of_nat (length (reviewBody doc)))%Z ->
  exists critics,
    critics = List.map format_excerpt
                (firstn (Z.to_nat (number_critics self)) (reviewBody doc))
    /\ Z.of_nat (length critics) = number_critics self
    /\ (forall original_name,
          fst (record_from_page self movie_name year doc original_name s)
            = Ok tt
          /\ critics_in
               (snd (record_from_page self movie_name year doc
                       original_name s)) movie_name
             = Some (PList critics))
    /\ (forall text more,
          web (Request GET (filmaffinity_search_url str_lower movie_name)
                 false) = Response None doc ->
          movie_info doc = text :: more ->
          fst (resolve movie_name year s) = Ok tt
          /\ critics_in (snd (resolve movie_name year s)) movie_name
             = Some (PList critics)).
Proof.
  intros Hdesc Hn.
  exists (critics_of (number_critics self) (reviewBody doc)).
  assert (Hc : forall original_name,
             page_record (number_critics self) year doc original_name desc
               !! "critics"
             = Some (PList (critics_of (number_critics self)
                              (reviewBody doc)))).
  { intros name. rewrite critics_of_page_record.
    destruct (reviewBody doc); [cbn [length] in Hn; lia | reflexivity]. }
  split; [apply critics_of_firstn|]. split.
  { rewrite critics_of_firstn, length_map, length_firstn. lia. }
  split.
  - intros name. rewrite (record_from_page_ok _ _ _ _ _ _ _ Hdesc).
    cbn [fst snd _info]. split; [reflexivity|].
    rewrite lookup_insert_eq. cbn [mbind option_bind]. apply Hc.
  - intros text more Hweb Hinfo.
    rewrite (filmaffinity_direct _ _ _ _ _ _ _ _ _ _ _ _ _ Hweb Hinfo Hdesc).
    cbn [fst snd _info]. split; [reflexivity|].
    rewrite lookup_insert_eq. cbn [mbind option_bind]. apply Hc.
Qed.

(** C7: when the detail page shows no critic block, the record holds
    [None] under "critics", which is not the empty list - for the record
    read from any detail page, and in particular for the whole lookup of
    a title whose search gives one detail block. *)
Theorem no_critics_is_none (movie_name : pystr) (year : pyval)
    (s : state) (doc : soup) (desc : pystr) :
  description doc = Some desc ->
  reviewBody doc = [] ->
  PNone <> PList []
  /\ (forall original_name,
        fst (record_from_page self movie_name year doc original_name s)
          = Ok tt
        /\ critics_in
             (snd (record_from_page self movie_name year doc
                     original_name s)) movie_name
           = Some PNone)
  /\ (forall text more,
        web (Request GET (filmaffinity_search_url str_lower movie_name)
               false) = Response None doc ->
        movie_info doc = text :: more ->
        fst (resolve movie_name year s) = Ok tt
        /\ critics_in (snd (resolve movie_name year s)) movie_name
           = Some PNone).
Proof.
  intros Hdesc Hnone.
  assert (Hc : forall original_name,
             page_record (number_critics self) year doc original_name desc
               !! "critics" = Some PNone).
  { intros name. rewrite critics_of_page_record, Hnone. reflexivity. }
  split; [discriminate|]. split.
  - intros name. rewrite (record_from_page_ok _ _ _ _ _ _ _ Hdesc).
    cbn [fst snd _info]. split; [reflexivity|].
    rewrite lookup_insert_eq. cbn [mbind option_bind]. apply Hc.
  - intros text more Hweb Hinfo.
    rewrite (filmaffinity_direct _ _ _ _ _ _ _ _ _ _ _ _ _ Hweb Hinfo Hdesc).
    cbn [fst snd _info]. split; [reflexivity|].
    rewrite lookup_insert_eq. cbn [mbind option_bind]. apply Hc.
Qed.

End Critics.

Lemma critics_are_first_number_critics_witness :
  exists critics,
    critics = [lit "first."; lit "second."]
    /\ (_info (snd (get_useful_information_from_filmaffinity ascii_lower
                      (Some 4300%nat) Demo.day Demo.gmt5_date Demo.web
                      (Demo.finder_of []) (lit "Reviewed") (PInt 2020)
                      initial_state)) !! lit "Reviewed")
         ≫= (fun d : gmap string pyval => d !! "critics")
       = Some (PList critics).
Proof.
  destruct (critics_are_first_number_critics ascii_lower (Some 4300%nat)
              Demo.day Demo.gmt5_date Demo.web (Demo.finder_of [])
              (lit "Reviewed") (PInt 2020) initial_state
              (Demo.detail (lit "Reviewed") (Some (lit "A story."))
                 Demo.five_reviews)
              (lit "A story."))
    as (critics & Hfirst & Hlen & Hpage & Hrun).
  - reflexivity.
  - vm_compute. split; [discriminate | reflexivity].
  - exists critics. split.
    + rewrite Hfirst. vm_compute. reflexivity.
    + apply (Hrun (lit "Reviewed") []); [vm_compute; reflexivity | reflexivity].
Defined.

Example five_reviews_formatted :
  List.map format_excerpt (firstn 2 Demo.five_reviews)
  = [lit "first."; lit "second."]
  /\ format_excerpt (lit "third. Rating: 4") = lit "third.".
Proof. vm_compute. split; reflexivity. Qed.

Lemma no_critics_is_none_witness :
  fst (get_useful_information_from_filmaffinity ascii_lower (Some 4300%nat)
         Demo.day Demo.gmt5_date Demo.web (Demo.finder_of [])
         (lit "Example Movie") (PInt 2020) initial_state) = Ok tt
  /\ (_info (snd (get_useful_information_from_filmaffinity ascii_lower
                    (Some 4300%nat) Demo.day Demo.gmt5_date Demo.web
                    (Demo.finder_of []) (lit "Example Movie") (PInt 2020)
                    initial_state)) !! lit "Example Movie")
       ≫= (fun d : gmap string pyval => d !! "critics") = Some PNone.
Proof.
  destruct (no_critics_is_none ascii_lower (Some 4300%nat)
              Demo.day Demo.gmt5_date Demo.web (Demo.finder_of [])
              (lit "Example Movie") (PInt 2020) initial_state
              (Demo.detail (lit "Original Example") (Some (lit "A story")) [])
              (lit "A story"))
    as (Hdiff & Hpage & Hrun).
  - reflexivity.
  - reflexivity.
  - apply (Hrun (lit "Original Example") []);
      [vm_compute; reflexivity | reflexivity].
Defined.

(** ** The disambiguation fallback *)

Section Disambiguation.

Variable str_lower : pystr -> pystr.
Variable max_str_digits : option nat.
Variable day gmt5_date : pystr.
Variable web : request -> response.
Variable self : finder.
Variable movie_name : pystr.
Variable year : pyval.
Variable Y : Z.
Hypothesis year_is_Y : query_year max_str_digits year = Some Y.

Local Abbreviation scan :=
  (scan_possible_movies str_lower max_str_digits day gmt5_date web self
     movie_name year).
Local Abbreviation refetch_page := (refetch day gmt5_date web self).

Lemma int_of_year (s : state) : int_of max_str_digits year s = (Ok Y, s).
Proof using year_is_Y.
  unfold query_year in year_is_Y. destruct year as [|t|z|l];
    try discriminate; cbn [int_of].
  - rewrite year_is_Y. reflexivity.
  - injection year_is_Y as ->. reflexivity.
Qed.

(** The year test computes membership in [Y - 1 .. Y + 1]. *)
Lemma year_within_tolerance_value (c : candidate) (L : Z) (s : state) :
  listed_year max_str_digits c = Some L ->
  year_within_tolerance max_str_digits (ye_w c) year s
  = (Ok ((Y - 1 <=? L) && (L <=? Y + 1))%Z, s).
Proof using year_is_Y.
  unfold listed_year, year_within_tolerance. intros HL.
  destruct (ye_w c) as [|y ys]; [discriminate|].
  cbn [first_item]. unfold mbind at 1, M_bind at 1. cbn [mret M_ret].
  destruct (str_eq (strip y) year) eqn:E.
  - destruct year as [|t|z|l]; try discriminate E.
    cbn [str_eq] in E. apply bool_decide_eq_true in E. subst t.
    cbn [query_year] in year_is_Y. rewrite year_is_Y in HL.
    injection HL as <-.
    replace ((Y - 1 <=? Y) && (Y <=? Y + 1))%Z with true
      by (symmetry; apply andb_true_iff; split; apply Z.leb_le; lia).
    reflexivity.
  - unfold mbind at 1, M_bind at 1. rewrite int_of_year.
    unfold mbind at 1, M_bind at 1. cbn [mret M_ret].
    unfold mbind at 1, M_bind at 1. cbn [int_of]. rewrite HL.
    cbn [mret M_ret].
    destruct (Y - 1 <=? L)%Z; [|reflexivity].
    unfold mbind, M_bind. rewrite int_of_year. reflexivity.
Qed.

Lemma scan_accepted (c : candidate) (rest : list candidate) (soup0 : soup)
    (name0 : pystr) (s : state) :
  accepted str_lower max_str_digits movie_name Y c = true ->
  scan (c :: rest) soup0 name0 s = refetch_page (anchors c) s.
Proof using year_is_Y.
  unfold accepted, title_matches, year_close, candidate_title.
  intros H. apply andb_true_iff in H as [Ht Hy].
  destruct (listed_year max_str_digits c) as [L|] eqn:HL; [|discriminate].
  cbn [scan_possible_movies].
  destruct (anchors c) as [|a others]; [discriminate|].
  cbn [first_item]. unfold mbind at 1, M_bind at 1. cbn [mret M_ret].
  destruct (title_attr a) as [t|]; [|discriminate].
  cbn [attr_of]. unfold mbind at 1, M_bind at 1. cbn [mret M_ret].
  rewrite Ht. unfold mbind at 1, M_bind at 1.
  rewrite (year_within_tolerance_value c L s HL), Hy. reflexivity.
Qed.

Lemma scan_passed_over (c : candidate) (rest : list candidate)
    (soup0 : soup) (name0 : pystr) (s : state) :
  passed_over str_lower max_str_digits movie_name Y c = true ->
  scan (c :: rest) soup0 name0 s = scan rest soup0 name0 s.
Proof using year_is_Y.
  unfold passed_over, title_matches, year_close, candidate_title.
  intros H. cbn [scan_possible_movies].
  destruct (anchors c) as [|a others]; [discriminate|].
  cbn [first_item]. unfold mbind at 1, M_bind at 1. cbn [mret M_ret].
  destruct (title_attr a) as [t|]; [|discriminate].
  cbn [attr_of]. unfold mbind at 1, M_bind at 1. cbn [mret M_ret].
  destruct (eqb (str_lower (strip t)) (str_lower movie_name));
    [|reflexivity].
  destruct (listed_year max_str_digits c) as [L|] eqn:HL; [|discriminate].
  apply negb_true_iff in H. unfold mbind at 1, M_bind at 1.
  rewrite (year_within_tolerance_value c L s HL), H. reflexivity.
Qed.

(** The loop of lines 135-154 taken by itself, for a query of year [Y]:
    - an entry whose listed title equals the display title, case set
      aside, and whose listed year is [Y - 1], [Y] or [Y + 1] is
      accepted: its detail page is fetched again and the rest of the
      list is not looked at;
    - an entry with that title and listed year [Y - 2] or [Y + 2] is
      rejected: the scan goes on with the next entry;
    - an entry with another title is skipped, whatever its year;
    - so the first entry that is accepted, after entries that are
      rejected or skipped, is the one taken. *)
Lemma disambiguation_year_tolerance :
  (forall c rest soup0 name0 s L,
     title_matches str_lower movie_name c = true ->
     listed_year max_str_digits c = Some L ->
     (L = Y - 1 \/ L = Y \/ L = Y + 1)%Z ->
     scan (c :: rest) soup0 name0 s = refetch_page (anchors c) s)
  /\ (forall c rest soup0 name0 s L,
        title_matches str_lower movie_name c = true ->
        listed_year max_str_digits c = Some L ->
        (L = Y - 2 \/ L = Y + 2)%Z ->
        scan (c :: rest) soup0 name0 s = scan rest soup0 name0 s)
  /\ (forall c rest soup0 name0 s t,
        candidate_title c = Some t ->
        title_matches str_lower movie_name c = false ->
        scan (c :: rest) soup0 name0 s = scan rest soup0 name0 s)
  /\ (forall before c rest soup0 name0 s,
        forallb (passed_over str_lower max_str_digits movie_name Y) before
          = true ->
        accepted str_lower max_str_digits movie_name Y c = true ->
        scan (before ++ c :: rest) soup0 name0 s
        = refetch_page (anchors c) s).
Proof using year_is_Y.
  repeat split.
  - intros c rest soup0 name0 s L Ht HL Hr. apply scan_accepted.
    unfold accepted, year_close. rewrite Ht, HL. cbn [andb].
    apply andb_true_iff. split; apply Z.leb_le; lia.
  - intros c rest soup0 name0 s L Ht HL Hr. apply scan_passed_over.
    unfold passed_over. unfold title_matches in Ht.
    destruct (candidate_title c) eqn:Hc; [|discriminate].
    unfold title_matches. rewrite Hc, Ht.
    unfold year_close. rewrite HL.
    apply negb_true_iff, andb_false_iff.
    destruct Hr as [-> | ->]; [left | right]; apply Z.leb_gt; lia.
  - intros c rest soup0 name0 s t Hc Ht. apply scan_passed_over.
    unfold passed_over. rewrite Hc, Ht. reflexivity.
  - intros before c rest soup0 name0 s Hb Hc.
    induction before as [|b before IH].
    + apply scan_accepted. exact Hc.
    + cbn [forallb] in Hb. apply andb_true_iff in Hb as [Hb1 Hb2].
      cbn [app]. rewrite (scan_passed_over b _ soup0 name0 s Hb1).
      exact (IH Hb2).
Qed.

End Disambiguation.

Lemma disambiguation_year_tolerance_witness :
  query_year (Some 4300%nat) (PStr (lit "2009")) = Some 2009%Z
  /\ scan_possible_movies ascii_lower (Some 4300%nat) Demo.day Demo.gmt5_date
       Demo.web (Demo.finder_of []) (lit "Up") (PStr (lit "2009"))
       ([Demo.other_title; Demo.two_years_off] ++
          Demo.one_year_off :: [Demo.same_year])
       Demo.blank [] initial_state
     = refetch Demo.day Demo.gmt5_date Demo.web (Demo.finder_of [])
         (anchors Demo.one_year_off) initial_state
  /\ scan_possible_movies ascii_lower (Some 4300%nat) Demo.day Demo.gmt5_date
       Demo.web (Demo.finder_of []) (lit "Up") (PStr (lit "2009"))
       (Demo.two_years_off :: [Demo.same_year]) Demo.blank [] initial_state
     = scan_possible_movies ascii_lower (Some 4300%nat) Demo.day
         Demo.gmt5_date Demo.web (Demo.finder_of []) (lit "Up")
         (PStr (lit "2009")) [Demo.same_year] Demo.blank [] initial_state
  /\ scan_possible_movies ascii_lower (Some 4300%nat) Demo.day Demo.gmt5_date
       Demo.web (Demo.finder_of []) (lit "Up") (PStr (lit "2009"))
       (Demo.other_title :: [Demo.same_year]) Demo.blank [] initial_state
     = scan_possible_movies ascii_lower (Some 4300%nat) Demo.day
         Demo.gmt5_date Demo.web (Demo.finder_of []) (lit "Up")
         (PStr (lit "2009")) [Demo.same_year] Demo.blank [] initial_state
  /\ scan_possible_movies ascii_lower (Some 4300%nat) Demo.day Demo.gmt5_date
       Demo.web (Demo.finder_of []) (lit "Up") (PStr (lit "2009"))
       (Demo.one_year_off :: [Demo.same_year]) Demo.blank [] initial_state
     = refetch Demo.day Demo.gmt5_date Demo.web (Demo.finder_of [])
         (anchors Demo.one_year_off) initial_state.
Proof.
  assert (Hy : query_year (Some 4300%nat) (PStr (lit "2009")) = Some 2009%Z)
    by (vm_compute; reflexivity).
  destruct (disambiguation_year_tolerance ascii_lower (Some 4300%nat)
              Demo.day Demo.gmt5_date Demo.web (Demo.finder_of [])
              (lit "Up") (PStr (lit "2009")) 2009%Z Hy)
    as (Haccept & Hreject & Hskip & Hfirst).
  split; [exact Hy|]. split; [|split; [|split]].
  - apply Hfirst; vm_compute; reflexivity.
  - apply (Hreject _ _ _ _ _ 2011%Z);
      [vm_compute; reflexivity | vm_compute; reflexivity | right; reflexivity].
  - apply (Hskip _ _ _ _ _ (lit "Upside Down")); vm_compute; reflexivity.
  - apply (Haccept _ _ _ _ _ 2010%Z);
      [vm_compute; reflexivity | vm_compute; reflexivity
      | right; right; reflexivity].
Defined.

Example fallback_refetches_first_accepted :
  scan_possible_movies ascii_lower (Some 4300%nat) Demo.day Demo.gmt5_date
    Demo.web (Demo.finder_of []) (lit "Up") (PInt 2009)
    [Demo.other_title; Demo.two_years_off; Demo.one_year_off; Demo.same_year]
    Demo.blank [] initial_state
  = (Ok (Demo.detail (lit "Up (2010)") (Some (lit "Balloons")) [],
         lit "Up (2010)"),
     State ∅ []
       [Request GET (lit "https://www.filmaffinity.com/film100.html") false]).
Proof. vm_compute. reflexivity. Qed.

(** ** The Cross-Source Matcher *)

Section Matcher.

Variable str_lower : pystr -> pystr.
Variable SequenceMatcher_ratio : pystr -> pystr -> Q.
Variable day gmt5_date : pystr.
Variable web : request -> response.
Variable self : finder.
Variable movie_name : pystr.            (* the display title *)
Variable canonical_title : pystr.
Variable year : pyval.

Local Abbreviation examine :=
  (examine_item str_lower SequenceMatcher_ratio day gmt5_date web self
     movie_name canonical_title year tt).
Local Abbreviation scan :=
  (scan_search_items str_lower SequenceMatcher_ratio day gmt5_date web self
     movie_name canonical_title year tt).
Local Abbreviation test :=
  (title_is_accurate SequenceMatcher_ratio).

Lemma session_flag : bool_decide (Some tt <> None) = true.
Proof. apply bool_decide_eq_true_2. discriminate. Qed.

(** Up to the test: the page of the entry is fetched, its title and
    year are read. *)
Lemma examine_page (item : list pystr) (s : state) (doc : soup)
    (t y : pystr) :
  entry_page web item = Some doc ->
  page_title str_lower doc = Some t ->
  page_year doc = Some y ->
  examine item s
  = try_except
      (if test t canonical_title true && str_eq y year
       then
         text ← attr_of (ratingValue doc) "text";
         store_rating movie_name (strip text);;
         mret Return
       else mret Continue)
      any_exception
      (fun e => logger_log day gmt5_date self [PStr (str_of e)];;
                mret Continue)
      (State (_info s) (log_txt s) (sent s ++ [entry_request item])).
Proof.
  unfold entry_page, page_title, page_year, entry_request.
  intros Hpage Ht Hy.
  destruct item as [|link others]; [discriminate|]. cbn [hd] in *.
  destruct (web (Request GET (lit "https://www.imdb.com" ++ link) true))
    as [msg | [err|] doc'] eqn:Hweb; try discriminate.
  injection Hpage as ->.
  destruct (originalTitle doc) as [text|] eqn:Ho; [|discriminate].
  injection Ht as <-.
  destruct (titleYear doc) as [[|y' ys]|] eqn:Hty; try discriminate.
  injection Hy as <-.
  pose proof (split_nonempty (lit "(original title)")
                (str_lower (strip text))) as Hsplit.
  destruct (split (lit "(original title)") (str_lower (strip text)))
    as [|piece pieces] eqn:Es; [cbn in Hsplit; lia|]. cbn [hd].
  unfold examine_item. cbn [first_item].
  unfold mbind at 1, M_bind at 1. cbn [mret M_ret].
  unfold try_except at 1.
  unfold mbind at 1, M_bind at 1.
  rewrite (soup_from_url_ok day gmt5_date web self _ (Some tt) doc s)
    by (rewrite session_flag; exact Hweb).
  rewrite session_flag.
  unfold mbind at 1, M_bind at 1. unfold try_except at 1.
  rewrite Ho. cbn [attr_of]. unfold mbind at 1, M_bind at 1.
  cbn [mret M_ret]. rewrite Es. cbn [first_item].
  unfold mbind at 1, M_bind at 1. cbn [mret M_ret].
  rewrite Hty. cbn [attr_of]. unfold mbind at 1, M_bind at 1.
  cbn [mret M_ret first_item]. unfold mbind at 1, M_bind at 1.
  cbn [mret M_ret]. unfold try_except. reflexivity.
Qed.

(** An entry that fails the test is left; the scan goes on. *)
Lemma scan_entry_fails (item : list pystr) (rest : list (list pystr))
    (s : state) :
  entry_fails_test str_lower SequenceMatcher_ratio web canonical_title year
    item = true ->
  scan (item :: rest) s
  = scan rest (State (_info s) (log_txt s) (sent s ++ [entry_request item])).
Proof.
  unfold entry_fails_test, acceptance_test. intros H.
  destruct (entry_page web item) as [doc|] eqn:Hpage; [|discriminate].
  destruct (page_title str_lower doc) as [t|] eqn:Ht; [|discriminate].
  destruct (page_year doc) as [y|] eqn:Hy; [|discriminate].
  apply negb_true_iff in H.
  cbn [scan_search_items]. unfold mbind at 1, M_bind at 1.
  rewrite (examine_page item s doc t y Hpage Ht Hy), H.
  reflexivity.
Qed.

(** An entry that passes the test and shows a rating ends the scan. *)
Lemma scan_entry_passes (item : list pystr) (rest : list (list pystr))
    (s : state) (doc : soup) (t y r : pystr) (d : gmap string pyval) :
  entry_page web item = Some doc ->
  page_title str_lower doc = Some t ->
  page_year doc = Some y ->
  test t canonical_title true = true ->
  str_eq y year = true ->
  ratingValue doc = Some r ->
  _info s !! movie_name = Some d ->
  scan (item :: rest) s
  = (Ok tt,
     State (<[movie_name := <["imdb_rating" := PStr (strip r)]> d]> (_info s))
       (log_txt s) (sent s ++ [entry_request item])).
Proof.
  intros Hpage Ht Hy Hacc Hyear Hr Hd.
  cbn [scan_search_items]. unfold mbind at 1, M_bind at 1.
  rewrite (examine_page item s doc t y Hpage Ht Hy), Hacc, Hyear.
  cbn [andb]. unfold try_except. rewrite Hr. cbn [attr_of].
  unfold mbind at 1, M_bind at 1. cbn [mret M_ret].
  unfold mbind at 1, M_bind at 1. unfold store_rating. cbn [_info].
  rewrite Hd. reflexivity.
Qed.

(** The loop of lines 241-274 for any year of the query: the entries are
    examined in the order of the page.  An entry
    whose page shows a title and a year is accepted exactly when
    [title_is_accurate(page_title, canonical_title)] holds and the year of
    the page equals the year of the query; the first entry accepted has
    its rating stored and ends the scan: the requests sent are those for
    the entries before it and its own, none for an entry after it. *)
Lemma matcher_first_match_wins :
  (forall item rest s doc t y,
     entry_page web item = Some doc ->
     page_title str_lower doc = Some t ->
     page_year doc = Some y ->
     test t canonical_title true = false \/ str_eq y year = false ->
     scan (item :: rest) s
     = scan rest
         (State (_info s) (log_txt s) (sent s ++ [entry_request item])))
  /\ (forall item rest s doc t y r d,
        entry_page web item = Some doc ->
        page_title str_lower doc = Some t ->
        page_year doc = Some y ->
        test t canonical_title true = true ->
        str_eq y year = true ->
        ratingValue doc = Some r ->
        _info s !! movie_name = Some d ->
        scan (item :: rest) s
        = (Ok tt,
           State (<[movie_name := <["imdb_rating" := PStr (strip r)]> d]>
                    (_info s))
             (log_txt s) (sent s ++ [entry_request item])))
  /\ (forall before item rest s doc t y r d,
        forallb (entry_fails_test str_lower SequenceMatcher_ratio web
                   canonical_title year) before = true ->
        entry_page web item = Some doc ->
        page_title str_lower doc = Some t ->
        page_year doc = Some y ->
        test t canonical_title true = true ->
        str_eq y year = true ->
        ratingValue doc = Some r ->
        _info s !! movie_name = Some d ->
        scan (before ++ item :: rest) s
        = (Ok tt,
           State (<[movie_name := <["imdb_rating" := PStr (strip r)]> d]>
                    (_info s))
             (log_txt s)
             (sent s ++ List.map entry_request before
                ++ [entry_request item]))).
Proof.
  split; [|split].
  - intros item rest s doc t y Hpage Ht Hy Hfail.
    apply scan_entry_fails. unfold entry_fails_test, acceptance_test.
    rewrite Hpage, Ht, Hy. apply negb_true_iff, andb_false_iff. exact Hfail.
  - intros. eapply scan_entry_passes; eassumption.
  - intros before item rest s doc t y r d Hb Hpage Ht Hy Hacc Hyear Hr Hd.
    revert s Hd. induction before as [|b before IH]; intros s Hd.
    + cbn [app List.map]. eapply scan_entry_passes; eassumption.
    + cbn [forallb] in Hb. apply andb_true_iff in Hb as [Hb1 Hb2].
      cbn [app List.map]. rewrite (scan_entry_fails b _ s Hb1).
      rewrite (IH Hb2 (State (_info s) (log_txt s)
                         (sent s ++ [entry_request b])) Hd).
      cbn [_info log_txt sent].
      rewrite <- app_assoc. reflexivity.
Qed.

End Matcher.

Lemma matcher_first_match_wins_witness :
  scan_search_items ascii_lower Demo.no_ratio Demo.day Demo.gmt5_date Demo.web
    (Demo.finder_of []) (lit "Example Movie") (lit "original example")
    (PStr (lit "2020")) tt
    ([[lit "/title/tt001/"]; [lit "/title/tt002/"]]
       ++ [lit "/title/tt003/"] :: [[lit "/title/tt004/"]])
    (State (<[lit "Example Movie" := ∅]> ∅) [] [])
  = (Ok tt,
     State (<[lit "Example Movie" := <["imdb_rating" := PStr (lit "7.5")]> ∅]>
              (<[lit "Example Movie" := ∅]> ∅))
       []
       ([] ++ List.map entry_request
                [[lit "/title/tt001/"]; [lit "/title/tt002/"]]
           ++ [entry_request [lit "/title/tt003/"]]))
  /\ scan_search_items ascii_lower Demo.no_ratio Demo.day Demo.gmt5_date
       Demo.web (Demo.finder_of []) (lit "Example Movie")
       (lit "original example") (PStr (lit "2020")) tt
       ([lit "/title/tt002/"] :: [[lit "/title/tt004/"]]) initial_state
     = scan_search_items ascii_lower Demo.no_ratio Demo.day Demo.gmt5_date
         Demo.web (Demo.finder_of []) (lit "Example Movie")
         (lit "original example") (PStr (lit "2020")) tt
         [[lit "/title/tt004/"]]
         (State ∅ [] ([] ++ [entry_request [lit "/title/tt002/"]])).
Proof.
  destruct (matcher_first_match_wins ascii_lower Demo.no_ratio Demo.day
              Demo.gmt5_date Demo.web (Demo.finder_of [])
              (lit "Example Movie") (lit "original example")
              (PStr (lit "2020")))
    as (Hreject & Haccept & Hfirst).
  split.
  - refine (eq_trans
              (Hfirst [[lit "/title/tt001/"]; [lit "/title/tt002/"]]
                 [lit "/title/tt003/"] [[lit "/title/tt004/"]]
                 (State (<[lit "Example Movie" := ∅]> ∅) [] [])
                 (Demo.title_page (lit "Original Example") (lit "2020")
                    (lit "7.5"))
                 (lit "original example") (lit "2020") (lit "7.5") ∅
                 _ _ _ _ _ _ _ _) _);
      vm_compute; reflexivity.
  - refine (eq_trans
              (Hreject [lit "/title/tt002/"] [[lit "/title/tt004/"]]
                 initial_state
                 (Demo.title_page (lit "Original Example") (lit "2019")
                    (lit "6.0"))
                 (lit "original example") (lit "2019") _ _ _ _) _);
      [vm_compute; reflexivity | vm_compute; reflexivity
      | vm_compute; reflexivity | right; vm_compute; reflexivity
      | reflexivity].
Defined.

(** ** The Enrichment Pipeline *)

Section Titles.

Variable K : gset (list N).

Lemma keeps_ret {A : Type} (a : A) : keeps_titles K (mret a).
Proof. intros s H. exact H. Qed.

Lemma keeps_raise {A : Type} (k : exn_kind) (msg : string) :
  keeps_titles K (@raise A k msg).
Proof. intros s H. exact H. Qed.

Lemma keeps_bind {A B : Type} (m : M A) (f : A -> M B) :
  keeps_titles K m -> (forall a, keeps_titles K (f a)) ->
  keeps_titles K (m ≫= f).
Proof.
  intros Hm Hf s H. unfold mbind, M_bind. specialize (Hm s H).
  destruct (m s) as [[a|e] s']; cbn [snd] in *.
  - apply Hf. exact Hm.
  - exact Hm.
Qed.

Lemma keeps_try {A : Type} (body : M A) (catches : exn_kind -> bool)
    (handler : exn -> M A) :
  keeps_titles K body -> (forall e, keeps_titles K (handler e)) ->
  keeps_titles K (try_except body catches handler).
Proof.
  intros Hb Hh s H. unfold try_except. specialize (Hb s H).
  destruct (body s) as [[a|e] s']; cbn [snd] in *; [exact Hb|].
  destruct (catches (kind e)); [apply Hh|]; exact Hb.
Qed.

Lemma keeps_first_item {A : Type} (l : list A) :
  keeps_titles K (first_item l).
Proof. destruct l; [apply keeps_raise | apply keeps_ret]. Qed.

Lemma keeps_attr_of {A : Type} (x : option A) (attr : string) :
  keeps_titles K (attr_of x attr).
Proof. destruct x; [apply keeps_ret | apply keeps_raise]. Qed.

Lemma keeps_int_of (m : option nat) (v : pyval) :
  keeps_titles K (int_of m v).
Proof.
  destruct v as [|t|z|l]; cbn [int_of]; try apply keeps_raise;
    try apply keeps_ret.
  destruct (py_int m t); [apply keeps_ret | intros s H; exact H].
Qed.

Lemma keeps_logger (day gmt5_date : pystr) (self : Logger.t)
    (args : list pyval) :
  keeps_titles K (Logger.log day gmt5_date self args).
Proof.
  destruct args as [|a args]; cbn [Logger.log]; [|apply keeps_raise].
  unfold Logger.log_body.
  destruct (Logger.attributes self !! "message");
    [intros s H; exact H | apply keeps_raise].
Qed.

Lemma keeps_send (web : request -> response) (r : request) :
  keeps_titles K (send web r).
Proof. intros s H. unfold send. destruct (web r); exact H. Qed.

Lemma keeps_store_record (movie_name : pystr) (d : gmap string pyval) :
  movie_name ∈ K -> keeps_titles K (store_record movie_name d).
Proof.
  intros Hin s H. unfold store_record. cbn [snd _info].
  rewrite dom_insert_L, H. apply subseteq_union_1_L.
  apply singleton_subseteq_l. exact Hin.
Qed.

Lemma keeps_store_rating (movie_name imdb_rating : pystr) :
  keeps_titles K (store_rating movie_name imdb_rating).
Proof.
  intros s H. unfold store_rating.
  destruct (_info s !! movie_name) as [d|] eqn:E; cbn [snd _info];
    [|exact H].
  rewrite dom_insert_L, H.
  apply subseteq_union_1_L, singleton_subseteq_l.
  rewrite <- H. apply elem_of_dom. eauto.
Qed.

End Titles.

Ltac keeps_step :=
  first
    [ apply keeps_ret | apply keeps_raise | apply keeps_first_item
    | apply keeps_attr_of | apply keeps_int_of | apply keeps_logger
    | apply keeps_send | apply keeps_store_rating
    | apply keeps_bind; [|intros ?]
    | apply keeps_try; [|intros ?]
    | match goal with
      | |- keeps_titles _ (if ?b then _ else _) => destruct b
      | |- keeps_titles _ (match ?x with _ => _ end) => destruct x
      end ].

Section Pipeline.

Variable str_lower : pystr -> pystr.
Variable SequenceMatcher_ratio : pystr -> pystr -> Q.
Variable max_str_digits : option nat.
Variable day gmt5_date : pystr.
Variable web : request -> response.
Variable self : finder.
Variable K : gset (list N).

Lemma keeps_soup_from_url (u : pystr) (session : option unit) :
  keeps_titles K (soup_from_url day gmt5_date web self u session).
Proof.
  unfold soup_from_url, logger_log, raise_for_status. repeat keeps_step.
  intros s H. exact H.
Qed.

Lemma keeps_sign_in : keeps_titles K (sign_in_to_imdb day gmt5_date web self).
Proof.
  unfold sign_in_to_imdb. cbv zeta.
  apply keeps_bind; [apply keeps_soup_from_url | intros ?].
  repeat keeps_step.
Qed.

Lemma keeps_year_within_tolerance (year_tag : list pystr) (year : pyval) :
  keeps_titles K (year_within_tolerance max_str_digits year_tag year).
Proof. unfold year_within_tolerance. repeat keeps_step. Qed.

Lemma keeps_refetch (title_tag : list anchor) :
  keeps_titles K (refetch day gmt5_date web self title_tag).
Proof.
  unfold refetch. cbv zeta. apply keeps_bind; [keeps_step | intros ?].
  apply keeps_bind; [apply keeps_soup_from_url | intros ?].
  repeat keeps_step.
Qed.

Lemma keeps_scan_possible_movies (movie_name : pystr) (year : pyval)
    (tags : list candidate) (soup0 : soup) (name0 : pystr) :
  keeps_titles K
    (scan_possible_movies str_lower max_str_digits day gmt5_date web self
       movie_name year tags soup0 name0).
Proof.
  induction tags as [|tag rest IH]; cbn [scan_possible_movies].
  - apply keeps_ret.
  - cbv zeta. apply keeps_bind; [keeps_step | intros ?].
    apply keeps_bind; [keeps_step | intros ?].
    destruct (eqb _ _); [|exact IH].
    apply keeps_bind; [apply keeps_year_within_tolerance | intros ok].
    destruct ok; [apply keeps_refetch | exact IH].
Qed.

Lemma keeps_filmaffinity (movie_name : pystr) (year : pyval) :
  movie_name ∈ K ->
  keeps_titles K
    (get_useful_information_from_filmaffinity str_lower max_str_digits
       day gmt5_date web self movie_name year).
Proof.
  intros Hin. unfold get_useful_information_from_filmaffinity. cbv zeta.
  apply keeps_bind; [repeat keeps_step | intros ?].
  apply keeps_bind; [apply keeps_soup_from_url | intros soup0].
  apply keeps_bind.
  - apply keeps_try; [repeat keeps_step | intros e].
    apply keeps_bind; [apply keeps_logger | intros ?].
    apply keeps_scan_possible_movies.
  - intros [soup1 name1]. unfold record_from_page. cbv zeta.
    apply keeps_bind; [keeps_step | intros ?].
    apply keeps_store_record. exact Hin.
Qed.

Lemma keeps_examine_item (movie_name original : pystr) (year : pyval)
    (item : list pystr) :
  keeps_titles K
    (examine_item str_lower SequenceMatcher_ratio day gmt5_date web self
       movie_name original year tt item).
Proof.
  unfold examine_item. cbv zeta.
  apply keeps_bind; [keeps_step | intros ?].
  apply keeps_try.
  - apply keeps_bind; [apply keeps_soup_from_url | intros ?].
    repeat keeps_step.
  - intros e. unfold logger_log. repeat keeps_step.
Qed.

Lemma keeps_scan_search_items (movie_name original : pystr) (year : pyval)
    (items : list (list pystr)) :
  keeps_titles K
    (scan_search_items str_lower SequenceMatcher_ratio day gmt5_date web
       self movie_name original year tt items).
Proof.
  induction items as [|item rest IH]; cbn [scan_search_items].
  - apply keeps_ret.
  - apply keeps_bind; [apply keeps_examine_item | intros f].
    destruct f; [exact IH | apply keeps_ret].
Qed.

Lemma keeps_imdb (movie_name original : pystr) (year : pyval) :
  keeps_titles K
    (get_useful_information_from_imdb str_lower SequenceMatcher_ratio
       day gmt5_date web self movie_name original year).
Proof.
  unfold get_useful_information_from_imdb. cbv zeta.
  apply keeps_bind; [apply keeps_sign_in | intros []].
  apply keeps_bind; [repeat keeps_step | intros ?].
  apply keeps_bind; [apply keeps_soup_from_url | intros ?].
  apply keeps_scan_search_items.
Qed.

Lemma keeps_original_name_of (movie : pystr) :
  keeps_titles K (original_name_of str_lower movie).
Proof.
  intros s H. unfold original_name_of.
  destruct (_info s !! movie) as [d|]; [|exact H].
  destruct (d !! "original name") as [[| | |]|]; exact H.
Qed.

Lemma keeps_complete_each (items : list (pystr * pyval)) :
  (forall movie, movie ∈ List.map fst items -> movie ∈ K) ->
  keeps_titles K
    (complete_each str_lower SequenceMatcher_ratio max_str_digits
       day gmt5_date web self items).
Proof.
  induction items as [|[movie year] rest IH]; intros Hin;
    cbn [complete_each].
  - apply keeps_ret.
  - apply keeps_bind; [|intros ?].
    { apply keeps_filmaffinity. apply Hin. cbn. constructor. }
    apply keeps_bind; [apply keeps_original_name_of | intros ?].
    apply keeps_bind; [apply keeps_imdb | intros ?].
    apply IH. intros m Hm. apply Hin. cbn. constructor. exact Hm.
Qed.

End Pipeline.

Lemma dom_fold_insert_empty (l : list (list N))
    (acc : gmap (list N) (gmap string pyval)) :
  dom (fold_left (fun d movie_name => <[movie_name := ∅]> d) l acc)
  = list_to_set l ∪ dom acc.
Proof.
  revert acc. induction l as [|x l IH]; intros acc; cbn [fold_left].
  - rewrite list_to_set_nil. symmetry. apply (left_id_L ∅ (∪)).
  - rewrite IH, dom_insert_L, list_to_set_cons.
    rewrite (comm_L (∪) {[x]} (list_to_set l)), <- (assoc_L (∪)).
    reflexivity.
Qed.

(** C1, amended: whatever the queries, the pages and the state before,
    after a run of [complete_information] - whether it returned or an
    exception ended it - the result mapping has a record for exactly the
    display titles of the input. *)
Theorem complete_information_keeps_every_title
    (str_lower : pystr -> pystr) (SequenceMatcher_ratio : pystr -> pystr -> Q)
    (max_str_digits : option nat) (day gmt5_date : pystr)
    (web : request -> response) (self : finder) (verbose : bool) (s : state) :
  dom (_info (snd (complete_information str_lower SequenceMatcher_ratio
                     max_str_digits day gmt5_date web self verbose s)))
  = list_to_set (List.map fst (movies self)).
Proof.
  unfold complete_information. unfold mbind at 1, M_bind at 1.
  apply keeps_complete_each.
  - intros movie Hm. apply elem_of_list_to_set. exact Hm.
  - cbn [_info]. rewrite dom_fold_insert_empty, dom_empty_L.
    apply (right_id_L ∅ (∪)).
Qed.

(** C1, refuted as stated: the first of two queries has a detail page
    without a synopsis block; reading it raises [AttributeError], which
    nothing catches: the run ends there, the second query is never looked
    up and keeps its empty record. *)
Lemma complete_information_aborts :
  fst (complete_information ascii_lower Demo.no_ratio (Some 4300%nat)
         Demo.day Demo.gmt5_date Demo.web
         (Demo.finder_of [(lit "Untold", PStr (lit "2020"));
                          (lit "Example Movie", PStr (lit "2020"))])
         false initial_state)
  = Raise (Exn AttributeError
             (lit "'NoneType' object has no attribute 'text'"))
  /\ _info (snd (complete_information ascii_lower Demo.no_ratio
                   (Some 4300%nat) Demo.day Demo.gmt5_date Demo.web
                   (Demo.finder_of [(lit "Untold", PStr (lit "2020"));
                                    (lit "Example Movie", PStr (lit "2020"))])
                   false initial_state)) !! lit "Example Movie"
     = Some ∅
  /\ sent (snd (complete_information ascii_lower Demo.no_ratio
                  (Some 4300%nat) Demo.day Demo.gmt5_date Demo.web
                  (Demo.finder_of [(lit "Untold", PStr (lit "2020"));
                                   (lit "Example Movie", PStr (lit "2020"))])
                  false initial_state))
     = [Request GET
          (lit "https://www.filmaffinity.com/en/search.php?stext=untold&stype=all")
          false].
Proof. vm_compute. repeat split. Qed.

(** A run that completes: the query (Example Movie, "2020") of the
    end-to-end scenario.  The third result entry is the first to pass the
    test; the fourth is never requested. *)
Example complete_information_end_to_end :
  complete_information ascii_lower Demo.no_ratio (Some 4300%nat)
    Demo.day Demo.gmt5_date Demo.web
    (Demo.finder_of [(lit "Example Movie", PStr (lit "2020"))])
    false initial_state
  = (Ok tt,
     State
       (<[lit "Example Movie" :=
            <["imdb_rating" := PStr (lit "7.5")]>
            (<["critics" := PNone]>
            (<["synopsis" := PStr (lit "A story.")]>
            (<["year" := PStr (lit "2020")]>
            (<["original name" := PStr (lit "Original Example")]> ∅))))]> ∅)
       []
       [Request GET
          (lit "https://www.filmaffinity.com/en/search.php?stext=example-movie&stype=all")
          false;
        Request GET IMDB_SIGNIN_URL false;
        Request POST (lit "https://www.imdb.com/ap/signin") true;
        Request GET
          (lit "https://www.imdb.com/find?q=original+example&ref_=nv_sr_sm")
          true;
        Request GET (lit "https://www.imdb.com/title/tt001/") true;
        Request GET (lit "https://www.imdb.com/title/tt002/") true;
        Request GET (lit "https://www.imdb.com/title/tt003/") true]).
Proof. vm_compute. reflexivity. Qed.

(** With the year given as a number, as the driver script gives it, no
    page year (a text) is equal to it: every entry is examined and no
    rating is stored. *)
Example complete_information_numeric_year :
  fst (complete_information ascii_lower Demo.no_ratio (Some 4300%nat)
         Demo.day Demo.gmt5_date Demo.web
         (Demo.finder_of [(lit "Example Movie", PInt 2020)])
         false initial_state) = Ok tt
  /\ (_info (snd (complete_information ascii_lower Demo.no_ratio
                    (Some 4300%nat) Demo.day Demo.gmt5_date Demo.web
                    (Demo.finder_of [(lit "Example Movie", PInt 2020)])
                    false initial_state)) !! lit "Example Movie")
       ≫= (fun d => d !! "imdb_rating") = Some PNone
  /\ length (sent (snd (complete_information ascii_lower Demo.no_ratio
                          (Some 4300%nat) Demo.day Demo.gmt5_date Demo.web
                          (Demo.finder_of [(lit "Example Movie", PInt 2020)])
                          false initial_state))) = 8%nat.
Proof. vm_compute. repeat split. Qed.

(** An ambiguous search page: the handler first calls the logger with the
    message, which raises; the list of entries is not scanned and no
    detail page is requested. *)
Example ambiguous_search_stops_at_logger :
  get_useful_information_from_filmaffinity ascii_lower (Some 4300%nat)
    Demo.day Demo.gmt5_date Demo.web (Demo.finder_of [])
    (lit "Up") (PInt 2009) initial_state
  = (Raise (Exn TypeError
              (lit "Logger.log() takes 1 positional argument but 2 were given")),
     State ∅ []
       [Request GET
          (lit "https://www.filmaffinity.com/en/search.php?stext=up&stype=all")
          false]).
Proof. vm_compute. reflexivity. Qed.

(** A site that cannot be reached ends the run as well. *)
Example unreachable_site_aborts :
  fst (complete_information ascii_lower Demo.no_ratio (Some 4300%nat)
         Demo.day Demo.gmt5_date Demo.web
         (Demo.finder_of [(lit "Nowhere", PInt 2020)]) true initial_state)
  = Raise (Exn RequestException (lit "no route to host")).
Proof. vm_compute. reflexivity. Qed.

(* ===================================================================== *)
(** * Further properties of the code *)
(* ===================================================================== *)

(** ** What [clean_string] guarantees *)

Lemma has_char_app (c : char) (a b : pystr) :
  has_char c (a ++ b) = has_char c a || has_char c b.
Proof. apply existsb_app. Qed.

Lemma has_char_rev (c : char) (s : pystr) :
  has_char c s = false -> has_char c (rev s) = false.
Proof.
  induction s as [|x s IH]; intros H; [reflexivity|].
  cbn [has_char existsb] in H. apply orb_false_iff in H as [H1 H2].
  cbn [rev]. rewrite has_char_app, (IH H2). cbn [has_char existsb].
  rewrite H1. reflexivity.
Qed.

Lemma has_char_lstrip (c : char) (s : pystr) :
  has_char c s = false -> has_char c (lstrip s) = false.
Proof.
  induction s as [|x s IH]; intros H; [reflexivity|].
  cbn [lstrip]. destruct (isspace x); [|exact H].
  cbn [has_char existsb] in H. apply orb_false_iff in H as [_ H2].
  exact (IH H2).
Qed.

Lemma has_char_strip (c : char) (s : pystr) :
  has_char c s = false -> has_char c (strip s) = false.
Proof.
  intros H. unfold strip, rstrip.
  apply has_char_rev, has_char_lstrip, has_char_rev, has_char_lstrip, H.
Qed.

Lemma has_char_firstn (c : char) (n : nat) (s : pystr) :
  has_char c s = false -> has_char c (firstn n s) = false.
Proof.
  revert n. induction s as [|x s IH]; intros n H; [destruct n; reflexivity|].
  destruct n as [|n]; [reflexivity|].
  cbn [has_char existsb] in H. apply orb_false_iff in H as [H1 H2].
  cbn [firstn has_char existsb]. rewrite H1. exact (IH n H2).
Qed.

Lemma has_char_replace_from (c : char) (old new s : pystr) (skip : nat) :
  has_char c new = false -> has_char c s = false ->
  has_char c (replace_from old new skip s) = false.
Proof.
  intros Hnew. revert skip. induction s as [|x s IH]; intros skip H.
  - reflexivity.
  - cbn [has_char existsb] in H. apply orb_false_iff in H as [H1 H2].
    cbn [replace_from]. destruct skip as [|k]; [|exact (IH k H2)].
    destruct (startswith old (x :: s)).
    + rewrite has_char_app, Hnew. exact (IH _ H2).
    + cbn [has_char existsb]. rewrite H1. exact (IH 0%nat H2).
Qed.

(** A replacement does not bring in a character that neither the text
    nor the new piece holds. *)
Lemma has_char_replace (c x : char) (old new s : pystr) :
  has_char c new = false -> has_char c s = false ->
  has_char c (replace (x :: old) new s) = false.
Proof. intros Hnew H. apply has_char_replace_from; assumption. Qed.

Lemma has_char_tail_of_chain (c : char) (t : pystr) :
  has_char c t = false ->
  has_char c
    (let string := strip t in
     let string :=
       if endswith (lit "(FILMAFFINITY)") string
       then strip (drop_last 14 string) else string in
     let string :=
       if endswith (lit "aka") string
       then strip (drop_last 3 string) else string in
     string) = false.
Proof.
  intros H. cbv zeta. unfold drop_last.
  pose proof (has_char_strip c t H) as H1.
  destruct (endswith (lit "(FILMAFFINITY)") (strip t)).
  - pose proof (has_char_strip c _
                  (has_char_firstn c (length (strip t) - 14) _ H1)) as H2.
    destruct (endswith (lit "aka") _); [|exact H2].
    apply has_char_strip, has_char_firstn, H2.
  - destruct (endswith (lit "aka") _); [|exact H1].
    apply has_char_strip, has_char_firstn, H1.
Qed.

(** X1: the cleaned text holds no double quote, no apostrophe and no left
    curly quote, whatever the input. *)
Theorem clean_string_removes_quotes (s : pystr) :
  has_char 0x22 (clean_string s) = false
  /\ has_char 0x27 (clean_string s) = false
  /\ has_char left_quote_char (clean_string s) = false.
Proof.
  unfold clean_string. repeat split.
  - apply has_char_tail_of_chain.
    do 9 (apply has_char_replace; [reflexivity|]).
    exact (replace_from_no_char 0x22 (lit " ") s 0 eq_refl).
  - apply has_char_tail_of_chain.
    do 8 (apply has_char_replace; [reflexivity|]).
    exact (replace_from_no_char 0x27 (lit " ") _ 0 eq_refl).
  - apply has_char_tail_of_chain.
    do 3 (apply has_char_replace; [reflexivity|]).
    exact (replace_from_no_char left_quote_char [] _ 0 eq_refl).
Qed.

Lemma strip_first (u : pystr) (c : char) (rest : pystr) :
  strip u = c :: rest -> isspace c = false.
Proof.
  unfold strip. destruct (lstrip_head u) as [-> | (d & t & -> & Ed)].
  - discriminate.
  - rewrite (rstrip_cons d t Ed). intros E. injection E as <- _. exact Ed.
Qed.

Lemma strip_last (u : pystr) (c : char) (front : pystr) :
  strip u = front ++ [c] -> isspace c = false.
Proof.
  unfold strip, rstrip.
  destruct (lstrip_head (rev (lstrip u))) as [-> | (d & t & -> & Ed)].
  - destruct front; discriminate.
  - cbn [rev]. intros E. apply app_inj_tail in E as [_ <-]. exact Ed.
Qed.

(** X2: the cleaned text has no white space at either end: stripping it
    changes nothing, and neither its first nor its last character is a
    space. *)
Theorem clean_string_is_stripped (s : pystr) :
  strip (clean_string s) = clean_string s
  /\ (forall c rest, clean_string s = c :: rest -> isspace c = false)
  /\ (forall c front, clean_string s = front ++ [c] -> isspace c = false).
Proof.
  pose proof (strip_clean_string s) as H. split; [exact H|]. split.
  - intros c rest E. rewrite <- H in E. exact (strip_first _ _ _ E).
  - intros c front E. rewrite <- H in E. exact (strip_last _ _ _ E).
Qed.

(** X3: the legacy copy of [clean_string] and the current one return the
    same text for every input. *)
Theorem clean_string_copies_agree (s : pystr) :
  LegacyClean.clean_string s = clean_string s.
Proof. apply legacy_clean_string_same. Qed.

(** ** What [title_is_accurate] accepts *)

(** X4: every title, the empty one too, is an accurate rendering of
    itself. *)
Theorem title_is_accurate_reflexive
    (SequenceMatcher_ratio : pystr -> pystr -> Q) (a : pystr) :
  title_is_accurate SequenceMatcher_ratio a a true = true.
Proof. apply title_is_accurate_refl. Qed.

Lemma distance_rec_lower (a b : pystr) :
  (length a <= Levenshtein.distance_rec a b + length b)%nat.
Proof.
  revert b. induction a as [|x a IHa]; intros b; [cbn; lia|].
  induction b as [|y b IHb].
  - rewrite distance_rec_nil_r. lia.
  - rewrite distance_rec_cons_cons. unfold Levenshtein.min3.
    pose proof (IHa (y :: b)) as H1. pose proof (IHa b) as H2.
    cbn [length] in *. lia.
Qed.

(** X5: two titles that are accurate to one another have lengths close to
    each other: nine times the one is at most eleven times the other. *)
Theorem title_is_accurate_bounds_lengths
    (SequenceMatcher_ratio : pystr -> pystr -> Q) (a b : pystr) :
  title_is_accurate SequenceMatcher_ratio a b true = true ->
  (9 * length a <= 11 * length b)%nat /\ (9 * length b <= 11 * length a)%nat.
Proof.
  unfold title_is_accurate, Levenshtein.ratio. intros H.
  pose proof (distance_rec_lower a b) as Hab.
  pose proof (distance_rec_lower b a) as Hba.
  rewrite <- (distance_rec_sym a b) in Hba.
  rewrite <- (distance_spec a b) in Hab, Hba.
  destruct (length a + length b)%nat as [|n] eqn:E; [lia|].
  destruct (Qle_bool _ _) eqn:Hq; [|discriminate].
  apply Qle_bool_iff in Hq. unfold Qle in Hq. cbn [Qnum Qden] in Hq.
  rewrite <- Pos.of_nat_succ, Zpos_P_of_succ_nat in Hq. lia.
Qed.

Lemma title_is_accurate_bounds_lengths_witness :
  title_is_accurate Demo.no_ratio (lit "the lion king") (lit "the lion kings")
    true = true
  /\ (9 * length (lit "the lion king") <= 11 * length (lit "the lion kings"))%nat
  /\ (9 * length (lit "the lion kings") <= 11 * length (lit "the lion king"))%nat.
Proof.
  split; [vm_compute; reflexivity|].
  apply (title_is_accurate_bounds_lengths Demo.no_ratio).
  vm_compute. reflexivity.
Defined.

Lemma split_from_no_sep (c : char) (cur s : pystr) :
  has_char c s = false -> split_from [c] 0 cur s = [rev cur ++ s].
Proof.
  revert cur. induction s as [|x s IH]; intros cur H.
  - cbn. rewrite app_nil_r. reflexivity.
  - cbn [has_char existsb] in H. apply orb_false_iff in H as [H1 H2].
    cbn [split_from startswith]. rewrite H1. cbn [andb].
    rewrite (IH (x :: cur) H2). cbn [rev]. rewrite <- app_assoc.
    reflexivity.
Qed.

Lemma filter_length_existsb {A : Type} (f : A -> bool) (l : list A) :
  existsb f l = negb (Nat.eqb (length (List.filter f l)) 0).
Proof.
  induction l as [|x l IH]; [reflexivity|].
  cbn [existsb List.filter]. destruct (f x); [reflexivity | exact IH].
Qed.

(** X6: for an original title that holds no blank, the legacy test is
    true exactly when some word of the title, in lower case, occurs inside
    the original title in lower case - one such word is enough. *)
Theorem legacy_title_one_word_original
    (str_lower : pystr -> pystr) (title original_title : pystr) :
  has_char 0x20 original_title = false ->
  Legacy.title_is_accurate str_lower title original_title
  = Ok (existsb (fun word => contains word (str_lower original_title))
          (List.map str_lower (split (lit " ") title))).
Proof.
  intros H. unfold Legacy.title_is_accurate. cbv zeta.
  change (split (lit " ") original_title)
    with (split_from [0x20] 0 [] original_title).
  rewrite (split_from_no_sep 0x20 [] original_title H). cbn [length].
  rewrite filter_length_existsb.
  destruct (length (List.filter _ _)) as [|n]; [reflexivity|].
  assert (Hq : Qle_bool (9 # 10) (Z.of_nat (S n) # Pos.of_nat 1) = true).
  { apply Qle_bool_iff. unfold Qle. cbn [Qnum Qden Pos.of_nat]. lia. }
  rewrite Hq. reflexivity.
Qed.

Lemma legacy_title_one_word_original_witness :
  has_char 0x20 (lit "lion") = false
  /\ Legacy.title_is_accurate ascii_lower (lit "The Lion King") (lit "lion")
     = Ok true.
Proof.
  split; [reflexivity|].
  rewrite (legacy_title_one_word_original ascii_lower (lit "The Lion King")
             (lit "lion") eq_refl).
  vm_compute. reflexivity.
Defined.

(** ** What [find_year_in_unformatted_text] returns *)

Lemma lazy_to_close_prefix (s g : pystr) :
  Re.lazy_to_close s = Some g -> startswith (g ++ [0x29]) s = true.
Proof.
  revert g. induction s as [|c s IH]; intros g H; [discriminate|].
  cbn [Re.lazy_to_close] in H. destruct (c =? 0x29) eqn:E1.
  - injection H as <-. cbn [app startswith]. rewrite N.eqb_sym, E1.
    reflexivity.
  - destruct (c =? 0xa); [discriminate|].
    destruct (Re.lazy_to_close s) as [g'|]; [|discriminate].
    injection H as <-. cbn [app startswith]. rewrite N.eqb_refl.
    exact (IH g' eq_refl).
Qed.

Lemma contains_cons (p s : pystr) (c : char) :
  contains p s = true -> contains p (c :: s) = true.
Proof.
  intros H. cbn [contains]. rewrite H. apply orb_true_r.
Qed.

(** Every match is an opening parenthesis, a run and a closing
    parenthesis, and stands in the text. *)
Lemma findall_from_matches (skip : nat) (s m : pystr) :
  In m (Re.findall_from skip s) ->
  exists g, m = 0x28 :: g ++ [0x29] /\ contains m s = true.
Proof.
  revert skip. induction s as [|c s IH]; intros skip H; [destruct H|].
  cbn [Re.findall_from] in H. destruct skip as [|k].
  - destruct (c =? 0x28) eqn:E.
    + destruct (Re.lazy_to_close s) as [g|] eqn:Hg.
      * destruct H as [<- | H].
        -- exists g. split; [reflexivity|].
           cbn [app contains startswith]. rewrite N.eqb_sym, E.
           rewrite (lazy_to_close_prefix s g Hg). reflexivity.
        -- destruct (IH _ H) as (g' & -> & Hc). exists g'.
           split; [reflexivity | apply contains_cons, Hc].
      * destruct (IH _ H) as (g' & -> & Hc). exists g'.
        split; [reflexivity | apply contains_cons, Hc].
    + destruct (IH _ H) as (g' & -> & Hc). exists g'.
      split; [reflexivity | apply contains_cons, Hc].
  - destruct (IH _ H) as (g' & -> & Hc). exists g'.
    split; [reflexivity | apply contains_cons, Hc].
Qed.

Lemma first_year_group_spec (l : list pystr) :
  first_year_group l [] = []
  \/ exists stuff, In stuff l
                   /\ first_year_group l [] = inner_slice stuff
                   /\ isdigit (inner_slice stuff) = true.
Proof.
  induction l as [|stuff l IH]; [left; reflexivity|].
  cbn [first_year_group]. destruct (isdigit (inner_slice stuff)) eqn:E.
  - right. exists stuff. repeat split; [left; reflexivity | exact E].
  - destruct IH as [IH | (st & Hin & Heq & Hd)]; [left; exact IH|].
    right. exists st. repeat split; [right; exact Hin | exact Heq | exact Hd].
Qed.

(** X7: the current copy returns either the empty string or a non-empty
    run of digits that stands between parentheses in the text. *)
Theorem find_year_is_parenthesized_digits (string : pystr) :
  find_year_in_unformatted_text string = []
  \/ (isdigit (find_year_in_unformatted_text string) = true
      /\ contains ([0x28] ++ find_year_in_unformatted_text string ++ [0x29])
           string = true).
Proof.
  unfold find_year_in_unformatted_text, Re.findall_parenthesized. cbv zeta.
  destruct (first_year_group_spec (Re.findall_from 0 string))
    as [H | (stuff & Hin & Heq & Hd)]; [left; exact H|].
  right. rewrite Heq. split; [exact Hd|].
  destruct (findall_from_matches 0 string stuff Hin) as (g & -> & Hc).
  rewrite (inner_slice_group g). exact Hc.
Qed.

(** ** The search address of the second source *)

Lemma reduce_join_cons (sep first : pystr) (others : list pystr) :
  reduce_join sep first others
  = first ++ concat (List.map (fun w => sep ++ w) others).
Proof.
  unfold reduce_join. revert first.
  induction others as [|w others IH]; intros first; cbn [fold_left].
  - cbn. rewrite app_nil_r. reflexivity.
  - rewrite IH. cbn [List.map concat]. rewrite <- !app_assoc. reflexivity.
Qed.

Lemma search_query_split_blank (sep cur s : pystr) :
  search_query sep (split_from [0x20] 0 cur s)
  = rev cur ++ concat (List.map (fun c => if c =? 0x20 then sep else [c]) s).
Proof.
  revert cur. induction s as [|c s IH]; intros cur.
  - cbn. rewrite app_nil_r. reflexivity.
  - cbn [split_from startswith List.map concat]. rewrite N.eqb_sym.
    destruct (c =? 0x20) eqn:E; cbn [andb length Nat.pred].
    + specialize (IH []). cbn [rev app] in IH.
      cbn [search_query]. rewrite reduce_join_cons.
      destruct (split_from [0x20] 0 [] s) as [|w ws] eqn:Es.
      { pose proof (split_from_nonempty [0x20] 0 [] s) as Hn.
        rewrite Es in Hn. cbn in Hn. lia. }
      cbn [search_query] in IH. rewrite reduce_join_cons in IH.
      cbn [List.map concat]. rewrite <- IH, <- !app_assoc. reflexivity.
    + rewrite (IH (c :: cur)). cbn [rev]. rewrite <- !app_assoc. reflexivity.
Qed.

(** X8: the search address of the second source is the fixed prefix, the
    canonical title with every blank replaced by a plus sign (nothing else
    is changed or escaped), and the fixed suffix. *)
Theorem imdb_search_url_replaces_blanks (original_movie_name : pystr) :
  imdb_search_url original_movie_name
  = lit "https://www.imdb.com/find?q="
    ++ List.map (fun c => if c =? 0x20 then 0x2b else c) original_movie_name
    ++ lit "&ref_=nv_sr_sm".
Proof.
  unfold imdb_search_url, split.
  change (lit " ") with [0x20].
  rewrite (search_query_split_blank (lit "+") [] original_movie_name).
  cbn [rev app]. f_equal. f_equal.
  induction original_movie_name as [|c s IH]; [reflexivity|].
  cbn [List.map concat]. rewrite IH.
  destruct (c =? 0x20); reflexivity.
Qed.

(** ** Fetching a page: [soup_from_url] *)

Section Fetching.

Variable day gmt5_date : pystr.
Variable web : request -> response.
Variable self : finder.

Lemma logger_log_refuses (message : pyval) (s : state) :
  logger_log day gmt5_date self [message] s = (Raise logger_refusal, s).
Proof. reflexivity. Qed.

(** X9: [soup_from_url] sends exactly one request and changes nothing
    else.  A failed connection comes out as the exception of the request;
    a page answered with an error status is not returned: the handler's
    call of the logger raises [TypeError]; only a page without error status
    is returned. *)
Theorem soup_from_url_outcomes (u : pystr) (session : option unit)
    (s : state) :
  snd (soup_from_url day gmt5_date web self u session s)
  = State (_info s) (log_txt s)
      (sent s ++ [Request GET u (bool_decide (session <> None))])
  /\ fst (soup_from_url day gmt5_date web self u session s)
     = match web (Request GET u (bool_decide (session <> None))) with
       | ConnectionFailed msg => Raise (Exn RequestException msg)
       | Response (Some _) _ => Raise logger_refusal
       | Response None doc => Ok doc
       end.
Proof.
  unfold soup_from_url, send, mbind, M_bind, try_except, raise_for_status.
  destruct (web (Request GET u (bool_decide (session <> None))))
    as [msg | [e|] doc]; cbn [fst snd]; split; reflexivity.
Qed.

End Fetching.

(** ** The Candidate Resolver: error and edge behaviour *)

Section ResolverEdges.

Variable str_lower : pystr -> pystr.
Variable max_str_digits : option nat.
Variable day gmt5_date : pystr.
Variable web : request -> response.
Variable self : finder.

Local Abbreviation resolve :=
  (get_useful_information_from_filmaffinity str_lower max_str_digits
     day gmt5_date web self).
Local Abbreviation scan :=
  (scan_possible_movies str_lower max_str_digits day gmt5_date web self).

Lemma parsed_name_is_query (sep : pystr) (words : list pystr) :
  (1 <= length words)%nat ->
  (match words with
   | first :: (_ :: _) as others => mret (reduce_join sep first others)
   | _ => first_item words
   end : M pystr)
  = mret (search_query sep words).
Proof.
  destruct words as [|w [|w2 ws]]; intros Hw;
    [cbn in Hw; lia | reflexivity | reflexivity].
Qed.

(** X10: a search page without a "movie-info" block never gets to the
    scan of its entries: the handler first calls the logger with the
    message, the call raises [TypeError], and the lookup ends there with
    one request sent and no record stored. *)
Theorem ambiguous_search_raises (movie_name : pystr) (year : pyval)
    (s : state) (doc : soup) :
  web (Request GET (filmaffinity_search_url str_lower movie_name) false)
    = Response None doc ->
  movie_info doc = [] ->
  resolve movie_name year s
  = (Raise logger_refusal,
     State (_info s) (log_txt s)
       (sent s
        ++ [Request GET (filmaffinity_search_url str_lower movie_name)
              false])).
Proof.
  intros Hweb Hinfo.
  unfold get_useful_information_from_filmaffinity. cbv zeta.
  rewrite parsed_name_is_query
    by (rewrite length_map; apply split_nonempty).
  unfold filmaffinity_search_url in Hweb.
  unfold mbind at 1, M_bind at 1. cbn [mret M_ret].
  unfold mbind at 1, M_bind at 1.
  rewrite (soup_from_url_ok day gmt5_date web self _ None doc s Hweb).
  unfold mbind at 1, M_bind at 1. unfold try_except.
  rewrite Hinfo. reflexivity.
Qed.

(** X12: the number of critics stored is the smaller of [number_critics]
    and the number of blocks on the page; so with [number_critics] zero or
    negative and at least one block, the record holds the empty list, not
    [None]. *)
Theorem critics_bounded_by_number_critics (movie_name : pystr) (year : pyval)
    (doc : soup) (s : state) :
  length (critics_of (number_critics self) (reviewBody doc))
  = Nat.min (Z.to_nat (number_critics self)) (length (reviewBody doc))
  /\ (forall original_name desc,
        description doc = Some desc ->
        reviewBody doc <> [] ->
        (number_critics self <= 0)%Z ->
        (_info (snd (record_from_page self movie_name year doc
                       original_name s)) !! movie_name)
          ≫= (fun d : gmap string pyval => d !! "critics")
        = Some (PList [])).
Proof.
  split.
  - rewrite critics_of_firstn, length_map, length_firstn. reflexivity.
  - intros name desc Hdesc Hne Hn.
    rewrite (record_from_page_ok self _ _ _ _ _ _ Hdesc).
    cbn [snd _info]. rewrite lookup_insert_eq. cbn [mbind option_bind].
    rewrite critics_of_page_record.
    destruct (reviewBody doc) as [|b bs] eqn:Eb; [congruence|].
    rewrite critics_of_firstn.
    replace (Z.to_nat (number_critics self)) with 0%nat by lia.
    reflexivity.
Qed.

End ResolverEdges.

Lemma ambiguous_search_raises_witness :
  get_useful_information_from_filmaffinity ascii_lower (Some 4300%nat)
    Demo.day Demo.gmt5_date Demo.web (Demo.finder_of [])
    (lit "Up") (PInt 2009) initial_state
  = (Raise logger_refusal,
     State (_info initial_state) (log_txt initial_state)
       (sent initial_state
        ++ [Request GET (filmaffinity_search_url ascii_lower (lit "Up"))
              false])).
Proof.
  apply (ambiguous_search_raises ascii_lower (Some 4300%nat) Demo.day
           Demo.gmt5_date Demo.web (Demo.finder_of []) (lit "Up") (PInt 2009)
           initial_state Demo.ambiguous).
  - vm_compute. reflexivity.
  - reflexivity.
Defined.

Lemma critics_bounded_by_number_critics_witness :
  (_info (snd (record_from_page
                 (Finder [] 0 Demo.credentials Logger.init)
                 (lit "Reviewed") (PInt 2020)
                 (Demo.detail (lit "Reviewed") (Some (lit "A story."))
                    Demo.five_reviews)
                 (lit "Reviewed") initial_state)) !! lit "Reviewed")
    ≫= (fun d : gmap string pyval => d !! "critics")
  = Some (PList []).
Proof.
  destruct (critics_bounded_by_number_critics
              (Finder [] 0 Demo.credentials Logger.init)
              (lit "Reviewed") (PInt 2020)
              (Demo.detail (lit "Reviewed") (Some (lit "A story."))
                 Demo.five_reviews)
              initial_state) as [_ Hedge].
  apply (Hedge (lit "Reviewed") (lit "A story."));
    [reflexivity | discriminate | reflexivity].
Defined.

(** ** The Cross-Source Matcher: error behaviour *)

Section MatcherEdges.

Variable str_lower : pystr -> pystr.
Variable SequenceMatcher_ratio : pystr -> pystr -> Q.
Variable day gmt5_date : pystr.
Variable web : request -> response.
Variable self : finder.
Variable movie_name : pystr.
Variable canonical_title : pystr.
Variable year : pyval.

Local Abbreviation examine :=
  (examine_item str_lower SequenceMatcher_ratio day gmt5_date web self
     movie_name canonical_title year tt).
Local Abbreviation scan :=
  (scan_search_items str_lower SequenceMatcher_ratio day gmt5_date web self
     movie_name canonical_title year tt).

(** One step of the scan, for an entry with a link. *)
Lemma scan_step (item : list pystr) (rest : list (list pystr)) (s : state) :
  item <> [] ->
  scan (item :: rest) s
  = let s1 :=
      State (_info s) (log_txt s) (sent s ++ [entry_request item]) in
    match entry_page web item
            ≫= acceptance_test str_lower SequenceMatcher_ratio
                  canonical_title year with
    | Some false => scan rest s1
    | Some true =>
        match entry_page web item ≫= ratingValue, _info s !! movie_name with
        | Some r, Some d =>
            (Ok tt,
             State (<[movie_name := <["imdb_rating" := PStr (strip r)]> d]>
                      (_info s))
               (log_txt s) (sent s ++ [entry_request item]))
        | _, _ => (Raise logger_refusal, s1)
        end
    | None => (Raise logger_refusal, s1)
    end.
Proof.
  intros Hne. destruct item as [|link others]; [congruence|]. cbv zeta.
  destruct (entry_page web (link :: others)) as [doc|] eqn:Hpage;
    cbn [mbind option_bind].
  - destruct (acceptance_test str_lower SequenceMatcher_ratio
                canonical_title year doc) as [b|] eqn:Hacc.
    + unfold acceptance_test in Hacc.
      destruct (page_title str_lower doc) as [t|] eqn:Ht; [|discriminate].
      destruct (page_year doc) as [y|] eqn:Hy; [|discriminate].
      injection Hacc as <-.
      cbn [scan_search_items]. unfold mbind at 1, M_bind at 1.
      rewrite (examine_page str_lower SequenceMatcher_ratio day gmt5_date
                 web self movie_name canonical_title year
                 (link :: others) s doc t y Hpage Ht Hy).
      destruct (title_is_accurate SequenceMatcher_ratio t canonical_title
                  true && str_eq y year); [|reflexivity].
      unfold try_except.
      destruct (ratingValue doc) as [r|]; cbn [attr_of]; [|reflexivity].
      unfold mbind at 1, M_bind at 1. cbn [mret M_ret].
      unfold mbind at 1, M_bind at 1. unfold store_rating. cbn [_info].
      destruct (_info s !! movie_name); reflexivity.
    + unfold entry_page, entry_request in *. cbn [hd] in *.
      destruct (web (Request GET (lit "https://www.imdb.com" ++ link) true))
        as [msg | [err|] doc'] eqn:Hweb; try discriminate.
      injection Hpage as ->.
      cbn [scan_search_items]. unfold mbind at 1, M_bind at 1.
      unfold examine_item. cbn [first_item].
      unfold mbind at 1, M_bind at 1. cbn [mret M_ret].
      unfold try_except at 1. unfold mbind at 1, M_bind at 1.
      rewrite (soup_from_url_ok day gmt5_date web self _ (Some tt) doc s)
        by (rewrite session_flag; exact Hweb).
      rewrite session_flag.
      unfold mbind at 1, M_bind at 1. unfold try_except at 1.
      unfold acceptance_test, page_title, page_year in Hacc.
      destruct (originalTitle doc) as [text|] eqn:Ho.
      * cbn [attr_of]. unfold mbind at 1, M_bind at 1. cbn [mret M_ret].
        pose proof (split_nonempty (lit "(original title)")
                      (str_lower (strip text))) as Hsplit.
        destruct (split (lit "(original title)") (str_lower (strip text)))
          as [|piece pieces] eqn:Es; [cbn in Hsplit; lia|].
        cbn [first_item]. unfold mbind at 1, M_bind at 1. cbn [mret M_ret].
        destruct (titleYear doc) as [[|y ys]|] eqn:Hty; try discriminate;
          reflexivity.
      * cbn [attr_of]. unfold mbind at 1, M_bind at 1.
        destruct (title_wrapper doc); reflexivity.
  - unfold entry_page, entry_request in *. cbn [hd] in *.
    cbn [scan_search_items]. unfold mbind at 1, M_bind at 1.
    unfold examine_item. cbn [first_item].
    unfold mbind at 1, M_bind at 1. cbn [mret M_ret].
    unfold try_except at 1. unfold mbind at 1, M_bind at 1.
    unfold soup_from_url, send, raise_for_status.
    unfold mbind at 1, M_bind at 1. rewrite session_flag.
    destruct (web (Request GET (lit "https://www.imdb.com" ++ link) true))
      as [msg | [err|] doc'] eqn:Hweb; try discriminate; reflexivity.
Qed.

(** X13: a failure while an entry is examined stops the scan.  For an
    entry with a link, the scan goes on to the next entry only when the
    page of the entry came back, shows a title and a year, and fails the
    test.  When the page passes the test, shows a rating and the title has
    a record, the rating is stored and the scan returns.  In every other
    case - the page did not come back or came back with an error status,
    it shows no title or no year, or it passes the test and shows no
    rating or the title has no record - the scan ends there with the
    logger's [TypeError], and no entry after this one is requested.  So a
    scan of entries with links returns or raises that [TypeError], and no
    other exception leaves the loop. *)
Theorem scan_stops_at_failure :
  (forall item rest s,
     item <> [] ->
     scan (item :: rest) s
     = let s1 :=
         State (_info s) (log_txt s) (sent s ++ [entry_request item]) in
       match entry_page web item
               ≫= acceptance_test str_lower SequenceMatcher_ratio
                     canonical_title year with
       | Some false => scan rest s1
       | Some true =>
           match entry_page web item ≫= ratingValue,
                 _info s !! movie_name with
           | Some r, Some d =>
               (Ok tt,
                State (<[movie_name :=
                           <["imdb_rating" := PStr (strip r)]> d]> (_info s))
                  (log_txt s) (sent s ++ [entry_request item]))
           | _, _ => (Raise logger_refusal, s1)
           end
       | None => (Raise logger_refusal, s1)
       end)
  /\ (forall items s,
        Forall (fun item : list pystr => item <> []) items ->
        fst (scan items s) = Ok tt
        \/ fst (scan items s) = Raise logger_refusal).
Proof.
  split; [exact scan_step|].
  intros items s H. revert s.
  induction H as [|item rest Hitem Hrest IH]; intros s.
  - left. reflexivity.
  - rewrite (scan_step item rest s Hitem). cbv zeta.
    destruct (entry_page web item
                ≫= acceptance_test str_lower SequenceMatcher_ratio
                      canonical_title year) as [[|]|].
    + destruct (entry_page web item ≫= ratingValue) as [r|];
        [|right; reflexivity].
      destruct (_info s !! movie_name); [left | right]; reflexivity.
    + apply IH.
    + right. reflexivity.
Qed.

(** X14: the fall-back to the displayed title never yields a title: an
    entry whose page has no "originalTitle" block ends the scan with the
    logger's [TypeError], whether the page has a "title_wrapper" block or
    not, and the entries after it are not requested. *)
Theorem missing_original_title_raises (item : list pystr)
    (rest : list (list pystr)) (s : state) (doc : soup) :
  entry_page web item = Some doc ->
  originalTitle doc = None ->
  scan (item :: rest) s
  = (Raise logger_refusal,
     State (_info s) (log_txt s) (sent s ++ [entry_request item])).
Proof.
  unfold entry_page, entry_request. intros Hpage Ho.
  destruct item as [|link others]; [discriminate|]. cbn [hd] in *.
  destruct (web (Request GET (lit "https://www.imdb.com" ++ link) true))
    as [msg | [err|] doc'] eqn:Hweb; try discriminate.
  injection Hpage as ->.
  cbn [scan_search_items]. unfold mbind at 1, M_bind at 1.
  unfold examine_item. cbn [first_item].
  unfold mbind at 1, M_bind at 1. cbn [mret M_ret].
  unfold try_except at 1. unfold mbind at 1, M_bind at 1.
  rewrite (soup_from_url_ok day gmt5_date web self _ (Some tt) doc s)
    by (rewrite session_flag; exact Hweb).
  rewrite session_flag.
  unfold mbind at 1, M_bind at 1. unfold try_except at 1.
  rewrite Ho. cbn [attr_of]. unfold mbind at 1, M_bind at 1.
  destruct (title_wrapper doc); reflexivity.
Qed.

(** X15: signing in reports success whatever the second source answers to
    the credentials: with a sign-in page that has a link and both
    credentials present, any response to the POST - an error status
    included - gives a session; two requests are sent. *)
Theorem sign_in_ignores_answer (s : state) (doc answer : soup) (u : pystr)
    (email password : pystr) (status : option pystr) :
  web (Request GET IMDB_SIGNIN_URL false) = Response None doc ->
  list_group_item doc = Some (Some u) ->
  imdb_credentials self !! "email" = Some email ->
  imdb_credentials self !! "password" = Some password ->
  web (Request POST u true) = Response status answer ->
  sign_in_to_imdb day gmt5_date web self s
  = (Ok tt,
     State (_info s) (log_txt s)
       (sent s ++ [Request GET IMDB_SIGNIN_URL false; Request POST u true])).
Proof.
  intros Hget Hlink He Hp Hpost. unfold sign_in_to_imdb. cbv zeta.
  unfold mbind at 1, M_bind at 1.
  rewrite (soup_from_url_ok day gmt5_date web self _ None doc s Hget).
  rewrite Hlink. cbn [attr_of]. unfold mbind at 1, M_bind at 1.
  cbn [mret M_ret]. rewrite He, Hp.
  unfold mbind at 1, M_bind at 1. cbn [mret M_ret].
  unfold mbind at 1, M_bind at 1. cbn [mret M_ret].
  unfold mbind, M_bind, send. cbn [sent _info log_txt]. rewrite Hpost.
  cbn [mret M_ret]. rewrite <- app_assoc. reflexivity.
Qed.

(** X16: how signing in fails, for a sign-in page that came back without
    error: no sign-in link on the page raises [AttributeError]; a missing
    credential raises [KeyError] before anything is posted; a link
    without address raises the exception of the request library, again
    before anything is posted; a failed POST raises its exception. *)
Theorem sign_in_failures (s : state) (doc : soup) :
  web (Request GET IMDB_SIGNIN_URL false) = Response None doc ->
  let after_get :=
    State (_info s) (log_txt s)
      (sent s ++ [Request GET IMDB_SIGNIN_URL false]) in
  (list_group_item doc = None ->
   sign_in_to_imdb day gmt5_date web self s
   = (Raise (Exn AttributeError
               (lit "'NoneType' object has no attribute 'get'")), after_get))
  /\ (forall link,
        list_group_item doc = Some link ->
        imdb_credentials self !! "email" = None ->
        sign_in_to_imdb day gmt5_date web self s
        = (Raise (Exn KeyError (lit "'email'")), after_get))
  /\ (forall link email,
        list_group_item doc = Some link ->
        imdb_credentials self !! "email" = Some email ->
        imdb_credentials self !! "password" = None ->
        sign_in_to_imdb day gmt5_date web self s
        = (Raise (Exn KeyError (lit "'password'")), after_get))
  /\ (forall email password,
        list_group_item doc = Some None ->
        imdb_credentials self !! "email" = Some email ->
        imdb_credentials self !! "password" = Some password ->
        sign_in_to_imdb day gmt5_date web self s
        = (Raise (Exn RequestException
                    (lit "Invalid URL 'None': No scheme supplied. Perhaps you meant https://None?")),
           after_get))
  /\ (forall u email password msg,
        list_group_item doc = Some (Some u) ->
        imdb_credentials self !! "email" = Some email ->
        imdb_credentials self !! "password" = Some password ->
        web (Request POST u true) = ConnectionFailed msg ->
        sign_in_to_imdb day gmt5_date web self s
        = (Raise (Exn RequestException msg),
           State (_info s) (log_txt s)
             (sent s ++ [Request GET IMDB_SIGNIN_URL false;
                         Request POST u true]))).
Proof.
  intros Hget after_get. unfold after_get.
  assert (Hstart : forall k : soup -> M unit,
             (soup_from_url day gmt5_date web self IMDB_SIGNIN_URL None ≫= k) s
             = k doc (State (_info s) (log_txt s)
                        (sent s ++ [Request GET IMDB_SIGNIN_URL false]))).
  { intros k. unfold mbind, M_bind.
    rewrite (soup_from_url_ok day gmt5_date web self _ None doc s Hget).
    reflexivity. }
  unfold sign_in_to_imdb. cbv zeta. rewrite Hstart.
  split; [|split; [|split; [|split]]].
  - intros ->. reflexivity.
  - intros link -> ->. reflexivity.
  - intros link email -> -> ->. reflexivity.
  - intros email password -> -> ->. reflexivity.
  - intros u email password msg -> -> -> Hpost.
    cbn [attr_of]. unfold mbind at 1, M_bind at 1. cbn [mret M_ret].
    unfold mbind at 1, M_bind at 1. cbn [mret M_ret].
    unfold mbind at 1, M_bind at 1. cbn [mret M_ret].
    unfold mbind, M_bind, send. cbn [sent _info log_txt]. rewrite Hpost.
    rewrite <- app_assoc. reflexivity.
Qed.

End MatcherEdges.

Lemma scan_stops_at_failure_witness :
  scan_search_items ascii_lower Demo.no_ratio Demo.day Demo.gmt5_date
    Demo.web (Demo.finder_of []) (lit "Example Movie")
    (lit "original example") (PStr (lit "2020")) tt
    [[lit "/nowhere/"]; [lit "/title/tt003/"]]
    (State (<[lit "Example Movie" := ∅]> ∅) [] [])
  = (Raise logger_refusal,
     State (<[lit "Example Movie" := ∅]> ∅) []
       [entry_request [lit "/nowhere/"]]).
Proof.
  pose proof (scan_stops_at_failure ascii_lower Demo.no_ratio Demo.day
                Demo.gmt5_date Demo.web (Demo.finder_of [])
                (lit "Example Movie") (lit "original example")
                (PStr (lit "2020"))) as [Hstep _].
  refine (eq_trans
            (Hstep [lit "/nowhere/"] [[lit "/title/tt003/"]]
               (State (<[lit "Example Movie" := ∅]> ∅) [] []) _) _);
    [discriminate | vm_compute; reflexivity].
Defined.

Lemma missing_original_title_raises_witness :
  scan_search_items ascii_lower Demo.no_ratio Demo.day Demo.gmt5_date
    Demo.web (Demo.finder_of []) (lit "Example Movie")
    (lit "original example") (PStr (lit "2020")) tt
    ([lit "/ap/signin"] :: [[lit "/title/tt003/"]]) initial_state
  = (Raise logger_refusal,
     State (_info initial_state) (log_txt initial_state)
       (sent initial_state ++ [entry_request [lit "/ap/signin"]])).
Proof.
  apply (missing_original_title_raises ascii_lower Demo.no_ratio Demo.day
           Demo.gmt5_date Demo.web (Demo.finder_of []) (lit "Example Movie")
           (lit "original example") (PStr (lit "2020"))
           [lit "/ap/signin"] [[lit "/title/tt003/"]] initial_state
           Demo.blank).
  - vm_compute. reflexivity.
  - reflexivity.
Defined.

Lemma sign_in_ignores_answer_witness :
  sign_in_to_imdb Demo.day Demo.gmt5_date Demo.web (Demo.finder_of [])
    initial_state
  = (Ok tt,
     State (_info initial_state) (log_txt initial_state)
       (sent initial_state
        ++ [Request GET IMDB_SIGNIN_URL false;
            Request POST (lit "https://www.imdb.com/ap/signin") true])).
Proof.
  apply (sign_in_ignores_answer Demo.day Demo.gmt5_date Demo.web
           (Demo.finder_of []) initial_state Demo.signin Demo.blank
           (lit "https://www.imdb.com/ap/signin")
           (lit "me@example.org") (lit "secret") None);
    vm_compute; reflexivity.
Defined.

Lemma sign_in_failures_witness :
  sign_in_to_imdb Demo.day Demo.gmt5_date Demo.web
    (new_finder [] ∅ None) initial_state
  = (Raise (Exn KeyError (lit "'email'")),
     State (_info initial_state) (log_txt initial_state)
       (sent initial_state ++ [Request GET IMDB_SIGNIN_URL false])).
Proof.
  destruct (sign_in_failures Demo.day Demo.gmt5_date Demo.web
              (new_finder [] ∅ None) initial_state Demo.signin)
    as (_ & Hemail & _); [vm_compute; reflexivity|].
  apply (Hemail (Some (lit "https://www.imdb.com/ap/signin")));
    reflexivity.
Defined.

(** ** Loading the credentials *)

(** X17: [load_imdb_credentials] succeeds exactly when the file gives both
    IMDB_EMAIL and IMDB_PASS, and raises [KeyError] for the first of them
    that is missing.  On success their values are found under "email" and
    "password", the two upper-case keys are gone, and every other key of
    the file is kept with its value. *)
Theorem load_imdb_credentials_renames {V : Type} (config : gmap string V) :
  (config !! "IMDB_EMAIL" = None ->
   load_imdb_credentials config = Raise (Exn KeyError (lit "'IMDB_EMAIL'")))
  /\ (forall email,
        config !! "IMDB_EMAIL" = Some email ->
        config !! "IMDB_PASS" = None ->
        load_imdb_credentials config
        = Raise (Exn KeyError (lit "'IMDB_PASS'")))
  /\ (forall email password,
        config !! "IMDB_EMAIL" = Some email ->
        config !! "IMDB_PASS" = Some password ->
        exists loaded,
          load_imdb_credentials config = Ok loaded
          /\ loaded !! "email" = Some email
          /\ loaded !! "password" = Some password
          /\ loaded !! "IMDB_EMAIL" = None
          /\ loaded !! "IMDB_PASS" = None
          /\ (forall k,
                k <> "email" -> k <> "password" ->
                k <> "IMDB_EMAIL" -> k <> "IMDB_PASS" ->
                loaded !! k = config !! k)).
Proof.
  unfold load_imdb_credentials. split; [|split].
  - intros ->. reflexivity.
  - intros email -> Hp. cbv zeta.
    rewrite lookup_insert_ne, lookup_delete_ne, Hp by discriminate.
    reflexivity.
  - intros email password -> Hp. cbv zeta.
    rewrite lookup_insert_ne, lookup_delete_ne, Hp by discriminate.
    eexists. split; [reflexivity|]. repeat split.
    + rewrite lookup_insert_ne, lookup_delete_ne by discriminate.
      apply lookup_insert_eq.
    + apply lookup_insert_eq.
    + rewrite lookup_insert_ne, lookup_delete_ne, lookup_insert_ne
        by discriminate.
      apply lookup_delete_eq.
    + rewrite lookup_insert_ne by discriminate. apply lookup_delete_eq.
    + intros k H1 H2 H3 H4.
      rewrite lookup_insert_ne, lookup_delete_ne, lookup_insert_ne,
        lookup_delete_ne by congruence.
      reflexivity.
Qed.

Lemma load_imdb_credentials_renames_witness :
  exists loaded,
    load_imdb_credentials
      (<["IMDB_EMAIL" := lit "me@example.org"]>
         (<["IMDB_PASS" := lit "secret"]> (∅ : gmap string (list N))))
    = Ok loaded
    /\ loaded !! "email" = Some (lit "me@example.org")
    /\ loaded !! "password" = Some (lit "secret")
  /\ load_imdb_credentials
       (<["IMDB_EMAIL" := lit "me@example.org"]>
          (<["IMDB_PASSWORD" := lit "secret"]> (∅ : gmap string (list N))))
     = Raise (Exn KeyError (lit "'IMDB_PASS'")).
Proof.
  destruct (load_imdb_credentials_renames
              (<["IMDB_EMAIL" := lit "me@example.org"]>
                 (<["IMDB_PASS" := lit "secret"]> (∅ : gmap string (list N)))))
    as (_ & _ & Hok).
  destruct (Hok (lit "me@example.org") (lit "secret"))
    as (loaded & Hl & He & Hp & _); [reflexivity | reflexivity |].
  exists loaded. split; [exact Hl|]. split; [exact He|]. split; [exact Hp|].
  destruct (load_imdb_credentials_renames
              (<["IMDB_EMAIL" := lit "me@example.org"]>
                 (<["IMDB_PASSWORD" := lit "secret"]>
                    (∅ : gmap string (list N)))))
    as (_ & Hmiss & _).
  apply (Hmiss (lit "me@example.org")); reflexivity.
Defined.

(** ** Parts of the state that the steps of a lookup leave alone *)

Section Frame.

Context {B : Type} (proj : state -> B).

(** [proj] does not look at the requests sent. *)
Hypothesis proj_sent :
  forall s reqs, proj (State (_info s) (log_txt s) reqs) = proj s.

Lemma unchanged_ret {A : Type} (a : A) : unchanged proj (mret a).
Proof. intros s. reflexivity. Qed.

Lemma unchanged_raise {A : Type} (k : exn_kind) (msg : string) :
  unchanged proj (@raise A k msg).
Proof. intros s. reflexivity. Qed.

Lemma unchanged_bind {A C : Type} (m : M A) (f : A -> M C) :
  unchanged proj m -> (forall a, unchanged proj (f a)) ->
  unchanged proj (m ≫= f).
Proof.
  intros Hm Hf s. unfold mbind, M_bind. specialize (Hm s).
  destruct (m s) as [[a|e] s']; cbn [snd] in *.
  - rewrite (Hf a s'). exact Hm.
  - exact Hm.
Qed.

Lemma unchanged_try {A : Type} (body : M A) (catches : exn_kind -> bool)
    (handler : exn -> M A) :
  unchanged proj body -> (forall e, unchanged proj (handler e)) ->
  unchanged proj (try_except body catches handler).
Proof.
  intros Hb Hh s. unfold try_except. specialize (Hb s).
  destruct (body s) as [[a|e] s']; cbn [snd] in *; [exact Hb|].
  destruct (catches (kind e)); [rewrite (Hh e s')|]; exact Hb.
Qed.

Lemma unchanged_first_item {A : Type} (l : list A) :
  unchanged proj (first_item l).
Proof. destruct l; [apply unchanged_raise | apply unchanged_ret]. Qed.

Lemma unchanged_attr_of {A : Type} (x : option A) (attr : string) :
  unchanged proj (attr_of x attr).
Proof. destruct x; [apply unchanged_ret | apply unchanged_raise]. Qed.

Lemma unchanged_int_of (m : option nat) (v : pyval) :
  unchanged proj (int_of m v).
Proof.
  destruct v as [|t|z|l]; cbn [int_of]; try apply unchanged_raise;
    try apply unchanged_ret.
  destruct (py_int m t); [apply unchanged_ret | intros s; reflexivity].
Qed.

Lemma unchanged_send (web : request -> response) (r : request) :
  unchanged proj (send web r).
Proof using proj_sent.
  intros s. unfold send. destruct (web r); cbn [snd]; apply proj_sent.
Qed.

(** A call of the logger with a message raises and changes nothing. *)
Lemma unchanged_logger (day gmt5_date : pystr) (self : finder)
    (message : pyval) :
  unchanged proj (logger_log day gmt5_date self [message]).
Proof. intros s. reflexivity. Qed.

End Frame.

Ltac unchanged_step :=
  first
    [ apply unchanged_ret | apply unchanged_raise | apply unchanged_first_item
    | apply unchanged_attr_of | apply unchanged_int_of
    | apply unchanged_logger
    | apply unchanged_send; assumption
    | apply unchanged_bind; [|intros ?]
    | apply unchanged_try; [|intros ?]
    | match goal with
      | |- unchanged _ (if ?b then _ else _) => destruct b
      | |- unchanged _ (match ?x with _ => _ end) => destruct x
      end ].

Section FrameOfLookups.

Context {B : Type} (proj : state -> B).
Hypothesis proj_sent :
  forall s reqs, proj (State (_info s) (log_txt s) reqs) = proj s.

Variable str_lower : pystr -> pystr.
Variable SequenceMatcher_ratio : pystr -> pystr -> Q.
Variable max_str_digits : option nat.
Variable day gmt5_date : pystr.
Variable web : request -> response.
Variable self : finder.

Lemma unchanged_soup_from_url (u : pystr) (session : option unit) :
  unchanged proj (soup_from_url day gmt5_date web self u session).
Proof using proj_sent.
  unfold soup_from_url, raise_for_status. repeat unchanged_step.
  intros s. reflexivity.
Qed.

Lemma unchanged_sign_in :
  unchanged proj (sign_in_to_imdb day gmt5_date web self).
Proof using proj_sent.
  unfold sign_in_to_imdb. cbv zeta.
  apply unchanged_bind; [apply unchanged_soup_from_url | intros ?].
  repeat unchanged_step.
Qed.

Lemma unchanged_year_within_tolerance (year_tag : list pystr)
    (year : pyval) :
  unchanged proj (year_within_tolerance max_str_digits year_tag year).
Proof. unfold year_within_tolerance. repeat unchanged_step. Qed.

Lemma unchanged_refetch (title_tag : list anchor) :
  unchanged proj (refetch day gmt5_date web self title_tag).
Proof using proj_sent.
  unfold refetch. cbv zeta. apply unchanged_bind; [unchanged_step | intros ?].
  apply unchanged_bind; [apply unchanged_soup_from_url | intros ?].
  repeat unchanged_step.
Qed.

Lemma unchanged_scan_possible_movies (movie_name : pystr) (year : pyval)
    (tags : list candidate) (soup0 : soup) (name0 : pystr) :
  unchanged proj
    (scan_possible_movies str_lower max_str_digits day gmt5_date web self
       movie_name year tags soup0 name0).
Proof using proj_sent.
  induction tags as [|tag rest IH]; cbn [scan_possible_movies].
  - apply unchanged_ret.
  - cbv zeta. apply unchanged_bind; [unchanged_step | intros ?].
    apply unchanged_bind; [unchanged_step | intros ?].
    destruct (eqb _ _); [|exact IH].
    apply unchanged_bind; [apply unchanged_year_within_tolerance | intros ok].
    destruct ok; [apply unchanged_refetch | exact IH].
Qed.

End FrameOfLookups.

(** ** The log file *)

Section LogFile.

Variable str_lower : pystr -> pystr.
Variable SequenceMatcher_ratio : pystr -> pystr -> Q.
Variable max_str_digits : option nat.
Variable day gmt5_date : pystr.
Variable web : request -> response.
Variable self : finder.

Lemma log_ignores_sent (s : state) (reqs : list request) :
  log_txt (State (_info s) (log_txt s) reqs) = log_txt s.
Proof. reflexivity. Qed.

Lemma log_filmaffinity (movie_name : pystr) (year : pyval) :
  unchanged log_txt
    (get_useful_information_from_filmaffinity str_lower max_str_digits
       day gmt5_date web self movie_name year).
Proof.
  unfold get_useful_information_from_filmaffinity. cbv zeta.
  apply unchanged_bind; [repeat unchanged_step | intros ?].
  apply unchanged_bind;
    [apply unchanged_soup_from_url, log_ignores_sent | intros soup0].
  apply unchanged_bind.
  - apply unchanged_try; [repeat unchanged_step | intros e].
    apply unchanged_bind; [apply unchanged_logger | intros ?].
    apply unchanged_scan_possible_movies, log_ignores_sent.
  - intros [soup1 name1]. unfold record_from_page. cbv zeta.
    apply unchanged_bind; [unchanged_step | intros ?].
    intros s. reflexivity.
Qed.

Lemma log_examine_item (movie_name original : pystr) (year : pyval)
    (item : list pystr) :
  unchanged log_txt
    (examine_item str_lower SequenceMatcher_ratio day gmt5_date web self
       movie_name original year tt item).
Proof.
  unfold examine_item. cbv zeta.
  apply unchanged_bind; [unchanged_step | intros ?].
  apply unchanged_try.
  - apply unchanged_bind;
      [apply unchanged_soup_from_url, log_ignores_sent | intros ?].
    apply unchanged_bind; [repeat unchanged_step | intros ?].
    apply unchanged_bind; [unchanged_step | intros ?].
    apply unchanged_bind; [unchanged_step | intros ?].
    destruct (_ && _); [|apply unchanged_ret].
    apply unchanged_bind; [unchanged_step | intros ?].
    apply unchanged_bind; [|intros ?; apply unchanged_ret].
    intros s. unfold store_rating.
    destruct (_info s !! movie_name); reflexivity.
  - intros e. repeat unchanged_step.
Qed.

Lemma log_imdb (movie_name original : pystr) (year : pyval) :
  unchanged log_txt
    (get_useful_information_from_imdb str_lower SequenceMatcher_ratio
       day gmt5_date web self movie_name original year).
Proof.
  unfold get_useful_information_from_imdb. cbv zeta.
  apply unchanged_bind;
    [apply unchanged_sign_in, log_ignores_sent | intros []].
  apply unchanged_bind; [repeat unchanged_step | intros ?].
  apply unchanged_bind;
    [apply unchanged_soup_from_url, log_ignores_sent | intros soup].
  induction (result_text soup) as [|item rest IH]; cbn [scan_search_items].
  - apply unchanged_ret.
  - apply unchanged_bind; [apply log_examine_item | intros f].
    destruct f; [exact IH | apply unchanged_ret].
Qed.

Lemma log_complete_each (items : list (pystr * pyval)) :
  unchanged log_txt
    (complete_each str_lower SequenceMatcher_ratio max_str_digits
       day gmt5_date web self items).
Proof.
  induction items as [|[movie year] rest IH]; cbn [complete_each].
  - apply unchanged_ret.
  - apply unchanged_bind; [apply log_filmaffinity | intros ?].
    apply unchanged_bind; [|intros ?].
    { intros s. unfold original_name_of.
      destruct (_info s !! movie) as [d|]; [|reflexivity].
      destruct (d !! "original name") as [[| | |]|]; reflexivity. }
    apply unchanged_bind; [apply log_imdb | intros ?]. exact IH.
Qed.

(** X18: nothing is ever written to the log file: after
    [complete_information], and after either lookup alone, the text
    appended to [log.txt] is what it was before, whatever the pages, the
    queries and the outcome of the run. *)
Theorem log_file_is_never_written (verbose : bool) (movie_name original :
    pystr) (year : pyval) (s : state) :
  log_txt (snd (complete_information str_lower SequenceMatcher_ratio
                  max_str_digits day gmt5_date web self verbose s))
  = log_txt s
  /\ log_txt (snd (get_useful_information_from_filmaffinity str_lower
                     max_str_digits day gmt5_date web self movie_name year s))
     = log_txt s
  /\ log_txt (snd (get_useful_information_from_imdb str_lower
                     SequenceMatcher_ratio day gmt5_date web self
                     movie_name original year s))
     = log_txt s.
Proof.
  split; [|split].
  - unfold complete_information. unfold mbind at 1, M_bind at 1.
    rewrite log_complete_each. reflexivity.
  - apply log_filmaffinity.
  - apply log_imdb.
Qed.

End LogFile.

(** ** What the lookups do to the records *)

Lemma info_ignores_sent (s : state) (reqs : list request) :
  _info (State (_info s) (log_txt s) reqs) = _info s.
Proof. reflexivity. Qed.

(** After a step that leaves the records alone, what is to be shown of the
    whole is to be shown of its continuation. *)
Lemma bind_post {A C : Type} (I : gmap (list N) (gmap string pyval))
    (m : M A) (k : A -> M C) (Q : result C * state -> Prop) (s : state) :
  unchanged _info m -> _info s = I ->
  (forall e s1, _info s1 = I -> Q (Raise e, s1)) ->
  (forall a s1, _info s1 = I -> Q (k a s1)) ->
  Q ((m ≫= k) s).
Proof.
  intros Hm HI Hraise Hok. unfold mbind, M_bind. specialize (Hm s).
  destruct (m s) as [[a|e] s1]; cbn [snd] in Hm.
  - apply Hok. congruence.
  - apply Hraise. congruence.
Qed.

Lemma page_record_keys (n : Z) (year : pyval) (doc : soup)
    (name desc : pystr) :
  dom (page_record n year doc name desc) = record_keys.
Proof.
  unfold page_record, record_keys. cbv zeta.
  rewrite !dom_insert_L, dom_empty_L. cbn [list_to_set foldr].
  apply set_eq. intros k.
  rewrite !elem_of_union, !elem_of_singleton, elem_of_empty. tauto.
Qed.

Lemma ends_with_period (t : pystr) :
  endswith (lit ".")
    (t ++ if negb (endswith (lit ".") t) then lit "." else []) = true.
Proof.
  destruct (endswith (lit ".") t) eqn:E; cbn [negb].
  - rewrite app_nil_r. exact E.
  - unfold endswith. rewrite rev_app_distr. reflexivity.
Qed.

Section Records.

Variable str_lower : pystr -> pystr.
Variable SequenceMatcher_ratio : pystr -> pystr -> Q.
Variable max_str_digits : option nat.
Variable day gmt5_date : pystr.
Variable web : request -> response.
Variable self : finder.

Local Abbreviation resolve :=
  (get_useful_information_from_filmaffinity str_lower max_str_digits
     day gmt5_date web self).
Local Abbreviation rate :=
  (get_useful_information_from_imdb str_lower SequenceMatcher_ratio
     day gmt5_date web self).

(** The first lookup stores once, at its end, and only when it returns. *)
Lemma filmaffinity_outcome (movie_name : pystr) (year : pyval) (s : state) :
  (exists e, fst (resolve movie_name year s) = Raise e
             /\ _info (snd (resolve movie_name year s)) = _info s)
  \/ (fst (resolve movie_name year s) = Ok tt
      /\ exists doc name desc,
           description doc = Some desc
           /\ _info (snd (resolve movie_name year s))
              = <[movie_name :=
                    page_record (number_critics self) year doc name desc]>
                  (_info s)).
Proof.
  set (Q := fun r : result unit * state =>
              (exists e, fst r = Raise e /\ _info (snd r) = _info s)
              \/ (fst r = Ok tt
                  /\ exists doc name desc,
                       description doc = Some desc
                       /\ _info (snd r)
                          = <[movie_name :=
                                page_record (number_critics self) year doc
                                  name desc]> (_info s))).
  change (Q (resolve movie_name year s)).
  assert (Hraise : forall e s1, _info s1 = _info s -> Q (Raise e, s1)).
  { intros e s1 H1. left. exists e. split; [reflexivity | exact H1]. }
  unfold get_useful_information_from_filmaffinity. cbv zeta.
  apply (bind_post (_info s)); [repeat unchanged_step | reflexivity
                                | exact Hraise | intros parsed s1 H1].
  apply (bind_post (_info s));
    [apply unchanged_soup_from_url, info_ignores_sent | exact H1
    | exact Hraise | intros soup0 s2 H2].
  apply (bind_post (_info s)); [| exact H2 | exact Hraise |].
  - apply unchanged_try; [repeat unchanged_step | intros e].
    apply unchanged_bind; [apply unchanged_logger | intros ?].
    apply unchanged_scan_possible_movies, info_ignores_sent.
  - intros [soup1 name1] s3 H3.
    destruct (description soup1) as [desc|] eqn:Hdesc.
    + rewrite (record_from_page_ok self _ _ _ _ _ _ Hdesc).
      right. split; [reflexivity|]. exists soup1, name1, desc.
      split; [exact Hdesc|]. cbn [snd _info]. rewrite H3. reflexivity.
    + unfold record_from_page. cbv zeta. unfold mbind, M_bind.
      rewrite Hdesc. apply Hraise. exact H3.
Qed.

(** X19: the first lookup is all or nothing on the records: when it
    raises, [self._info] is as it was; when it returns, the record of its
    own title has been replaced by the one read from a detail page with a
    synopsis, and the record of every other title is as it was. *)
Theorem filmaffinity_stores_on_success_only (movie_name : pystr)
    (year : pyval) (s : state) :
  (forall e,
     fst (resolve movie_name year s) = Raise e ->
     _info (snd (resolve movie_name year s)) = _info s)
  /\ (fst (resolve movie_name year s) = Ok tt ->
      exists doc name desc,
        description doc = Some desc
        /\ _info (snd (resolve movie_name year s))
           = <[movie_name :=
                 page_record (number_critics self) year doc name desc]>
               (_info s))
  /\ (forall other,
        other <> movie_name ->
        _info (snd (resolve movie_name year s)) !! other
        = _info s !! other).
Proof.
  destruct (filmaffinity_outcome movie_name year s)
    as [(e & He & Hi) | (Hok & doc & name & desc & Hd & Hi)].
  - split; [intros; exact Hi|]. split; [rewrite He; discriminate|].
    intros other _. rewrite Hi. reflexivity.
  - split; [rewrite Hok; discriminate|]. split; [eauto|].
    intros other Hne. rewrite Hi. apply lookup_insert_ne. congruence.
Qed.

(** X20: the record that a returning first lookup stores has exactly the
    five keys; it gives back the year of the query under "year", [None]
    under "imdb_rating", a synopsis that ends with a period, and an
    original name without white space at its ends. *)
Theorem stored_record_shape (movie_name : pystr) (year : pyval) (s : state) :
  fst (resolve movie_name year s) = Ok tt ->
  exists d synopsis name,
    _info (snd (resolve movie_name year s)) !! movie_name = Some d
    /\ dom d = record_keys
    /\ d !! "year" = Some year
    /\ d !! "imdb_rating" = Some PNone
    /\ d !! "synopsis" = Some (PStr synopsis)
    /\ endswith (lit ".") synopsis = true
    /\ d !! "original name" = Some (PStr name)
    /\ strip name = name.
Proof.
  intros Hok.
  destruct (filmaffinity_outcome movie_name year s)
    as [(e & He & _) | (_ & doc & name & desc & Hd & Hi)];
    [rewrite He in Hok; discriminate|].
  eexists _, _, _. rewrite Hi, lookup_insert_eq.
  split; [reflexivity|]. split; [apply page_record_keys|].
  unfold page_record. cbv zeta.
  split; [rewrite !lookup_insert_ne by discriminate; apply lookup_insert_eq|].
  split; [apply lookup_insert_eq|].
  split; [rewrite !lookup_insert_ne by discriminate; apply lookup_insert_eq|].
  split; [apply ends_with_period|].
  split; [rewrite !lookup_insert_ne by discriminate; apply lookup_insert_eq|].
  apply strip_clean_string.
Qed.

End Records.

Lemma stored_record_shape_witness :
  exists d synopsis name,
    _info (snd (get_useful_information_from_filmaffinity ascii_lower
                  (Some 4300%nat) Demo.day Demo.gmt5_date Demo.web
                  (Demo.finder_of []) (lit "Example Movie") (PInt 2020)
                  initial_state)) !! lit "Example Movie" = Some d
    /\ dom d = record_keys
    /\ d !! "year" = Some (PInt 2020)
    /\ d !! "imdb_rating" = Some PNone
    /\ d !! "synopsis" = Some (PStr synopsis)
    /\ endswith (lit ".") synopsis = true
    /\ d !! "original name" = Some (PStr name)
    /\ strip name = name.
Proof.
  apply (stored_record_shape ascii_lower (Some 4300%nat) Demo.day
           Demo.gmt5_date Demo.web (Demo.finder_of [])
           (lit "Example Movie") (PInt 2020) initial_state).
  vm_compute. reflexivity.
Defined.

Lemma filmaffinity_stores_on_success_only_witness :
  _info (snd (get_useful_information_from_filmaffinity ascii_lower
                (Some 4300%nat) Demo.day Demo.gmt5_date Demo.web
                (Demo.finder_of []) (lit "Untold") (PInt 2020)
                (State (<[lit "Example Movie" := ∅]> ∅) [] [])))
  = _info (State (<[lit "Example Movie" := ∅]> ∅) [] [])
  /\ _info (snd (get_useful_information_from_filmaffinity ascii_lower
                   (Some 4300%nat) Demo.day Demo.gmt5_date Demo.web
                   (Demo.finder_of []) (lit "Reviewed") (PInt 2020)
                   (State (<[lit "Example Movie" := ∅]> ∅) [] [])))
       !! lit "Example Movie"
     = _info (State (<[lit "Example Movie" := ∅]> ∅) [] [])
         !! lit "Example Movie".
Proof.
  split.
  - destruct (filmaffinity_stores_on_success_only ascii_lower (Some 4300%nat)
                Demo.day Demo.gmt5_date Demo.web (Demo.finder_of [])
                (lit "Untold") (PInt 2020)
                (State (<[lit "Example Movie" := ∅]> ∅) [] []))
      as (Hraise & _ & _).
    apply (Hraise (Exn AttributeError
                     (lit "'NoneType' object has no attribute 'text'"))).
    vm_compute. reflexivity.
  - destruct (filmaffinity_stores_on_success_only ascii_lower (Some 4300%nat)
                Demo.day Demo.gmt5_date Demo.web (Demo.finder_of [])
                (lit "Reviewed") (PInt 2020)
                (State (<[lit "Example Movie" := ∅]> ∅) [] []))
      as (_ & _ & Hother).
    apply Hother. discriminate.
Defined.

Section Ratings.

Variable str_lower : pystr -> pystr.
Variable SequenceMatcher_ratio : pystr -> pystr -> Q.
Variable max_str_digits : option nat.
Variable day gmt5_date : pystr.
Variable web : request -> response.
Variable self : finder.
Variable movie_name : pystr.
Variable original : pystr.
Variable year : pyval.

Local Abbreviation rate :=
  (get_useful_information_from_imdb str_lower SequenceMatcher_ratio
     day gmt5_date web self movie_name original year).
Local Abbreviation examine :=
  (examine_item str_lower SequenceMatcher_ratio day gmt5_date web self
     movie_name original year tt).
Local Abbreviation scan :=
  (scan_search_items str_lower SequenceMatcher_ratio day gmt5_date web self
     movie_name original year tt).

(** The records after a step are those before it, [I], or those with a
    rating put into the record of [movie_name], in which case the step
    returned [done]. *)
Local Abbreviation rated_or_same I done r :=
  (_info (snd r) = I
   \/ (fst r = Ok done
       /\ exists rating d,
            I !! movie_name = Some d
            /\ _info (snd r)
               = <[movie_name := <["imdb_rating" := PStr rating]> d]> I)).

Lemma try_logged_post (I : gmap (list N) (gmap string pyval))
    (body : M flow) (s1 : state) :
  rated_or_same I Return (body s1) ->
  rated_or_same I Return
    (try_except body any_exception
       (fun e => logger_log day gmt5_date self [PStr (str_of e)];;
                 mret Continue) s1).
Proof.
  unfold try_except. destruct (body s1) as [[f|e] s2]; intros H.
  - exact H.
  - destruct H as [H | [H _]]; [left; exact H | discriminate H].
Qed.

Lemma examine_outcome (item : list pystr) (s : state) :
  rated_or_same (_info s) Return (examine item s).
Proof.
  set (I := _info s).
  set (Q := fun r : result flow * state => rated_or_same I Return r).
  change (Q (examine item s)).
  assert (Hraise : forall e s1, _info s1 = I -> Q (Raise e, s1)).
  { intros e s1 H1. left. exact H1. }
  unfold examine_item. cbv zeta.
  apply (bind_post I); [unchanged_step | reflexivity | exact Hraise
                        | intros link s1 H1].
  apply try_logged_post.
  match goal with
  | |- _info (snd (?body s1)) = _ \/ _ => change (Q (body s1))
  end.
  apply (bind_post I);
    [apply unchanged_soup_from_url, info_ignores_sent | exact H1
    | exact Hraise | intros soup s2 H2].
  apply (bind_post I); [repeat unchanged_step | exact H2 | exact Hraise
                        | intros name s3 H3].
  apply (bind_post I); [unchanged_step | exact H3 | exact Hraise
                        | intros links s4 H4].
  apply (bind_post I); [unchanged_step | exact H4 | exact Hraise
                        | intros text s5 H5].
  destruct (_ && _); [|left; exact H5].
  apply (bind_post I); [unchanged_step | exact H5 | exact Hraise
                        | intros rating s6 H6].
  unfold mbind, M_bind, store_rating.
  destruct (_info s6 !! movie_name) as [d|] eqn:Hd.
  - right. split; [reflexivity|]. exists (strip rating), d.
    rewrite <- H6. split; [exact Hd | reflexivity].
  - left. exact H6.
Qed.

Lemma scan_outcome (items : list (list pystr)) (s : state) :
  rated_or_same (_info s) tt (scan items s).
Proof.
  set (I := _info s). assert (HI : _info s = I) by reflexivity.
  clearbody I. revert s HI.
  induction items as [|item rest IH]; intros s HI.
  - left. exact HI.
  - assert (Hstep : scan (item :: rest) s
                    = match examine item s with
                      | (Ok Continue, s') => scan rest s'
                      | (Ok Return, s') => (Ok tt, s')
                      | (Raise e, s') => (Raise e, s')
                      end).
    { cbn [scan_search_items]. unfold mbind at 1, M_bind at 1.
      destruct (examine item s) as [[[|]|e] s']; reflexivity. }
    rewrite Hstep.
    pose proof (examine_outcome item s) as He. rewrite HI in He.
    destruct (examine item s) as [[[|]|e] s1]; cbn [fst snd] in He.
    + destruct He as [H | [H _]]; [apply IH, H | discriminate H].
    + destruct He as [H | [_ H]]; [left; exact H|].
      right. split; [reflexivity | exact H].
    + destruct He as [H | [H _]]; [left; exact H | discriminate H].
Qed.

Lemma imdb_outcome (s : state) : rated_or_same (_info s) tt (rate s).
Proof.
  set (I := _info s).
  set (Q := fun r : result unit * state => rated_or_same I tt r).
  change (Q (rate s)).
  assert (Hraise : forall e s1, _info s1 = I -> Q (Raise e, s1)).
  { intros e s1 H1. left. exact H1. }
  unfold get_useful_information_from_imdb. cbv zeta.
  apply (bind_post I); [apply unchanged_sign_in, info_ignores_sent
                        | reflexivity | exact Hraise | intros [] s1 H1].
  apply (bind_post I); [repeat unchanged_step | exact H1 | exact Hraise
                        | intros parsed s2 H2].
  apply (bind_post I); [apply unchanged_soup_from_url, info_ignores_sent
                        | exact H2 | exact Hraise | intros soup s3 H3].
  unfold Q. rewrite <- H3. apply scan_outcome.
Qed.

Lemma rating_key_in_record (d : gmap string pyval) (v : pyval) :
  dom d = record_keys -> dom (<["imdb_rating" := v]> d) = record_keys.
Proof.
  intros H. rewrite dom_insert_L, H. apply subseteq_union_1_L.
  apply singleton_subseteq_l. unfold record_keys.
  apply elem_of_list_to_set. repeat constructor.
Qed.

(** X21: the second lookup touches nothing but the rating: after it the
    records are as before, or - and then it returned - the record of its
    own title has a text put under "imdb_rating".  So it never changes
    the record of another title, never another key of its own record, and
    leaves the records as they were when it raises. *)
Theorem imdb_changes_only_the_rating (s : state) :
  rated_or_same (_info s) tt (rate s)
  /\ (forall other,
        other <> movie_name ->
        _info (snd (rate s)) !! other = _info s !! other)
  /\ (forall key,
        key <> "imdb_rating" ->
        (_info (snd (rate s)) !! movie_name)
          ≫= (fun d : gmap string pyval => d !! key)
        = (_info s !! movie_name)
            ≫= (fun d : gmap string pyval => d !! key))
  /\ (forall e, fst (rate s) = Raise e -> _info (snd (rate s)) = _info s).
Proof.
  pose proof (imdb_outcome s) as H. split; [exact H|].
  destruct H as [H | (Hok & rating & d & Hd & H)].
  - rewrite H. repeat split; reflexivity.
  - rewrite H. split; [|split].
    + intros other Hne. apply lookup_insert_ne. congruence.
    + intros key Hne. rewrite lookup_insert_eq, Hd. cbn [mbind option_bind].
      apply lookup_insert_ne. congruence.
    + intros e He. rewrite Hok in He. discriminate He.
Qed.

(** A title with a full record keeps one through the second lookup. *)
Lemma rate_keeps_full_record (s : state) (title : pystr) :
  has_full_record s title -> has_full_record (snd (rate s)) title.
Proof.
  intros (d0 & Hd0 & Hfull). unfold has_full_record.
  destruct (imdb_outcome s) as [H | (_ & rating & d & Hd & H)]; rewrite H.
  - exists d0. split; assumption.
  - destruct (decide (title = movie_name)) as [-> | Hne].
    + rewrite lookup_insert_eq. eexists. split; [reflexivity|].
      apply rating_key_in_record. congruence.
    + rewrite lookup_insert_ne by congruence. exists d0. split; assumption.
Qed.

End Ratings.

Lemma imdb_changes_only_the_rating_witness :
  _info (snd (get_useful_information_from_imdb ascii_lower Demo.no_ratio
                Demo.day Demo.gmt5_date Demo.web (Demo.finder_of [])
                (lit "Example Movie") (lit "original example")
                (PStr (lit "2020"))
                (State (<[lit "Reviewed" := ∅]>
                          (<[lit "Example Movie" := ∅]> ∅)) [] [])))
    !! lit "Reviewed"
  = _info (State (<[lit "Reviewed" := ∅]>
                    (<[lit "Example Movie" := ∅]> ∅)) [] [])
      !! lit "Reviewed".
Proof.
  destruct (imdb_changes_only_the_rating ascii_lower Demo.no_ratio Demo.day
              Demo.gmt5_date Demo.web (Demo.finder_of [])
              (lit "Example Movie") (lit "original example")
              (PStr (lit "2020"))
              (State (<[lit "Reviewed" := ∅]>
                        (<[lit "Example Movie" := ∅]> ∅)) [] []))
    as (_ & Hother & _).
  apply Hother. discriminate.
Defined.

(** ** A run that completes *)

Section CompletedRun.

Variable str_lower : pystr -> pystr.
Variable SequenceMatcher_ratio : pystr -> pystr -> Q.
Variable max_str_digits : option nat.
Variable day gmt5_date : pystr.
Variable web : request -> response.
Variable self : finder.

Local Abbreviation resolve :=
  (get_useful_information_from_filmaffinity str_lower max_str_digits
     day gmt5_date web self).
Local Abbreviation rate :=
  (get_useful_information_from_imdb str_lower SequenceMatcher_ratio
     day gmt5_date web self).
Local Abbreviation each :=
  (complete_each str_lower SequenceMatcher_ratio max_str_digits
     day gmt5_date web self).

Lemma resolve_gives_full_record (movie_name : pystr) (year : pyval)
    (s : state) :
  fst (resolve movie_name year s) = Ok tt ->
  has_full_record (snd (resolve movie_name year s)) movie_name
  /\ (forall title,
        has_full_record s title ->
        has_full_record (snd (resolve movie_name year s)) title).
Proof.
  intros Hok.
  destruct (filmaffinity_outcome str_lower max_str_digits day gmt5_date web
              self movie_name year s)
    as [(e & He & _) | (_ & doc & name & desc & _ & Hi)];
    [rewrite He in Hok; discriminate|].
  unfold has_full_record. rewrite Hi. split.
  - rewrite lookup_insert_eq. eexists. split; [reflexivity|].
    apply page_record_keys.
  - intros title (d & Hd & Hfull).
    destruct (decide (title = movie_name)) as [-> | Hne].
    + rewrite lookup_insert_eq. eexists. split; [reflexivity|].
      apply page_record_keys.
    + rewrite lookup_insert_ne by congruence. exists d. split; assumption.
Qed.

Lemma complete_each_full (items : list (pystr * pyval)) (s : state) :
  fst (each items s) = Ok tt ->
  (forall title,
     has_full_record s title -> has_full_record (snd (each items s)) title)
  /\ (forall title,
        In title (List.map fst items) ->
        has_full_record (snd (each items s)) title).
Proof.
  revert s. induction items as [|[movie year] rest IH]; intros s Hok.
  - split; [intros title H; exact H | intros title []].
  - assert (Hstep :
        each ((movie, year) :: rest) s
        = match resolve movie year s with
          | (Ok _, s1) =>
              match original_name_of str_lower movie s1 with
              | (Ok name, s2) =>
                  match rate movie name year s2 with
                  | (Ok _, s3) => each rest s3
                  | (Raise e, s3) => (Raise e, s3)
                  end
              | (Raise e, s2) => (Raise e, s2)
              end
          | (Raise e, s1) => (Raise e, s1)
          end).
    { cbn [complete_each]. unfold mbind, M_bind.
      destruct (resolve movie year s) as [[[]|e] s1]; [|reflexivity].
      destruct (original_name_of str_lower movie s1) as [[name|e] s2];
        [|reflexivity].
      destruct (rate movie name year s2) as [[[]|e] s3]; reflexivity. }
    rewrite Hstep in Hok |- *.
    pose proof (resolve_gives_full_record movie year s) as Hres.
    destruct (resolve movie year s) as [[[]|e] s1]; [|discriminate Hok].
    destruct (Hres eq_refl) as [Hown Hkeep]. cbn [snd] in Hown, Hkeep.
    assert (Hname : snd (original_name_of str_lower movie s1) = s1).
    { unfold original_name_of.
      destruct (_info s1 !! movie) as [d|]; [|reflexivity].
      destruct (d !! "original name") as [[| | |]|]; reflexivity. }
    destruct (original_name_of str_lower movie s1) as [[name|e] s2];
      [|discriminate Hok].
    cbn [snd] in Hname. subst s2.
    pose proof (rate_keeps_full_record str_lower SequenceMatcher_ratio
                  day gmt5_date web self movie name year s1) as Hrate.
    destruct (rate movie name year s1) as [[[]|e] s3]; [|discriminate Hok].
    cbn [snd] in Hrate.
    destruct (IH s3 Hok) as [IHkeep IHnew]. split.
    + intros title H. apply IHkeep, Hrate, Hkeep, H.
    + intros title [<- | Hin].
      * apply IHkeep, Hrate, Hown.
      * apply IHnew, Hin.
Qed.

(** X22: when [complete_information] returns, every display title of the
    input has a complete record: one with exactly the keys "original
    name", "year", "synopsis", "critics" and "imdb_rating". *)
Theorem completed_run_has_full_records (verbose : bool) (s : state)
    (title : pystr) :
  fst (complete_information str_lower SequenceMatcher_ratio max_str_digits
         day gmt5_date web self verbose s) = Ok tt ->
  In title (List.map fst (movies self)) ->
  has_full_record
    (snd (complete_information str_lower SequenceMatcher_ratio
            max_str_digits day gmt5_date web self verbose s)) title.
Proof.
  unfold complete_information. unfold mbind, M_bind. cbn beta iota.
  intros Hok Hin. apply complete_each_full; assumption.
Qed.

End CompletedRun.

Lemma completed_run_has_full_records_witness :
  has_full_record
    (snd (complete_information ascii_lower Demo.no_ratio (Some 4300%nat)
            Demo.day Demo.gmt5_date Demo.web
            (Demo.finder_of [(lit "Example Movie", PStr (lit "2020"))])
            false initial_state))
    (lit "Example Movie").
Proof.
  apply (completed_run_has_full_records ascii_lower Demo.no_ratio
           (Some 4300%nat) Demo.day Demo.gmt5_date Demo.web
           (Demo.finder_of [(lit "Example Movie", PStr (lit "2020"))])
           false initial_state (lit "Example Movie")).
  - vm_compute. reflexivity.
  - left. reflexivity.
Defined.

Lemma clean_string_is_stripped_witness :
  clean_string (lit "  'Up' (FILMAFFINITY)") = 0x55 :: lit "p"
  /\ isspace 0x55 = false.
Proof.
  split; [vm_compute; reflexivity|].
  apply (proj1 (proj2 (clean_string_is_stripped
                         (lit "  'Up' (FILMAFFINITY)"))) 0x55 (lit "p")).
  vm_compute. reflexivity.
Defined.

(** ** The disambiguation fallback inside the lookup *)

Section FallbackReach.

Variable str_lower : pystr -> pystr.
Variable max_str_digits : option nat.
Variable day gmt5_date : pystr.
Variable web : request -> response.
Variable self : finder.
Variable movie_name : pystr.
Variable year : pyval.
Variable Y : Z.
Hypothesis year_is_Y : query_year max_str_digits year = Some Y.

Local Abbreviation resolve :=
  (get_useful_information_from_filmaffinity str_lower max_str_digits
     day gmt5_date web self).
Local Abbreviation scan :=
  (scan_possible_movies str_lower max_str_digits day gmt5_date web self
     movie_name year).
Local Abbreviation search :=
  (Request GET (filmaffinity_search_url str_lower movie_name) false).

Lemma scan_all_passed_over (tags rest : list candidate) (soup0 : soup)
    (name0 : pystr) (s : state) :
  forallb (passed_over str_lower max_str_digits movie_name Y) tags = true ->
  scan (tags ++ rest) soup0 name0 s = scan rest soup0 name0 s.
Proof using year_is_Y.
  induction tags as [|b tags IH]; intros Hb; [reflexivity|].
  cbn [forallb] in Hb. apply andb_true_iff in Hb as [Hb1 Hb2].
  cbn [app].
  rewrite (scan_passed_over str_lower max_str_digits day gmt5_date web self
             movie_name year Y year_is_Y b _ soup0 name0 s Hb1).
  exact (IH Hb2).
Qed.

Lemma refetch_ok (a : anchor) (others : list anchor) (detail : soup)
    (text : pystr) (texts : list pystr) (s : state) :
  web (Request GET (href a) false) = Response None detail ->
  movie_info detail = text :: texts ->
  refetch day gmt5_date web self (a :: others) s
  = (Ok (detail, strip text),
     State (_info s) (log_txt s) (sent s ++ [Request GET (href a) false])).
Proof.
  intros Hweb Hinfo. unfold refetch. cbn [first_item].
  unfold mbind at 1, M_bind at 1. cbn [mret M_ret].
  unfold mbind at 1, M_bind at 1.
  rewrite (soup_from_url_ok day gmt5_date web self _ None detail s Hweb).
  rewrite Hinfo. reflexivity.
Qed.

(** C4: the loop of lines 135-154 applies the year tolerance - entries with
    another title, or with the title and a listed year outside
    [Y - 1 .. Y + 1], are passed over without a request, and the first
    entry with the title and a listed year in [Y - 1 .. Y + 1] has its
    detail page requested and the original name read from it - but the
    lookup never gets to it: on the search page that the loop is for (one
    without a "movie-info" block) the call of the logger at line 129
    raises [TypeError], and the lookup ends with the one search request
    sent, the detail page of the entry not requested and no record
    stored. *)
Theorem disambiguation_fallback_never_reached (doc detail : soup)
    (before rest : list candidate) (c : candidate) (a : anchor)
    (others : list anchor) (text : pystr) (texts : list pystr) (s : state) :
  web search = Response None doc ->
  movie_info doc = [] ->
  se_it_mt doc = before ++ c :: rest ->
  forallb (passed_over str_lower max_str_digits movie_name Y) before = true ->
  accepted str_lower max_str_digits movie_name Y c = true ->
  anchors c = a :: others ->
  web (Request GET (href a) false) = Response None detail ->
  movie_info detail = text :: texts ->
  scan (se_it_mt doc) doc []
    (State (_info s) (log_txt s) (sent s ++ [search]))
  = (Ok (detail, strip text),
     State (_info s) (log_txt s)
       ((sent s ++ [search]) ++ [Request GET (href a) false]))
  /\ scan before doc [] s = (Ok (doc, []), s)
  /\ resolve movie_name year s
     = (Raise logger_refusal,
        State (_info s) (log_txt s) (sent s ++ [search])).
Proof using year_is_Y.
  intros Hweb Hinfo Hlist Hbefore Hc Ha Hdetail Htext.
  split; [|split].
  - rewrite Hlist, (scan_all_passed_over before _ _ _ _ Hbefore).
    rewrite (scan_accepted str_lower max_str_digits day gmt5_date web self
               movie_name year Y year_is_Y c rest doc [] _ Hc).
    rewrite Ha. exact (refetch_ok a others detail text texts _ Hdetail Htext).
  - rewrite <- (app_nil_r before) at 1.
    rewrite (scan_all_passed_over before [] _ _ _ Hbefore). reflexivity.
  - unfold get_useful_information_from_filmaffinity. cbv zeta.
    rewrite parsed_name_is_query
      by (rewrite length_map; apply split_nonempty).
    unfold filmaffinity_search_url in Hweb.
    unfold mbind at 1, M_bind at 1. cbn [mret M_ret].
    unfold mbind at 1, M_bind at 1.
    rewrite (soup_from_url_ok day gmt5_date web self _ None doc s Hweb).
    unfold mbind at 1, M_bind at 1. unfold try_except.
    rewrite Hinfo. reflexivity.
Qed.

End FallbackReach.

Lemma disambiguation_fallback_never_reached_witness :
  scan_possible_movies ascii_lower (Some 4300%nat) Demo.day Demo.gmt5_date
    Demo.web (Demo.finder_of []) (lit "Up") (PStr (lit "2009"))
    [Demo.other_title; Demo.two_years_off; Demo.one_year_off; Demo.same_year]
    Demo.ambiguous []
    (State ∅ []
       [Request GET (filmaffinity_search_url ascii_lower (lit "Up")) false])
  = (Ok (Demo.detail (lit "Up (2010)") (Some (lit "Balloons")) [],
         lit "Up (2010)"),
     State ∅ []
       [Request GET (filmaffinity_search_url ascii_lower (lit "Up")) false;
        Request GET (lit "https://www.filmaffinity.com/film100.html") false])
  /\ get_useful_information_from_filmaffinity ascii_lower (Some 4300%nat)
       Demo.day Demo.gmt5_date Demo.web (Demo.finder_of [])
       (lit "Up") (PStr (lit "2009")) initial_state
     = (Raise logger_refusal,
        State ∅ []
          [Request GET (filmaffinity_search_url ascii_lower (lit "Up"))
             false]).
Proof.
  pose proof (disambiguation_fallback_never_reached ascii_lower
                (Some 4300%nat) Demo.day Demo.gmt5_date Demo.web
                (Demo.finder_of []) (lit "Up") (PStr (lit "2009")) 2009%Z
                eq_refl Demo.ambiguous
                (Demo.detail (lit "Up (2010)") (Some (lit "Balloons")) [])
                [Demo.other_title; Demo.two_years_off] [Demo.same_year]
                Demo.one_year_off
                (Anchor (lit "https://www.filmaffinity.com/film100.html")
                   (Some (lit " UP ")))
                [] (lit "Up (2010)") [] initial_state
                eq_refl eq_refl eq_refl eq_refl eq_refl eq_refl eq_refl
                eq_refl) as (Hloop & _ & Hlookup).
  split; [exact Hloop | exact Hlookup].
Defined.

(** ** The cross-source scan with the year given as a number *)

Section NumericYear.

Variable str_lower : pystr -> pystr.
Variable SequenceMatcher_ratio : pystr -> pystr -> Q.
Variable day gmt5_date : pystr.
Variable web : request -> response.
Variable self : finder.
Variable movie_name : pystr.
Variable canonical_title : pystr.

Local Abbreviation scan :=
  (scan_search_items str_lower SequenceMatcher_ratio day gmt5_date web self
     movie_name canonical_title).
Local Abbreviation rate :=
  (get_useful_information_from_imdb str_lower SequenceMatcher_ratio
     day gmt5_date web self movie_name canonical_title).

Lemma info_examine_numeric (n : Z) (item : list pystr) :
  unchanged _info
    (examine_item str_lower SequenceMatcher_ratio day gmt5_date web self
       movie_name canonical_title (PInt n) tt item).
Proof.
  unfold examine_item. cbv zeta.
  apply unchanged_bind; [unchanged_step | intros ?].
  apply unchanged_try.
  - apply unchanged_bind;
      [apply unchanged_soup_from_url, info_ignores_sent | intros ?].
    apply unchanged_bind; [repeat unchanged_step | intros ?].
    apply unchanged_bind; [unchanged_step | intros ?].
    apply unchanged_bind; [unchanged_step | intros ?].
    cbn [str_eq]. rewrite andb_false_r. apply unchanged_ret.
  - intros e. repeat unchanged_step.
Qed.

Lemma info_imdb_numeric (n : Z) : unchanged _info (rate (PInt n)).
Proof.
  unfold get_useful_information_from_imdb. cbv zeta.
  apply unchanged_bind;
    [apply unchanged_sign_in, info_ignores_sent | intros []].
  apply unchanged_bind; [repeat unchanged_step | intros ?].
  apply unchanged_bind;
    [apply unchanged_soup_from_url, info_ignores_sent | intros soup].
  induction (result_text soup) as [|item rest IH]; cbn [scan_search_items].
  - apply unchanged_ret.
  - apply unchanged_bind; [apply info_examine_numeric | intros f].
    destruct f; [exact IH | apply unchanged_ret].
Qed.

(** C8: with the year of the query a number - as the driver script passes
    it - no entry is ever accepted.  An entry whose page shows a title and
    a year is left and the scan goes on, also when the title is accurate
    and the year on the page is that number in decimal; so the whole
    lookup stores no rating, whatever the pages.  The same entry is
    accepted, its rating stored and the scan ended, when the year of the
    query is the text shown on the page. *)
Theorem matcher_never_accepts_numeric_year (n : Z) :
  (forall item rest s doc t y,
     entry_page web item = Some doc ->
     page_title str_lower doc = Some t ->
     page_year doc = Some y ->
     scan (PInt n) tt (item :: rest) s
     = scan (PInt n) tt rest
         (State (_info s) (log_txt s) (sent s ++ [entry_request item])))
  /\ (forall s, _info (snd (rate (PInt n) s)) = _info s)
  /\ (forall item rest s doc t y r d,
        entry_page web item = Some doc ->
        page_title str_lower doc = Some t ->
        page_year doc = Some y ->
        title_is_accurate SequenceMatcher_ratio t canonical_title true
          = true ->
        ratingValue doc = Some r ->
        _info s !! movie_name = Some d ->
        scan (PStr y) tt (item :: rest) s
        = (Ok tt,
           State (<[movie_name := <["imdb_rating" := PStr (strip r)]> d]>
                    (_info s))
             (log_txt s) (sent s ++ [entry_request item]))).
Proof.
  split; [|split].
  - intros item rest s doc t y Hpage Ht Hy.
    apply scan_entry_fails. unfold entry_fails_test, acceptance_test.
    rewrite Hpage, Ht, Hy. cbn [str_eq]. rewrite andb_false_r. reflexivity.
  - apply info_imdb_numeric.
  - intros item rest s doc t y r d Hpage Ht Hy Hacc Hr Hd.
    apply (scan_entry_passes str_lower SequenceMatcher_ratio day gmt5_date
             web self movie_name canonical_title (PStr y) item rest s doc
             t y r d Hpage Ht Hy Hacc); [|exact Hr | exact Hd].
    cbn [str_eq]. apply bool_decide_eq_true_2. reflexivity.
Qed.

End NumericYear.

Lemma matcher_never_accepts_numeric_year_witness :
  scan_search_items ascii_lower Demo.no_ratio Demo.day Demo.gmt5_date Demo.web
    (Demo.finder_of []) (lit "Example Movie") (lit "original example")
    (PInt 2020) tt [[lit "/title/tt003/"]]
    (State (<[lit "Example Movie" := ∅]> ∅) [] [])
  = (Ok tt,
     State (<[lit "Example Movie" := ∅]> ∅) []
       [entry_request [lit "/title/tt003/"]])
  /\ scan_search_items ascii_lower Demo.no_ratio Demo.day Demo.gmt5_date
       Demo.web (Demo.finder_of []) (lit "Example Movie")
       (lit "original example") (PStr (lit "2020")) tt
       [[lit "/title/tt003/"]]
       (State (<[lit "Example Movie" := ∅]> ∅) [] [])
     = (Ok tt,
        State (<[lit "Example Movie" :=
                   <["imdb_rating" := PStr (lit "7.5")]> ∅]>
                 (<[lit "Example Movie" := ∅]> ∅))
          [] [entry_request [lit "/title/tt003/"]]).
Proof.
  pose proof (matcher_never_accepts_numeric_year ascii_lower Demo.no_ratio
                Demo.day Demo.gmt5_date Demo.web (Demo.finder_of [])
                (lit "Example Movie") (lit "original example") 2020%Z)
    as (Hnumber & _ & Htext).
  split.
  - exact (Hnumber [lit "/title/tt003/"] []
             (State (<[lit "Example Movie" := ∅]> ∅) [] [])
             (Demo.title_page (lit "Original Example") (lit "2020")
                (lit "7.5"))
             (lit "original example") (lit "2020")
             eq_refl eq_refl eq_refl).
  - exact (Htext [lit "/title/tt003/"] []
             (State (<[lit "Example Movie" := ∅]> ∅) [] [])
             (Demo.title_page (lit "Original Example") (lit "2020")
                (lit "7.5"))
             (lit "original example") (lit "2020") (lit "7.5") ∅
             eq_refl eq_refl eq_refl eq_refl eq_refl eq_refl).
Defined.
